(** * px4tools.analysis: a shallow embedding of the log analysis helpers

    The module [px4tools/analysis.py] works on pandas dataframes of PX4
    flight logs.  The embedding follows the code function by function:

    - a cell is an IEEE binary64 number ([float], Rocq's primitive floats),
      as in the frames [process_data] returns ([get_float_data] ends with
      [.astype(float)]); the index holds the time labels, binary64 too;
    - a series is a value (no function of the module writes into one); a
      dataframe is a mutable object: frames live in a store and functions
      receive a reference, so that an assignment [data[k] = ...] is seen
      through every alias of [data]; a frame a function builds and
      returns is a new object of the store;
    - matplotlib is a list of drawing commands, and drawing does not
      fail; [print] is a list of lines;
    - a Python exception is a [Raise] outcome; [try ... except Exception]
      is [try_except].

    The reductions of pandas and numpy whose floating point result
    depends on their own order of operations ([Series.mean],
    [Series.var], [ndarray.dot], [**], [rad2deg]) are the fields of
    [Numeric]; everything else is computed.

    Not embedded: [alt_analysis] and [pos_analysis] (label look-up and the
    map projection of [mapping.py]), [filter_finite] and [all_new_sample]
    (frame-wide masks and the aliasing of [pandas.DataFrame(df)]), and
    [plot_skip_count_en]. *)

From Stdlib Require Import ZArith List String Ascii Floats Bool Lia.
From stdpp Require Import base option list gmap strings pretty.

Local Open Scope string_scope.
Local Open Scope Z_scope.

(** ** Exceptions and outcomes *)

Inductive exn :=
  | KeyError (k : string)
  | AttributeError (a : string)
  | IndexError
  | ValueError
  | OverflowError
  | TypeError
  | RuntimeError (msg : string).

Inductive outcome (A : Type) :=
  | Ok (a : A)
  | Raise (e : exn).
Arguments Ok {A} a.
Arguments Raise {A} e.

Definition obind {A B} (m : outcome A) (f : A → outcome B) : outcome B :=
  match m with
  | Ok a => f a
  | Raise e => Raise e
  end.

#[global] Instance outcome_ret : MRet outcome := @Ok.
#[global] Instance outcome_bind : MBind outcome := λ A B f m, obind m f.

Definition is_ok {A} (m : outcome A) : bool :=
  match m with Ok _ => true | Raise _ => false end.

(** ** Binary64 helpers *)

Module F64.

Definition nan : float := PrimFloat.nan.

(** [x > 0] on doubles: false on NaN. *)
Definition gt0 (x : float) : bool := PrimFloat.ltb PrimFloat.zero x.

Definition is_nan (x : float) : bool := negb (PrimFloat.eqb x x).

(** [numpy.isfinite]. *)
Definition isfinite (x : float) : bool :=
  match Prim2SF x with
  | S754_zero _ | S754_finite _ _ _ => true
  | S754_infinity _ | S754_nan => false
  end.

(** The double nearest to an integer (Python's [float(n)]). *)
Definition of_Z (z : Z) : float :=
  SF2Prim (binary_normalize prec emax z 0 false).

(** Python's [int(x)]: truncation towards zero; [ValueError] on NaN and
    [OverflowError] on an infinity. *)
Definition to_int (x : float) : outcome Z :=
  match Prim2SF x with
  | S754_zero _ => Ok 0
  | S754_finite s m e =>
      Ok (cond_Zopp s (if 0 <=? e then Z.pos m * 2 ^ e else Z.pos m / 2 ^ (- e)))
  | S754_infinity _ => Raise OverflowError
  | S754_nan => Raise ValueError
  end.

End F64.

(** ** Python sequences *)

(** [l[i]] on a Python sequence: a negative index counts from the end. *)
Definition py_index {A} (l : list A) (i : Z) : outcome A :=
  let n := Z.of_nat (length l) in
  let j := if i <? 0 then n + i else i in
  if (0 <=? j) && (j <? n) then
    match l !! Z.to_nat j with
    | Some x => Ok x
    | None => Raise IndexError
    end
  else Raise IndexError.

(** Boolean-mask selection [a[mask]]: the positions where the mask holds. *)
Fixpoint take_where {A} (mask : list bool) (l : list A) : list A :=
  match mask, l with
  | b :: mask', x :: l' =>
      if b then x :: take_where mask' l' else take_where mask' l'
  | _, _ => []
  end.

(** ** Series *)

(** A series is its samples in order, each a label of the index and a
    value. *)
Definition sample : Type := float * float.
Definition Series : Type := list sample.

Definition s_index (s : Series) : list float := fst <$> s.
Definition s_values (s : Series) : list float := snd <$> s.

(** [Series.diff()]: NaN first, then each value minus the one before. *)
Definition diff (vs : list float) : list float :=
  match vs with
  | [] => []
  | _ :: tl => F64.nan :: zip_with PrimFloat.sub tl vs
  end.

(** The mask [pl.absolute(series.diff()) > 0]. *)
Definition changed_mask (s : Series) : list bool :=
  (fun d => F64.gt0 (PrimFloat.abs d)) <$> diff (s_values s).

(** [new_sample(series)]: [series[pl.absolute(series.diff()) > 0]]. *)
Definition new_sample (s : Series) : Series :=
  take_where (changed_mask s) s.

(** [find_meas_period(series)]. *)
Definition find_meas_period (s : Series) : outcome float :=
  let new := new_sample s in
  last ← py_index (s_index new) (-1);
  first ← py_index (s_index new) 0;
  Ok (PrimFloat.div (PrimFloat.sub last first)
                    (F64.of_Z (Z.of_nat (length new)))).

(** ** Python numbers *)

(** What a statistics dictionary holds: the doubles [statistics]
    computes, or the integer [0] of its [except] branch. *)
Inductive num :=
  | PyInt (z : Z)
  | PyFloat (f : float).

Definition num_float (x : num) : float :=
  match x with
  | PyInt z => F64.of_Z z
  | PyFloat f => f
  end.

Definition num_add (x y : num) : num :=
  match x, y with
  | PyInt a, PyInt b => PyInt (a + b)
  | _, _ => PyFloat (PrimFloat.add (num_float x) (num_float y))
  end.

Definition num_sub (x y : num) : num :=
  match x, y with
  | PyInt a, PyInt b => PyInt (a - b)
  | _, _ => PyFloat (PrimFloat.sub (num_float x) (num_float y))
  end.

(** [pl.array([x, y]).max()]: an integer array when both are integers, a
    double array otherwise, whose maximum keeps a NaN. *)
Definition array_max2 (x y : num) : num :=
  match x, y with
  | PyInt a, PyInt b => PyInt (Z.max a b)
  | _, _ =>
      let a := num_float x in
      let b := num_float y in
      PyFloat (if PrimFloat.leb b a || F64.is_nan a then a else b)
  end.

(** A Python [dict] with string keys. *)
Definition dict_get {V} (d : gmap string V) (k : string) : outcome V :=
  match d !! k with
  | Some v => Ok v
  | None => Raise (KeyError k)
  end.

(** ** Dataframes *)

Record DataFrame := {
  index : list float;
  columns : gmap string (list float)
}.

(** Every column is as long as the index. *)
Definition frame_wf (df : DataFrame) : Prop :=
  ∀ k col, columns df !! k = Some col → length col = length (index df).

(** [df[key]]. *)
Definition getitem (df : DataFrame) (key : string) : outcome Series :=
  match columns df !! key with
  | Some col => Ok (zip (index df) col)
  | None => Raise (KeyError key)
  end.

(** [df.key]. *)
Definition getattr (df : DataFrame) (key : string) : outcome Series :=
  match columns df !! key with
  | Some col => Ok (zip (index df) col)
  | None => Raise (AttributeError key)
  end.

(** [df[mask]] with a boolean mask over the rows. *)
Definition frame_where (mask : list bool) (df : DataFrame) : DataFrame :=
  {| index := take_where mask (index df);
     columns := take_where mask <$> columns df |}.

(** [df[key] = values] *)
Definition setitem (df : DataFrame) (key : string) (col : list float) : DataFrame :=
  {| index := index df; columns := <[key := col]> (columns df) |}.

(** ** The interpreter state: frames, figure, standard output *)

Notation loc := positive (only parsing).

Inductive artist :=
  | Figure
  | Subplot (n : Z)
  | Title (s : string)
  | XLabel (s : string)
  | YLabel (s : string)
  | Grid
  | Legend (labels : option (list string))
  | Axis (limits : list num)
  | YLim (lo hi : Z)
  | YTicks (ticks : list Z) (labels : list string)
  | Autoscale
  | Line (s : Series) (legend : bool) (alpha : option float)
  | Curve (xs ys : list float) (fmt label : string)
  | HLines (ys : list num) (xmin xmax : float) (color : string)
  | AxVSpan (t_min t_max : float) (alpha : float) (color label : string).

Inductive line :=
  | PrintExn (e : exn)
  | PrintStr (s : string)
  | PrintParam (key : string) (value : num).

Record world := {
  frames : gmap loc DataFrame;
  canvas : list artist;
  stdout : list line
}.

Definition Py (A : Type) : Type := world → outcome A * world.

Definition py_ret {A} (a : A) : Py A := λ w, (Ok a, w).

Definition py_bind {A B} (m : Py A) (f : A → Py B) : Py B :=
  λ w, match m w with
       | (Ok a, w') => f a w'
       | (Raise e, w') => (Raise e, w')
       end.

#[global] Instance Py_ret : MRet Py := @py_ret.
#[global] Instance Py_bind : MBind Py := λ A B f m, py_bind m f.

Definition lift {A} (m : outcome A) : Py A := λ w, (m, w).

Definition raise {A} (e : exn) : Py A := lift (Raise e).

(** [try: body except E as e: handler(e)] for the exceptions [E] that
    [catches] accepts; what [body] changed before it raised stays
    changed. *)
Definition try_except_when {A} (catches : exn → bool) (body : Py A)
    (handler : exn → Py A) : Py A :=
  λ w, match body w with
       | (Ok a, w') => (Ok a, w')
       | (Raise e, w') => if catches e then handler e w' else (Raise e, w')
       end.

Definition is_AttributeError (e : exn) : bool :=
  match e with AttributeError _ => true | _ => false end.

(** [try: body except Exception as e: handler(e)] *)
Definition try_except {A} (body : Py A) (handler : exn → Py A) : Py A :=
  λ w, match body w with
       | (Ok a, w') => (Ok a, w')
       | (Raise e, w') => handler e w'
       end.

(** Dereferencing; a reference the store does not hold is not a Python
    value, and no function below creates one. *)
Definition deref (l : loc) : Py DataFrame :=
  λ w, match frames w !! l with
       | Some df => (Ok df, w)
       | None => (Raise TypeError, w)
       end.

Definition assign (l : loc) (df : DataFrame) : Py unit :=
  λ w, (Ok (), {| frames := <[l := df]> (frames w);
                  canvas := canvas w; stdout := stdout w |}).

(** A new frame object. *)
Definition alloc (df : DataFrame) : Py loc :=
  λ w, let l := fresh (dom (frames w)) in
       (Ok l, {| frames := <[l := df]> (frames w);
                 canvas := canvas w; stdout := stdout w |}).

Definition draw (a : artist) : Py unit :=
  λ w, (Ok (), {| frames := frames w;
                  canvas := canvas w ++ [a]; stdout := stdout w |}).

Definition print (x : line) : Py unit :=
  λ w, (Ok (), {| frames := frames w;
                  canvas := canvas w; stdout := stdout w ++ [x] |}).

(** [for x in xs: body x] *)
Fixpoint for_each {A} (xs : list A) (body : A → Py unit) : Py unit :=
  match xs with
  | [] => mret ()
  | x :: rest => body x ;; for_each rest body
  end.

(** ** The numerical library *)

(** The operations of pandas and numpy whose result depends on their own
    order of floating point operations. *)
Class Numeric := {
  (** [Series.mean()] *)
  series_mean : list float → float;
  (** [Series.var()] *)
  series_var : list float → float;
  (** [x ** n] on a numpy double *)
  float_pow : float → Z → float;
  (** [a.dot(b)] on two-dimensional arrays, given by rows *)
  array_dot : list (list float) → list (list float) → list (list float);
  (** [pl.rad2deg(x)] *)
  rad2deg : float → float
}.

(** ** statistics *)

Section Statistics.
Context `{Numeric}.

(** The locals of one iteration of [statistics] after its [try]. *)
Record stats_locals := {
  l_dt : num;
  l_stddev : num;
  l_mean : num;
  l_noise_power : num;
  l_variance : num
}.

(** The [try] block of [statistics]. *)
Definition stats_try (df : DataFrame) (key : string) : outcome stats_locals :=
  col ← getitem df key;
  let df_meas := new_sample col in
  dt ← find_meas_period df_meas;
  let stddev := PrimFloat.sqrt (series_var (s_values df_meas)) in
  let mean := series_mean (s_values df_meas) in
  let variance := float_pow stddev 2 in
  let noise_power := PrimFloat.mul variance dt in
  Ok {| l_dt := PyFloat dt; l_stddev := PyFloat stddev;
        l_mean := PyFloat mean; l_noise_power := PyFloat noise_power;
        l_variance := PyFloat variance |}.

(** The [except Exception] block of [statistics]. *)
Definition stats_except : stats_locals :=
  {| l_dt := PyInt 0; l_stddev := PyInt 0; l_mean := PyInt 0;
     l_noise_power := PyInt 0; l_variance := PyInt 0 |}.

(** The five assignments [data[key+'_...'] = ...], in the order of the
    code. *)
Definition stats_store (key : string) (v : stats_locals)
    (data : gmap string num) : gmap string num :=
  <[key +:+ "_noise_power" := l_noise_power v]>
  (<[key +:+ "_dt" := l_dt v]>
  (<[key +:+ "_mean" := l_mean v]>
  (<[key +:+ "_variance" := l_variance v]>
  (<[key +:+ "_stddev" := l_stddev v]> data)))).

(** The [if plot:] block of [statistics]. *)
Definition stats_plot (df : loc) (key : string) (v : stats_locals) : Py unit :=
  draw Figure ;;
  draw (Title (key +:+ " statistics")) ;;
  d ← deref df;
  col ← lift (getitem d key);
  draw (Line col false (Some 0.5%float)) ;;
  d ← deref df;
  t0 ← lift (py_index (index d) 0);
  t1 ← lift (py_index (index d) (-1));
  draw (HLines [l_mean v] t0 t1 "k") ;;
  t0 ← lift (py_index (index d) 0);
  t1 ← lift (py_index (index d) (-1));
  draw (HLines [num_add (l_mean v) (l_stddev v);
                num_sub (l_mean v) (l_stddev v)] t0 t1 "r").

(** The loop of [statistics] from a given [data]. *)
Fixpoint stats_loop (df : loc) (keys : list string) (plot : bool)
    (data : gmap string num) : Py (gmap string num) :=
  match keys with
  | [] => mret data
  | key :: rest =>
      v ← try_except (d ← deref df; lift (stats_try d key))
                     (λ _, mret stats_except);
      let data := stats_store key v data in
      (if plot then stats_plot df key v else mret ()) ;;
      stats_loop df rest plot data
  end.

(** [statistics(df, keys=None, plot=False)]: iterating over [None]
    raises [TypeError]. *)
Definition statistics (df : loc) (keys : option (list string)) (plot : bool)
    : Py (gmap string num) :=
  match keys with
  | None => raise TypeError
  | Some keys => stats_loop df keys plot ∅
  end.

(** ** find_lpe_gains *)

Definition lpe_keys : list string :=
  ["GPS_X"; "GPS_Y"; "GPS_Z"; "GPS_VelN"; "GPS_VelE"; "GPS_VelD";
   "DIST_Distance";
   "IMU1_AccX"; "IMU1_AccY"; "IMU1_AccZ"; "SENS_BaroAlt"].

(** The dictionary display [params = {...}]. *)
Definition lpe_params (stats : gmap string num) : outcome (gmap string num) :=
  ldr_z ← dict_get stats "DIST_Distance_stddev";
  bar_z ← dict_get stats "SENS_BaroAlt_stddev";
  acc_x ← dict_get stats "IMU1_AccX_stddev";
  acc_x_np ← dict_get stats "IMU1_AccX_noise_power";
  acc_z ← dict_get stats "IMU1_AccZ_stddev";
  gps_x ← dict_get stats "GPS_X_stddev";
  gps_y ← dict_get stats "GPS_Y_stddev";
  gps_z ← dict_get stats "GPS_Z_stddev";
  gps_vn ← dict_get stats "GPS_VelN_stddev";
  gps_ve ← dict_get stats "GPS_VelE_stddev";
  gps_vz ← dict_get stats "GPS_VelD_stddev";
  Ok (<["LPE_GPS_VZ" := gps_vz]>
     (<["LPE_GPS_VXY" := array_max2 gps_vn gps_ve]>
     (<["LPE_GPS_Z" := gps_z]>
     (<["LPE_GPS_XY" := array_max2 gps_x gps_y]>
     (<["LPE_ACC_Z" := acc_z]>
     (<["LPE_ACC_XY" := array_max2 acc_x acc_x_np]>
     (<["LPE_BAR_Z" := bar_z]>
     (<["LPE_LDR_Z" := ldr_z]> ∅)))))))).

(** [find_lpe_gains(df, printing=False)]; the lines are printed in the
    order of the dictionary's keys. *)
Definition find_lpe_gains (df : loc) (printing : bool) : Py (gmap string num) :=
  stats ← statistics df (Some lpe_keys) false;
  params ← lift (lpe_params stats);
  (if printing
   then for_each (map_to_list params) (λ kv, print (PrintParam kv.1 kv.2))
   else mret ()) ;;
  mret params.

End Statistics.

(** ** What a function returns *)

Inductive pyvalue :=
  | VNone
  | VBool (b : bool)
  | VNum (x : num)
  | VDict (d : gmap string num)
  | VSeries (s : Series)
  | VFrame (l : loc)
  | VTuple (vs : list pyvalue).

(** ** get_auto_data *)

(** The three selections of [get_auto_data] and its test. *)
Definition auto_rows (data : DataFrame) : outcome DataFrame :=
  state ← getitem data "STAT_MainState";
  let data := frame_where ((λ v, PrimFloat.eqb v 3%float) <$> s_values state) data in
  lat ← getitem data "GPSP_Lat";
  let data := frame_where (F64.isfinite <$> s_values lat) data in
  lon ← getitem data "GPSP_Lon";
  let data := frame_where (F64.isfinite <$> s_values lon) data in
  if (length (index data) =? 0)%nat
  then Raise (RuntimeError "no auto mode detected")
  else Ok data.

(** [get_auto_data(data)]: the selections build new frames, the argument
    is only read. *)
Definition get_auto_data (data : loc) : Py loc :=
  d ← deref data;
  r ← lift (auto_rows d);
  alloc r.

(** ** set_time_series, get_float_data, process_data *)

(** [(data['TIME_StartTime'] - data['TIME_StartTime'].values[0])/1.0e6] *)
Definition time_sec (data : DataFrame) : outcome (list float) :=
  time ← getitem data "TIME_StartTime";
  time' ← getitem data "TIME_StartTime";
  t0 ← py_index (s_values time') 0;
  Ok ((λ v, PrimFloat.div (PrimFloat.sub v t0) 1.0e6%float) <$> s_values time).

Definition time_series_of (data : DataFrame) : outcome DataFrame :=
  t ← time_sec data;
  Ok {| index := t; columns := columns data |}.

(** [set_time_series(data)] *)
Definition set_time_series (data : loc) : Py loc :=
  d ← deref data;
  r ← lift (time_series_of d);
  alloc r.

(** [cell.astype(float)] on an array of doubles. *)
Definition astype_float (cell : list float) : outcome (list float) := Ok cell.

(** [isfloatarray(cell)] *)
Definition isfloatarray (cell : list float) : outcome bool :=
  match astype_float cell with
  | Ok _ => Ok true
  | Raise ValueError => Ok false
  | Raise e => Raise e
  end.

Definition float_data_of (dataframe : DataFrame) : outcome DataFrame :=
  time ← getattr dataframe "TIME_StartTime";
  let dataframe := frame_where (F64.isfinite <$> s_values time) dataframe in
  float_cols ← mapM (λ kc : string * list float,
                        b ← isfloatarray kc.2; Ok (kc.1, b))
                    (map_to_list (columns dataframe));
  let keep : gset string :=
    list_to_set (fst <$> filter (λ kb : string * bool, kb.2 = true) float_cols) in
  Ok {| index := index dataframe;
        columns := filter (λ kc : string * list float, kc.1 ∈ keep)
                          (columns dataframe) |}.

(** [get_float_data(dataframe)] *)
Definition get_float_data (dataframe : loc) : Py loc :=
  d ← deref dataframe;
  r ← lift (float_data_of d);
  alloc r.

(** [process_data(data)] *)
Definition process_data (data : loc) : Py loc :=
  l ← get_float_data data;
  set_time_series l.

(** ** process_lpe_health *)

Definition health_names : list string :=
  ["baro"; "gps"; "lidar"; "flow"; "sonar"; "vision"; "mocap"].

(** The array [pl.array([[a if (int(data.attr.values[i]) & 2**j) else b
    for j in range(7)] for i in range(len(data.index))])], by rows. *)
Definition health_bits (data : DataFrame) (attr : string) (a b : Z)
    : outcome (list (list Z)) :=
  mapM (λ i : Z,
    mapM (λ j : Z,
      col ← getattr data attr;
      v ← py_index (s_values col) i;
      n ← F64.to_int v;
      Ok (if Z.land n (2 ^ j) =? 0 then b else a))
      (seqZ 0 7))
    (seqZ 0 (Z.of_nat (length (index data)))).

(** [bits[:, i]]: an array without rows has one dimension only. *)
Definition health_column (bits : list (list Z)) (i : Z) : outcome (list Z) :=
  match bits with
  | [] => Raise IndexError
  | _ => mapM (λ row, py_index row i) bits
  end.

(** One [try] block of [process_lpe_health]. *)
Definition health_try (data : loc) (attr prefix : string) (a b : Z) : Py unit :=
  d ← deref data;
  bits ← lift (health_bits d attr a b);
  for_each (seqZ 0 7) (λ i,
    name ← lift (py_index health_names i);
    col ← lift (health_column bits i);
    d ← deref data;
    assign data (setitem d (prefix +:+ name) (F64.of_Z <$> col))).

(** [process_lpe_health(data)]: writes into [data] and returns it. *)
Definition process_lpe_health (data : loc) : Py loc :=
  try_except (health_try data "EST2_fHealth" "fault_" 1 0)
             (λ e, print (PrintExn e)) ;;
  try_except (health_try data "EST0_fTOut" "timeout_" 0 1)
             (λ e, print (PrintExn e)) ;;
  mret data.

(** ** background_flight_modes *)

Definition FLIGHT_MODES : list string :=
  ["MANUAL"; "ALTCTL"; "POSCTL"; "AUTO_MISSION"; "AUTO_LOITER"; "AUTO_RTL";
   "ACRO"; "OFFBOARD"; "STAB"; "RATTITUDE"; "AUTO_TAKEOFF"; "AUTO_LAND";
   "AUTO_FOLLOW_TARGET"; "MAX"].

(** Equality of the hash table behind [Series.unique()]: [==], and all
    NaNs alike. *)
Definition same_key (x y : float) : bool :=
  PrimFloat.eqb x y || (F64.is_nan x && F64.is_nan y).

Fixpoint unique_from (seen vs : list float) : list float :=
  match vs with
  | [] => []
  | v :: rest =>
      if existsb (same_key v) seen then unique_from seen rest
      else v :: unique_from (v :: seen) rest
  end.

(** [Series.unique()]: the distinct values in order of first appearance. *)
Definition unique (vs : list float) : list float := unique_from [] vs.

(** [Series.count()]: the values that are not NaN. *)
Definition count (s : Series) : Z :=
  Z.of_nat (length (filter (λ v, F64.is_nan v = false) (s_values s))).

Section FlightModes.
(** [matplotlib.colors.cnames] as [six.iteritems] lists it. *)
Variable cnames : list (string * string).

(** [colors_]: the pairs of [cnames] behind the string ['white']. *)
Definition colors_ : list (string + string * string) :=
  inl "white" :: (inr <$> cnames).

(** [c[0]] on an element of [colors_]. *)
Definition item0 (c : string + string * string) : outcome string :=
  match c with
  | inl (String a _) => Ok (String a "")
  | inl EmptyString => Raise IndexError
  | inr (name, _) => Ok name
  end.

(** The body of the loop over the modes: the span it draws. *)
Definition mode_span (data : DataFrame) (m : float) : outcome artist :=
  state ← getattr data "STAT_MainState";
  state' ← getattr data "STAT_MainState";
  let mode := take_where ((λ v, PrimFloat.eqb v m) <$> s_values state') state in
  t_min ← py_index (s_index mode) 0;
  t_max ← py_index (s_index mode) (count mode - 1);
  i ← F64.to_int m;
  c ← py_index colors_ i;
  color ← item0 c;
  i' ← F64.to_int m;
  label ← py_index FLIGHT_MODES i';
  Ok (AxVSpan t_min t_max 0.3%float color label).

(** [background_flight_modes(data)] *)
Definition background_flight_modes (data : loc) : Py unit :=
  d ← deref data;
  state ← lift (getattr d "STAT_MainState");
  let modes := unique (s_values state) in
  for_each modes (λ m,
    d ← deref data;
    span ← lift (mode_span d m);
    draw span).

End FlightModes.

(** ** octa_cox_data_to_ss *)

(** [data[[k1, ...]].values], by columns. *)
Definition select (data : DataFrame) (keys : list string)
    : outcome (list (list float)) :=
  match filter (λ k, columns data !! k = None) keys with
  | k :: _ => Raise (KeyError k)
  | [] => mapM (λ k, s ← getitem data k; Ok (s_values s)) keys
  end.

(** [pandas.DataFrame(values, columns=names, index=t)] *)
Definition frame_of (names : list string) (values : list (list float))
    (t : list float) : DataFrame :=
  {| index := t; columns := list_to_map (zip names values) |}.

Section Octa.
Context `{Numeric}.

(** [C_mix_octo]: the mixer matrix over [8.0]. *)
Definition C_mix_octo : list (list float) :=
  (λ row : list Z, (λ c, PrimFloat.div (F64.of_Z c) 8.0%float) <$> row) <$>
    [ [1; 1; 1; 1; 1; 1; 1; 1];         (* thrust *)
      [-1; 1; 1; -1; -1; 1; 1; -1];     (* roll *)
      [-1; -1; 1; 1; -1; -1; 1; 1];     (* pitch *)
      [1; -1; 1; -1; 1; -1; 1; -1] ].   (* yaw *)

(** [octa_cox_data_to_ss(data)]: the tuple [(t, xh, u, y, u_raw)]. *)
Definition octa_cox_data_to_ss (data : loc) : Py pyvalue :=
  d ← deref data;
  t ← lift (time_sec d);
  xh ← lift (select d ["LPOS_X"; "LPOS_Y"; "LPOS_Z";
                       "LPOS_VX"; "LPOS_VY"; "LPOS_VZ";
                       "ATT_Roll"; "ATT_Pitch"; "ATT_Yaw";
                       "ATT_RollRate"; "ATT_PitchRate"; "ATT_YawRate"]);
  xh ← alloc (frame_of ["X"; "Y"; "Z"; "V_X"; "V_Y"; "V_Z";
                        "Phi"; "Theta"; "Psi"; "P"; "Q"; "R"] xh t);
  y ← lift (select d ["GPS_Lat"; "GPS_Lon"; "GPS_Alt";
                      "SENS_BaroAlt";
                      "IMU1_AccX"; "IMU1_AccY"; "IMU1_AccZ";
                      "IMU1_GyroX"; "IMU1_GyroY"; "IMU1_GyroZ";
                      "IMU1_MagX"; "IMU1_MagY"; "IMU1_MagZ"]);
  y ← alloc (frame_of ["GPS_Lat"; "GPS_Lon"; "GPS_Alt";
                       "Baro_Alt";
                       "Acc_X"; "Acc_Y"; "Acc_Z";
                       "Gyro_X"; "Gyro_Y"; "Gyro_Z";
                       "Mag_X"; "Mag_Y"; "Mag_Z"] y t);
  out ← lift (select d ["OUT0_Out0"; "OUT0_Out1"; "OUT0_Out2";
                        "OUT0_Out3"; "OUT0_Out4"; "OUT0_Out5";
                        "OUT0_Out6"; "OUT0_Out7"]);
  let raw :=
    (λ col : list float,
       (λ v, PrimFloat.div (PrimFloat.sub v 1000.0%float) 1000.0%float)
         <$> col) <$> out in
  u_raw ← alloc (frame_of ["1"; "2"; "3"; "4"; "5"; "6"; "7"; "8"] raw t);
  u ← alloc (frame_of ["thrust"; "roll"; "pitch"; "yaw"]
                      (array_dot C_mix_octo raw) t);
  mret (VTuple [VSeries (zip (index d) t); VFrame xh; VFrame u; VFrame y;
                VFrame u_raw]).

End Octa.

(** ** Charts *)

Section Charts.
Context `{Numeric}.
Variable cnames : list (string * string).

(** [data.name] *)
Definition attr (data : loc) (name : string) : Py Series :=
  d ← deref data;
  lift (getattr d name).

Definition series_map (f : float → float) (s : Series) : Series :=
  prod_map id f <$> s.

(** [series.plot(legend=..., alpha=...)] *)
Definition plot (s : Series) (legend : bool) (alpha : option float) : Py unit :=
  draw (Line s legend alpha).

(** [data.name.plot(legend=...)] *)
Definition plot_attr (data : loc) (name : string) (legend : bool) : Py unit :=
  s ← attr data name;
  plot s legend None.

(** [pl.rad2deg(data.name).plot(legend=...)] *)
Definition plot_deg (data : loc) (name : string) (legend : bool) : Py unit :=
  s ← attr data name;
  plot (series_map rad2deg s) legend None.

(** One panel of a control loop chart: the estimate with its legend
    and the setpoint. *)
Definition plot_attitude_loops (data : loc) : Py unit :=
  draw (Subplot 311) ;;
  draw (Title "attitude") ;;
  plot_deg data "ATT_Roll" true ;;
  plot_deg data "ATSP_RollSP" false ;;
  draw (YLabel "roll, deg") ;;
  draw Grid ;;
  background_flight_modes cnames data ;;
  draw (Subplot 312) ;;
  plot_deg data "ATT_Pitch" true ;;
  plot_deg data "ATSP_PitchSP" false ;;
  draw Grid ;;
  draw (YLabel "pitch, deg") ;;
  background_flight_modes cnames data ;;
  draw (Subplot 313) ;;
  plot_deg data "ATT_Yaw" true ;;
  plot_deg data "ATSP_YawSP" false ;;
  draw Grid ;;
  draw (YLabel "yaw, deg") ;;
  background_flight_modes cnames data.

Definition plot_attitude_rate_loops (data : loc) : Py unit :=
  draw (Title "attitude rate control") ;;
  draw (Subplot 311) ;;
  plot_deg data "ATT_RollRate" true ;;
  plot_deg data "ARSP_RollRateSP" false ;;
  draw (YLabel "roll, deg/s") ;;
  draw Grid ;;
  background_flight_modes cnames data ;;
  draw (Subplot 312) ;;
  plot_deg data "ATT_PitchRate" true ;;
  plot_deg data "ARSP_PitchRateSP" false ;;
  draw (YLabel "pitch, deg/s") ;;
  draw Grid ;;
  background_flight_modes cnames data ;;
  draw (Subplot 313) ;;
  plot_deg data "ATT_YawRate" true ;;
  plot_deg data "ARSP_YawRateSP" false ;;
  draw (XLabel "t, sec") ;;
  draw (YLabel "yaw, deg/s") ;;
  draw Grid ;;
  background_flight_modes cnames data.

Definition plot_attitude_control_loops (data : loc) : Py unit :=
  draw (Title "attitude control") ;;
  draw (Subplot 311) ;;
  plot_deg data "ATTC_Roll" true ;;
  draw (YLabel "roll, deg/s") ;;
  draw (Subplot 312) ;;
  plot_deg data "ATTC_Pitch" true ;;
  draw (YLabel "pitch, deg/s") ;;
  draw (Subplot 313) ;;
  plot_deg data "ATTC_Yaw" true ;;
  draw (YLabel "yaw, deg/s").

Definition plot_velocity_loops (data : loc) : Py unit :=
  draw (Subplot 311) ;;
  draw (Title "velocity control") ;;
  plot_attr data "LPOS_VX" true ;;
  plot_attr data "LPSP_VX" false ;;
  draw (YLabel "x, m/s") ;;
  draw Grid ;;
  background_flight_modes cnames data ;;
  draw (Subplot 312) ;;
  plot_attr data "LPOS_VY" true ;;
  plot_attr data "LPSP_VY" false ;;
  draw (YLabel "y, m/s") ;;
  draw Grid ;;
  background_flight_modes cnames data ;;
  draw (Subplot 313) ;;
  plot_attr data "LPOS_VZ" true ;;
  plot_attr data "LPSP_VZ" false ;;
  draw (XLabel "t, sec") ;;
  draw (YLabel "z, m/s") ;;
  draw Grid ;;
  background_flight_modes cnames data.

Definition plot_position_loops (data : loc) : Py unit :=
  draw (Subplot 311) ;;
  draw (Title "position control") ;;
  plot_attr data "LPOS_X" true ;;
  plot_attr data "LPSP_X" false ;;
  draw (YLabel "x, m") ;;
  draw Grid ;;
  background_flight_modes cnames data ;;
  draw (Subplot 312) ;;
  plot_attr data "LPOS_Y" true ;;
  plot_attr data "LPSP_Y" false ;;
  draw (YLabel "y, m") ;;
  draw Grid ;;
  background_flight_modes cnames data ;;
  draw (Subplot 313) ;;
  plot_attr data "LPOS_Z" true ;;
  plot_attr data "LPSP_Z" false ;;
  draw (YLabel "z, m") ;;
  draw Grid ;;
  background_flight_modes cnames data.

Definition plot_control_loops (data : loc) : Py unit :=
  plot_attitude_rate_loops data ;;
  plot_attitude_loops data ;;
  plot_velocity_loops data ;;
  plot_position_loops data.

(** [(100 * data.name).plot(legend=True)] *)
Definition plot_percent (data : loc) (name : string) : Py unit :=
  s ← attr data name;
  plot (series_map (PrimFloat.mul 100%float) s) true None.

Definition plot_rc_inputs (data : loc) (rc_mapping : option (list string))
    : Py unit :=
  draw (Title "RC Inputs") ;;
  draw (YLabel "Normalized Inputs (%)") ;;
  for_each ["RC_C0"; "RC_C1"; "RC_C2"; "RC_C4"; "RC_C5"; "RC_C6"; "RC_C7";
            "RC_C8"; "RC_C9"; "RC_C10"; "RC_C11"] (plot_percent data) ;;
  draw (Legend rc_mapping) ;;
  background_flight_modes cnames data.

Definition plot_acceleration_raw (data : loc) : Py unit :=
  draw (Title "Raw Acceleration") ;;
  draw (YLabel "m/s^2") ;;
  plot_attr data "IMU_AccX" true ;;
  plot_attr data "IMU_AccY" true ;;
  plot_attr data "IMU_AccZ" true ;;
  background_flight_modes cnames data.

Definition plot_angular_speed_raw (data : loc) : Py unit :=
  draw (Title "Raw Angular Speed") ;;
  draw (YLabel "deg/s") ;;
  plot_deg data "IMU_GyroX" true ;;
  plot_deg data "IMU_GyroY" true ;;
  plot_deg data "IMU_GyroZ" true ;;
  background_flight_modes cnames data.

Definition plot_magnetic_raw (data : loc) : Py unit :=
  draw (Title "Raw Magnetic Field Strengh") ;;
  plot_attr data "IMU_MagX" true ;;
  plot_attr data "IMU_MagY" true ;;
  plot_attr data "IMU_MagZ" true ;;
  background_flight_modes cnames data.

Definition plot_gps_stats (data : loc) : Py unit :=
  draw (Title "GPS Statistics") ;;
  plot_attr data "GPS_EPH" true ;;
  plot_attr data "GPS_EPV" true ;;
  plot_attr data "GPS_nSat" true ;;
  background_flight_modes cnames data.

Definition plot_distance_sensor (data : loc) : Py unit :=
  draw (Title "Distance Sensor") ;;
  plot_attr data "DIST_Distance" true ;;
  plot_attr data "DIST_Covariance" true ;;
  background_flight_modes cnames data.

Definition plot_sonar_raw (data : loc) : Py unit :=
  draw (Title "Raw Sonar Distance") ;;
  plot_attr data "FLOW_DtSonar" true ;;
  plot_attr data "FLOW_DtSonar" true ;;
  background_flight_modes cnames data.

Definition plot_optical_flow_raw (data : loc) : Py unit :=
  draw (Title "Raw Optical Flow Position") ;;
  plot_attr data "FLOW_RawX" true ;;
  plot_attr data "FLOW_RawY" true ;;
  background_flight_modes cnames data.

Definition plot_optical_flow_quality (data : loc) : Py unit :=
  draw (Title "Optical Flow Quality") ;;
  plot_attr data "FLOW_Qlty" true ;;
  background_flight_modes cnames data.

(** [Series.max()]: the largest of the values that are not NaN, NaN
    when there is none. *)
Definition series_max (s : Series) : float :=
  match List.filter (λ v, negb (F64.is_nan v)) (s_values s) with
  | [] => F64.nan
  | v :: vs => foldl (λ acc x, if PrimFloat.ltb acc x then x else acc) v vs
  end.

(** [_plot_outputs(data, channel)] *)
Definition _plot_outputs (data : loc) (channel : Z) : Py unit :=
  let columns :=
    (λ i : Z, "OUT" +:+ pretty channel +:+ "_Out" +:+ pretty i) <$> seqZ 0 8 in
  for_each columns (λ c,
    d ← deref data;
    s ← lift (getitem d c);
    if PrimFloat.ltb 0%float (series_max s)
    then d ← deref data; s ← lift (getitem d c); plot s true None
    else mret ()).

Definition plot_px4io_outputs (data : loc) : Py unit :=
  draw (Title "PX4IO Outputs") ;;
  _plot_outputs data 0 ;;
  background_flight_modes cnames data.

Definition plot_px4fmu_outputs (data : loc) : Py unit :=
  draw (Title "AUX Outputs") ;;
  _plot_outputs data 1 ;;
  background_flight_modes cnames data.

Definition plot_modes (data : loc) : Py unit :=
  plot_attr data "STAT_MainState" false ;;
  draw (YLim 0 13) ;;
  draw (YTicks (seqZ 0 13) FLIGHT_MODES) ;;
  background_flight_modes cnames data.

Definition plot_faults (data : loc) : Py unit :=
  try_except_when is_AttributeError
    (s ← attr data "fault_sonar"; plot s false (Some 0.1%float) ;;
     plot_attr data "fault_baro" false ;;
     plot_attr data "fault_gps" false ;;
     plot_attr data "fault_flow" false ;;
     plot_attr data "fault_vision" false ;;
     plot_attr data "fault_mocap" false ;;
     plot_attr data "fault_lidar" false)
    (λ e, print (PrintExn e)).

End Charts.

(** * Specification-side notions

    What the claims about the module speak of: the names of the
    statistics, rows, runs of a flight mode, the effect of a call on the
    store, the kind of a returned value. *)

(** ** Names of the statistics *)

Definition stat_suffixes : list string :=
  ["_stddev"; "_variance"; "_mean"; "_dt"; "_noise_power"].

(** The five names [statistics] writes for a key. *)
Definition stat_names (key : string) : list string :=
  (λ s, key +:+ s) <$> stat_suffixes.

(** The local a suffix stores. *)
Definition stat_field (s : string) (v : stats_locals) : num :=
  if decide (s = "_stddev") then l_stddev v
  else if decide (s = "_variance") then l_variance v
  else if decide (s = "_mean") then l_mean v
  else if decide (s = "_dt") then l_dt v
  else l_noise_power v.

Fixpoint last_char (s : string) : option ascii :=
  match s with
  | EmptyString => None
  | String a EmptyString => Some a
  | String _ s' => last_char s'
  end.

Section KeyStats.
Context `{Numeric}.

(** What one iteration of [statistics] leaves in the locals: the values
    of the [try] block, or the zeros of the handler. *)
Definition key_stats (w : world) (df : loc) (key : string) : stats_locals :=
  match frames w !! df with
  | Some d =>
      match stats_try d key with
      | Ok v => v
      | Raise _ => stats_except
      end
  | None => stats_except
  end.

End KeyStats.

(** ** Rows *)

(** A row: its label and its cell in every column. *)
Definition row : Type := float * gmap string float.

Fixpoint rows_of (idx : list float) (cols : gmap string (list float)) : list row :=
  match idx with
  | [] => []
  | t :: idx' => (t, omap head cols) :: rows_of idx' (tail <$> cols)
  end.

Definition rows (df : DataFrame) : list row := rows_of (index df) (columns df).

(** The test [f] on the cell of column [k]. *)
Definition row_test (k : string) (f : float → bool) (r : row) : bool :=
  match r.2 !! k with
  | Some v => f v
  | None => false
  end.

(** A row of automatic flight with a position setpoint:
    [STAT_MainState == 3] with finite [GPSP_Lat] and [GPSP_Lon]. *)
Definition auto_row (r : row) : bool :=
  row_test "STAT_MainState" (λ v, PrimFloat.eqb v 3%float) r &&
  row_test "GPSP_Lat" F64.isfinite r &&
  row_test "GPSP_Lon" F64.isfinite r.

#[global] Instance frame_wf_dec (df : DataFrame) : Decision (frame_wf df).
Proof.
  change (Decision (map_Forall (λ (_ : string) (col : list float),
                                  length col = length (index df)) (columns df))).
  apply map_Forall_dec. intros. apply _.
Defined.

(** ** The effect of a call on the store *)

(** A function leaves the frame it is given as it was. *)
Definition leaves_argument {A} (f : loc → Py A) : Prop :=
  ∀ data w, frames (f data w).2 !! data = frames w !! data.

(** A computation takes every store to one related to it by [R]. *)
Definition preserves (R : relation (gmap loc DataFrame)) {A} (m : Py A) : Prop :=
  ∀ w, R (frames w) (frames (m w).2).

(** The store only grows: what was allocated is as it was. *)
Definition grows : relation (gmap loc DataFrame) :=
  λ fs fs', ∀ l, is_Some (fs !! l) → fs' !! l = fs !! l.

(** The columns [process_lpe_health] assigns. *)
Definition health_columns : list string :=
  ((λ n, "fault_" +:+ n) <$> health_names) ++
  ((λ n, "timeout_" +:+ n) <$> health_names).

(** Only the frame [data] differs, and only in columns of [names]. *)
Definition writes_columns (data : loc) (names : list string)
    : relation (gmap loc DataFrame) :=
  λ fs fs',
    (∀ l, l ≠ data → fs' !! l = fs !! l) ∧
    (index <$> fs' !! data = index <$> fs !! data) ∧
    (∀ k, k ∉ names →
       (λ d, columns d !! k) <$> fs' !! data = (λ d, columns d !! k) <$> fs !! data).

#[global] Instance grows_preorder : PreOrder grows.
Proof.
  split.
  - by intros fs l _.
  - intros f1 f2 f3 H12 H23 l Hl. rewrite H23, H12; [done..|].
    by rewrite H12.
Qed.

#[global] Instance writes_columns_preorder data names :
  PreOrder (writes_columns data names).
Proof.
  split.
  - by intros fs.
  - intros f1 f2 f3 (A1 & B1 & C1) (A2 & B2 & C2). split; [|split].
    + intros l Hl. by rewrite A2, A1.
    + by rewrite B2, B1.
    + intros k Hk. by rewrite C2, C1.
Qed.

(** Whatever a computation returns satisfies [P]. *)
Definition returns {A} (P : A → Prop) (m : Py A) : Prop :=
  ∀ w a, (m w).1 = Ok a → P a.

(** ** Samples that change *)

(** Python's [v != prev] on doubles. *)
Definition differs (prev v : float) : bool := negb (PrimFloat.eqb v prev).

(** [v] and [prev] are numbers, and [v != prev]. *)
Definition number_changed (prev v : float) : bool :=
  negb (F64.is_nan v) && negb (F64.is_nan prev) && differs prev v.

(** The samples that pass [test] against the value of the sample before;
    [prev] is the value before the first sample of [s]. *)
Fixpoint samples_after (test : float → float → bool) (prev : float) (s : Series)
    : Series :=
  match s with
  | [] => []
  | (t, v) :: s' =>
      if test prev v then (t, v) :: samples_after test v s'
      else samples_after test v s'
  end.

(** The samples whose value passes [test] against the value of the
    immediately preceding sample. *)
Definition samples_where (test : float → float → bool) (s : Series) : Series :=
  match s with
  | [] => []
  | (_, v) :: s' => samples_after test v s'
  end.

Definition no_nan (s : Series) : Prop := Forall (λ p, F64.is_nan p.2 = false) s.

(** ** Flight mode intervals *)

(** A contiguous interval of one flight mode: the mode, the time of its
    first row and the time of its last row. *)
Record interval := {
  i_mode : float;
  i_start : float;
  i_end : float
}.

(** The intervals of [s] behind a current interval of mode [m] that began
    at [t0] and has reached [t1]. *)
Fixpoint runs_from (m t0 t1 : float) (s : Series) : list interval :=
  match s with
  | [] => [{| i_mode := m; i_start := t0; i_end := t1 |}]
  | (t, v) :: s' =>
      if PrimFloat.eqb v m then runs_from m t0 t s'
      else {| i_mode := m; i_start := t0; i_end := t1 |} :: runs_from v t t s'
  end.

(** The segmentation of a mode series into contiguous same-mode
    intervals. *)
Definition runs (s : Series) : list interval :=
  match s with
  | [] => []
  | (t, v) :: s' => runs_from v t t s'
  end.

(** No two intervals have the same mode. *)
Fixpoint distinct_modes (rs : list interval) : Prop :=
  match rs with
  | [] => True
  | r :: rs' =>
      Forall (λ r', PrimFloat.eqb (i_mode r') (i_mode r) = false) rs' ∧
      distinct_modes rs'
  end.

(** The times at which mode [m] is active, in order. *)
Definition times_of (m : float) (s : Series) : list float :=
  (List.filter (λ p : sample, PrimFloat.eqb p.2 m) s).*1.

Section Spans.
Variable cnames : list (string * string).

(** The colour and the label [background_flight_modes] gives a mode. *)
Definition mode_style (m : float) : outcome (string * string) :=
  i ← F64.to_int m;
  c ← py_index (colors_ cnames) i;
  color ← item0 c;
  i' ← F64.to_int m;
  label ← py_index FLIGHT_MODES i';
  Ok (color, label).

(** The span of mode [m] over the times [t_min] to [t_max]. *)
Definition span_of (m t_min t_max : float) : outcome artist :=
  style ← mode_style m;
  Ok (AxVSpan t_min t_max 0.3%float style.1 style.2).

(** The span of an interval. *)
Definition interval_span (r : interval) : outcome artist :=
  span_of (i_mode r) (i_start r) (i_end r).

End Spans.

(** ** The functions of the module that take a dataframe *)

Inductive func :=
  | f_octa_cox_data_to_ss
  | f_get_float_data
  | f_get_auto_data
  | f_set_time_series
  | f_process_data
  | f_plot_attitude_loops
  | f_plot_attitude_rate_loops
  | f_plot_attitude_control_loops
  | f_plot_velocity_loops
  | f_plot_position_loops
  | f_plot_control_loops
  | f_plot_rc_inputs (rc_mapping : option (list string))
  | f_plot_acceleration_raw
  | f_plot_angular_speed_raw
  | f_plot_magnetic_raw
  | f_plot_gps_stats
  | f_plot_distance_sensor
  | f_plot_sonar_raw
  | f_plot_optical_flow_raw
  | f_plot_optical_flow_quality
  | f_plot_px4io_outputs
  | f_plot_px4fmu_outputs
  | f_statistics (keys : option (list string)) (plot : bool)
  | f_find_lpe_gains (printing : bool)
  | f_plot_modes
  | f_background_flight_modes
  | f_process_lpe_health
  | f_plot_faults.

(** A function without [return] returns [None]. *)
Definition procedure (m : Py unit) : Py pyvalue := m ;; mret VNone.

Definition returning {A} (wrap : A → pyvalue) (m : Py A) : Py pyvalue :=
  a ← m; mret (wrap a).

Section Call.
Context `{Numeric}.
Variable cnames : list (string * string).

(** The call [f(data, ...)]. *)
Definition call (f : func) (data : loc) : Py pyvalue :=
    match f with
    | f_octa_cox_data_to_ss => octa_cox_data_to_ss data
    | f_get_float_data => returning VFrame (get_float_data data)
    | f_get_auto_data => returning VFrame (get_auto_data data)
    | f_set_time_series => returning VFrame (set_time_series data)
    | f_process_data => returning VFrame (process_data data)
    | f_plot_attitude_loops => procedure (plot_attitude_loops cnames data)
    | f_plot_attitude_rate_loops => procedure (plot_attitude_rate_loops cnames data)
    | f_plot_attitude_control_loops => procedure (plot_attitude_control_loops data)
    | f_plot_velocity_loops => procedure (plot_velocity_loops cnames data)
    | f_plot_position_loops => procedure (plot_position_loops cnames data)
    | f_plot_control_loops => procedure (plot_control_loops cnames data)
    | f_plot_rc_inputs rc_mapping => procedure (plot_rc_inputs cnames data rc_mapping)
    | f_plot_acceleration_raw => procedure (plot_acceleration_raw cnames data)
    | f_plot_angular_speed_raw => procedure (plot_angular_speed_raw cnames data)
    | f_plot_magnetic_raw => procedure (plot_magnetic_raw cnames data)
    | f_plot_gps_stats => procedure (plot_gps_stats cnames data)
    | f_plot_distance_sensor => procedure (plot_distance_sensor cnames data)
    | f_plot_sonar_raw => procedure (plot_sonar_raw cnames data)
    | f_plot_optical_flow_raw => procedure (plot_optical_flow_raw cnames data)
    | f_plot_optical_flow_quality => procedure (plot_optical_flow_quality cnames data)
    | f_plot_px4io_outputs => procedure (plot_px4io_outputs cnames data)
    | f_plot_px4fmu_outputs => procedure (plot_px4fmu_outputs cnames data)
    | f_statistics keys plot => returning VDict (statistics data keys plot)
    | f_find_lpe_gains printing => returning VDict (find_lpe_gains data printing)
    | f_plot_modes => procedure (plot_modes cnames data)
    | f_background_flight_modes => procedure (background_flight_modes cnames data)
    | f_process_lpe_health => returning VFrame (process_lpe_health data)
    | f_plot_faults => procedure (plot_faults data)
    end.

End Call.

(** The functions of the module that take a series. *)
Inductive series_func :=
  | f_new_sample
  | f_find_meas_period.

(** The call [f(series)]. *)
Definition call_series (f : series_func) (series : Series) : Py pyvalue :=
  match f with
  | f_new_sample => mret (VSeries (new_sample series))
  | f_find_meas_period =>
      returning (λ x, VNum (PyFloat x)) (lift (find_meas_period series))
  end.

(** The kinds of values of the module. *)
Inductive kind :=
  | KNone
  | KBool
  | KNumber
  | KDict
  | KSeries
  | KDataFrame
  | KTuple (ks : list kind).

Fixpoint kind_of (v : pyvalue) : kind :=
  match v with
  | VNone => KNone
  | VBool _ => KBool
  | VNum _ => KNumber
  | VDict _ => KDict
  | VSeries _ => KSeries
  | VFrame _ => KDataFrame
  | VTuple vs => KTuple (List.map kind_of vs)
  end.

(** What each function returns: the statistics functions a dictionary,
    the data preparation functions data, the charts nothing. *)
Definition result_kind (f : func) : kind :=
  match f with
  | f_statistics _ _ | f_find_lpe_gains _ => KDict
  | f_octa_cox_data_to_ss =>
      KTuple [KSeries; KDataFrame; KDataFrame; KDataFrame; KDataFrame]
  | f_get_float_data | f_get_auto_data | f_set_time_series | f_process_data
  | f_process_lpe_health => KDataFrame
  | _ => KNone
  end.

Definition series_result_kind (f : series_func) : kind :=
  match f with
  | f_new_sample => KSeries
  | f_find_meas_period => KNumber
  end.

(** A chart (nothing is returned) or a dictionary of statistics. *)
Definition chart_or_statistics (v : pyvalue) : Prop :=
  kind_of v = KNone ∨ kind_of v = KDict.


(** The functions that build new frames. *)
Definition allocates (f : func) : bool :=
  match f with
  | f_octa_cox_data_to_ss | f_get_float_data | f_get_auto_data
  | f_set_time_series | f_process_data => true
  | _ => false
  end.

(** ** Binary64 values *)

(** Zeros of both signs are one value for [==]. *)
Definition canon (x : spec_float) : spec_float :=
  match x with
  | S754_zero _ => S754_zero false
  | _ => x
  end.

(** The mantissa is positive and has more than [k] binary digits. *)
Definition wide (k : Z) (mrs : shr_record) : Prop :=
  ∃ p, shr_m mrs = Z.pos p ∧ (k < Z.pos (digits2_pos p))%Z.

(** A float that is neither a zero nor a NaN, of sign [s]. *)
Definition nonzero (s : bool) (x : spec_float) : Prop :=
  (∃ m e, x = S754_finite s m e) ∨ x = S754_infinity s.

(** ** A reference numerical library *)

(** The reductions computed from left to right: what pandas and numpy
    return whenever the sums involved are exact. *)
Module Reference.

Definition sum (xs : list float) : float := foldl PrimFloat.add 0%float xs.

Definition of_nat (n : nat) : float := F64.of_Z (Z.of_nat n).

(** Reductions of pandas skip the NaNs. *)
Definition numbers (xs : list float) : list float :=
  List.filter (λ x, negb (F64.is_nan x)) xs.

Definition mean (xs : list float) : float :=
  let xs := numbers xs in
  PrimFloat.div (sum xs) (of_nat (length xs)).

(** The sample variance (one degree of freedom less); NaN below two
    values. *)
Definition var (xs : list float) : float :=
  let ys := numbers xs in
  if (length ys <=? 1)%nat then F64.nan
  else
    let avg := mean xs in
    PrimFloat.div
      (sum ((λ x, let d := PrimFloat.sub avg x in PrimFloat.mul d d) <$> ys))
      (of_nat (length ys - 1)).

Fixpoint pow_nat (x : float) (n : nat) : float :=
  match n with
  | O => 1%float
  | S n' => PrimFloat.mul x (pow_nat x n')
  end.

Definition pow (x : float) (n : Z) : float :=
  if (n <? 0)%Z then PrimFloat.div 1%float (pow_nat x (Z.to_nat (- n)))
  else pow_nat x (Z.to_nat n).

(** A row of [a] times the rows of [b]. *)
Definition row_dot (r : list float) (b : list (list float)) : list float :=
  foldl (λ acc xb, zip_with PrimFloat.add acc (PrimFloat.mul xb.1 <$> xb.2))
        (replicate (length (default [] (head b))) 0%float)
        (zip r b).

Definition dot (a b : list (list float)) : list (list float) :=
  (λ r, row_dot r b) <$> a.

(** [180/pi], rounded. *)
Definition deg (x : float) : float :=
  PrimFloat.mul x 57.295779513082323%float.

Definition numeric : Numeric :=
  {| series_mean := mean; series_var := var;
     float_pow := pow; array_dot := dot; rad2deg := deg |}.

End Reference.

(** ** Logs for the examples *)

(** A health word per row; no timeout word. *)
Definition health_frame : DataFrame :=
  {| index := [0; 1]%float;
     columns := {[ "EST2_fHealth" := [3; 4]%float ]} |}.

Definition health_world : world :=
  {| frames := {[ 1%positive := health_frame ]}; canvas := []; stdout := [] |}.

(** A value, a NaN, a value. *)
Definition nan_series : Series := [(0, 1); (1, F64.nan); (2, 2)]%float.

(** Three rows: mode 0, then mode 1, then mode 0 again. *)
Definition modes_frame : DataFrame :=
  {| index := [0; 1; 2]%float;
     columns := {[ "STAT_MainState" := [0; 1; 0]%float ]} |}.

Definition modes_series : Series := [(0, 0); (1, 1); (2, 0)]%float.

Definition modes_world : world :=
  {| frames := {[ 1%positive := modes_frame ]}; canvas := []; stdout := [] |}.

(** Four rows: two of mode 0, then two of mode 2. *)
Definition climb_frame : DataFrame :=
  {| index := [0; 1; 2; 3]%float;
     columns := {[ "STAT_MainState" := [0; 0; 2; 2]%float ]} |}.

Definition climb_series : Series := [(0, 0); (1, 0); (2, 2); (3, 2)]%float.

Definition climb_world : world :=
  {| frames := {[ 1%positive := climb_frame ]}; canvas := []; stdout := [] |}.

Definition palette : list (string * string) :=
  [("red", "#FF0000"); ("green", "#008000"); ("blue", "#0000FF")].

(** A log of three rows, as read from a file. *)
Definition log_frame : DataFrame :=
  {| index := [0; 1; 2]%float;
     columns := {[ "TIME_StartTime" := [1000000; 3000000; 4000000]%float;
                   "ATT_Roll" := [0.5; 0.25; 0]%float ]} |}.

Definition log_world : world :=
  {| frames := {[ 1%positive := log_frame ]}; canvas := []; stdout := [] |}.

(** Two accelerometer channels sampled every two seconds; the second is
    four times the first. *)
Definition acc_frame : DataFrame :=
  {| index := [0; 2; 4; 6; 8; 10]%float;
     columns := {[ "IMU1_AccX" := [1; 0; 2; 0; 2; 1]%float;
                   "IMU1_AccY" := [4; 0; 8; 0; 8; 4]%float ]} |}.

Definition acc_world : world :=
  {| frames := {[ 1%positive := acc_frame ]}; canvas := []; stdout := [] |}.

(** The same log under another reference. *)
Definition acc_world' : world :=
  {| frames := {[ 2%positive := acc_frame ]}; canvas := []; stdout := [] |}.

(** Four rows of a mission: automatic flight in the first three, a
    setpoint in the first two. *)
Definition auto_frame : DataFrame :=
  {| index := [0; 1; 2; 3]%float;
     columns := {[ "STAT_MainState" := [3; 3; 3; 1]%float;
                   "GPSP_Lat" := [47.5; 47.25; F64.nan; 47]%float;
                   "GPSP_Lon" := [8.5; 8.25; 8; 8]%float ]} |}.

Definition auto_world : world :=
  {| frames := {[ 1%positive := auto_frame ]}; canvas := []; stdout := [] |}.

(** A log of two rows in which every column [octa_cox_data_to_ss] reads
    holds 1000 and then 2000. *)
Definition octa_frame : DataFrame :=
  {| index := [0; 1]%float;
     columns :=
       list_to_map
         ((λ k, (k, [1000; 2000]%float)) <$>
            ["TIME_StartTime";
             "LPOS_X"; "LPOS_Y"; "LPOS_Z"; "LPOS_VX"; "LPOS_VY"; "LPOS_VZ";
             "ATT_Roll"; "ATT_Pitch"; "ATT_Yaw";
             "ATT_RollRate"; "ATT_PitchRate"; "ATT_YawRate";
             "GPS_Lat"; "GPS_Lon"; "GPS_Alt"; "SENS_BaroAlt";
             "IMU1_AccX"; "IMU1_AccY"; "IMU1_AccZ";
             "IMU1_GyroX"; "IMU1_GyroY"; "IMU1_GyroZ";
             "IMU1_MagX"; "IMU1_MagY"; "IMU1_MagZ";
             "OUT0_Out0"; "OUT0_Out1"; "OUT0_Out2"; "OUT0_Out3";
             "OUT0_Out4"; "OUT0_Out5"; "OUT0_Out6"; "OUT0_Out7"]) |}.

Definition octa_world : world :=
  {| frames := {[ 1%positive := octa_frame ]}; canvas := []; stdout := [] |}.

(** * Further notions

    The definitions the theorems on error behaviour, composition and
    output use: closed forms of what the functions compute, and more
    example logs. *)

(** A log of four rows whose channel [GPS_X] changes twice and whose
    channel [GPS_Y] changes once. *)
Definition gps_frame : DataFrame :=
  {| index := [0; 1; 2; 3]%float;
     columns := {[ "GPS_X" := [1; 2; 2; 3]%float;
                   "GPS_Y" := [5; 5; 6; 6]%float ]} |}.

Definition gps_world : world :=
  {| frames := {[ 1%positive := gps_frame ]}; canvas := []; stdout := [] |}.

(** The columns [get_auto_data] reads, in the order it reads them. *)
Definition auto_columns : list string :=
  ["STAT_MainState"; "GPSP_Lat"; "GPSP_Lon"].

(** The time of a row in seconds after [t0], as [set_time_series]
    computes it. *)
Definition seconds_after (t0 v : float) : float :=
  PrimFloat.div (PrimFloat.sub v t0) 1.0e6%float.

(** A float that is a zero or finite. *)
Definition finite_sf (x : spec_float) : Prop :=
  match x with
  | S754_zero _ | S754_finite _ _ _ => True
  | _ => False
  end.

(** A log whose second time stamp is missing. *)
Definition gap_frame : DataFrame :=
  {| index := [0; 1; 2]%float;
     columns := {[ "TIME_StartTime" := [5000000; F64.nan; 7000000]%float;
                   "ATT_Roll" := [0.5; 0.25; 0]%float ]} |}.

Definition gap_world : world :=
  {| frames := {[ 1%positive := gap_frame ]}; canvas := []; stdout := [] |}.

(** A mission log without the longitude of the setpoint. *)
Definition nolon_frame : DataFrame :=
  {| index := [0; 1]%float;
     columns := {[ "STAT_MainState" := [3; 3]%float;
                   "GPSP_Lat" := [47.5; 47.25]%float ]} |}.

Definition nolon_world : world :=
  {| frames := {[ 1%positive := nolon_frame ]}; canvas := []; stdout := [] |}.

(** ** Health words *)

(** Bit [j] of the health word [v]: whether Python's [int(v) & 2**j] is
    not zero. *)
Definition health_bit (v : float) (j : Z) : bool :=
  match F64.to_int v with
  | Ok n => Z.testbit n j
  | Raise _ => false
  end.

(** The flag column of bit [j]: [a] where the bit is set, [b] where it
    is not. *)
Definition health_flags (word : list float) (a b j : Z) : list float :=
  (λ v, F64.of_Z (if health_bit v j then a else b)) <$> word.

(** The health word of a frame when it can be decoded: the frame has
    rows, the column is there and holds neither NaN nor infinity. *)
Definition health_word (d : DataFrame) (attr : string) : option (list float) :=
  match index d, columns d !! attr with
  | _ :: _, Some word => if forallb F64.isfinite word then Some word else None
  | _, _ => None
  end.

Definition health_name (j : Z) : string :=
  default "" (health_names !! Z.to_nat j).

(** The frame with the seven flag columns of a health word. *)
Definition health_write (d : DataFrame) (prefix : string) (word : list float)
    (a b : Z) : DataFrame :=
  foldl (λ acc j, setitem acc (prefix +:+ health_name j) (health_flags word a b j))
        d (seqZ 0 7).

(** The frame after one [try] block of [process_lpe_health]. *)
Definition after_block (d : DataFrame) (attr prefix : string) (a b : Z)
    : DataFrame :=
  match health_word d attr with
  | Some word => health_write d prefix word a b
  | None => d
  end.

(** The frame after [process_lpe_health]. *)
Definition after_health (d : DataFrame) : DataFrame :=
  after_block (after_block d "EST2_fHealth" "fault_" 1 0)
              "EST0_fTOut" "timeout_" 0 1.

(** A log with both health words; the second row has a timeout word that
    is not a number. *)
Definition words_frame : DataFrame :=
  {| index := [0; 1]%float;
     columns := {[ "EST2_fHealth" := [3; 4]%float;
                   "EST0_fTOut" := [1; F64.nan]%float ]} |}.

Definition words_world : world :=
  {| frames := {[ 1%positive := words_frame ]}; canvas := []; stdout := [] |}.

(** A log without health words. *)
Definition plain_world : world :=
  {| frames := {[ 1%positive := log_frame ]}; canvas := []; stdout := [] |}.

(** ** The lines of plot_faults *)

(** The columns [plot_faults] draws, in its order, with their opacity. *)
Definition fault_plots : list (string * option float) :=
  [("fault_sonar", Some 0.1%float); ("fault_baro", None); ("fault_gps", None);
   ("fault_flow", None); ("fault_vision", None); ("fault_mocap", None);
   ("fault_lidar", None)].

(** The lines of the columns of [plots] up to the first one the frame
    does not have, and the name of that one. *)
Fixpoint lines_until_missing (d : DataFrame) (plots : list (string * option float))
    : list artist * option string :=
  match plots with
  | [] => ([], None)
  | (name, alpha) :: rest =>
      match columns d !! name with
      | Some col =>
          let r := lines_until_missing d rest in
          (Line (zip (index d) col) false alpha :: r.1, r.2)
      | None => ([], Some name)
      end
  end.

(** The bits of the health word in the order [plot_faults] draws them:
    sonar, baro, gps, flow, vision, mocap, lidar. *)
Definition fault_plot_bits : list (Z * option float) :=
  [(4, Some 0.1%float); (0, None); (1, None); (3, None); (5, None);
   (6, None); (2, None)].

(** A value of [STAT_MainState] that [background_flight_modes] can
    style: a number whose integer part indexes [FLIGHT_MODES], from the
    front or, when negative, from the end. *)
Definition valid_mode (m : float) : Prop :=
  ∃ i, F64.to_int m = Ok i ∧ -14 ≤ i < 14.

(** Fourteen colours. *)
Definition palette14 : list (string * string) :=
  (λ n, (n, "#000000")) <$>
    ["c1"; "c2"; "c3"; "c4"; "c5"; "c6"; "c7"; "c8"; "c9"; "c10"; "c11";
     "c12"; "c13"; "c14"].

(** Three rows; the last one is in a mode beyond the table. *)
Definition beyond_frame : DataFrame :=
  {| index := [0; 1; 2]%float;
     columns := {[ "STAT_MainState" := [0; 2; 14]%float ]} |}.

Definition beyond_world : world :=
  {| frames := {[ 1%positive := beyond_frame ]}; canvas := []; stdout := [] |}.

(** The names of the parameters [find_lpe_gains] returns. *)
Definition lpe_names : list string :=
  ["LPE_LDR_Z"; "LPE_BAR_Z"; "LPE_ACC_XY"; "LPE_ACC_Z"; "LPE_GPS_XY";
   "LPE_GPS_Z"; "LPE_GPS_VXY"; "LPE_GPS_VZ"].

(** What [statistics] draws for one key: a figure with its title, the
    channel, the mean and the band of one standard deviation. *)
Definition stats_chart (d : DataFrame) (key : string) (v : stats_locals)
    : list artist :=
  match columns d !! key, head (index d), last (index d) with
  | Some col, Some t0, Some t1 =>
      [Figure; Title (key +:+ " statistics");
       Line (zip (index d) col) false (Some 0.5%float);
       HLines [l_mean v] t0 t1 "k";
       HLines [num_add (l_mean v) (l_stddev v);
               num_sub (l_mean v) (l_stddev v)] t0 t1 "r"]
  | _, _, _ => []
  end.

(** ** Outputs *)

(** The columns of a channel: ['OUT{0}_Out{1}'.format(channel, i)] for
    [i] from 0 to 7. *)
Definition output_names (channel : Z) : list string :=
  (λ i : Z, "OUT" +:+ pretty channel +:+ "_Out" +:+ pretty i) <$> seqZ 0 8.

(** Some sample of the series is greater than zero. *)
Definition has_positive (s : Series) : bool :=
  existsb (PrimFloat.ltb 0%float) (s_values s).

(** The lines of the columns of [names] that are positive somewhere. *)
Definition output_lines (d : DataFrame) (names : list string) : list artist :=
  names ≫= λ c,
    match columns d !! c with
    | Some col =>
        if has_positive (zip (index d) col)
        then [Line (zip (index d) col) true None]
        else []
    | None => []
    end.

(** A float greater than zero. *)
Definition positive_sf (x : spec_float) : Prop :=
  match x with
  | S754_finite false _ _ | S754_infinity false => True
  | _ => False
  end.

(** A log of two rows with the eight outputs of channel 0: the second
    output is never positive, the third is not a number. *)
Definition outputs_frame : DataFrame :=
  {| index := [0; 1]%float;
     columns :=
       {[ "OUT0_Out0" := [1000; 1500]%float;
          "OUT0_Out1" := [0; -1]%float;
          "OUT0_Out2" := [F64.nan; F64.nan]%float;
          "OUT0_Out3" := [0; 900]%float;
          "OUT0_Out4" := [0; 0]%float;
          "OUT0_Out5" := [0; 0]%float;
          "OUT0_Out6" := [0; 0]%float;
          "OUT0_Out7" := [0; 0]%float ]} |}.

Definition outputs_world : world :=
  {| frames := {[ 1%positive := outputs_frame ]}; canvas := []; stdout := [] |}.

(** ** The columns of octa_cox_data_to_ss *)

(** The columns of the log behind the state estimate [xh], and the names
    they get. *)
Definition octa_state_keys : list string :=
  ["LPOS_X"; "LPOS_Y"; "LPOS_Z"; "LPOS_VX"; "LPOS_VY"; "LPOS_VZ";
   "ATT_Roll"; "ATT_Pitch"; "ATT_Yaw";
   "ATT_RollRate"; "ATT_PitchRate"; "ATT_YawRate"].

Definition octa_state_names : list string :=
  ["X"; "Y"; "Z"; "V_X"; "V_Y"; "V_Z"; "Phi"; "Theta"; "Psi"; "P"; "Q"; "R"].

(** The columns behind the measurements [y]. *)
Definition octa_meas_keys : list string :=
  ["GPS_Lat"; "GPS_Lon"; "GPS_Alt"; "SENS_BaroAlt";
   "IMU1_AccX"; "IMU1_AccY"; "IMU1_AccZ";
   "IMU1_GyroX"; "IMU1_GyroY"; "IMU1_GyroZ";
   "IMU1_MagX"; "IMU1_MagY"; "IMU1_MagZ"].

Definition octa_meas_names : list string :=
  ["GPS_Lat"; "GPS_Lon"; "GPS_Alt"; "Baro_Alt";
   "Acc_X"; "Acc_Y"; "Acc_Z"; "Gyro_X"; "Gyro_Y"; "Gyro_Z";
   "Mag_X"; "Mag_Y"; "Mag_Z"].

(** The columns behind the raw inputs [u_raw]. *)
Definition octa_out_keys : list string :=
  ["OUT0_Out0"; "OUT0_Out1"; "OUT0_Out2"; "OUT0_Out3";
   "OUT0_Out4"; "OUT0_Out5"; "OUT0_Out6"; "OUT0_Out7"].

Definition octa_out_names : list string :=
  ["1"; "2"; "3"; "4"; "5"; "6"; "7"; "8"].

(** Every column [octa_cox_data_to_ss] reads, in the order it reads
    them. *)
Definition octa_keys : list string :=
  "TIME_StartTime" :: octa_state_keys ++ octa_meas_keys ++ octa_out_keys.

(** An output in microseconds as a fraction: [(v - 1000.0)/1000.0]. *)
Definition normalised (v : float) : float :=
  PrimFloat.div (PrimFloat.sub v 1000.0%float) 1000.0%float.

(** The values of the columns [keys], by column. *)
Definition columns_of (d : DataFrame) (keys : list string) : list (list float) :=
  (λ k, default [] (columns d !! k)) <$> keys.

(** ** What a call draws and prints *)

(** A computation takes every state to one related to it by [R]. *)
Definition keeps (R : relation world) {A} (m : Py A) : Prop :=
  ∀ w, R w (m w).2.

(** The figure and the standard output only grow; the figure is as it
    was unless [d] holds, and the standard output unless [p] holds. *)
Definition effect (d p : bool) : relation world :=
  λ w w',
    (d = false → canvas w' = canvas w) ∧
    (p = false → stdout w' = stdout w) ∧
    canvas w `prefix_of` canvas w' ∧
    stdout w `prefix_of` stdout w'.

(** The functions that draw. *)
Definition draws (f : func) : bool :=
  match f with
  | f_octa_cox_data_to_ss | f_get_float_data | f_get_auto_data
  | f_set_time_series | f_process_data
  | f_find_lpe_gains _ | f_process_lpe_health => false
  | f_statistics _ plot => plot
  | _ => true
  end.

(** The functions that print. *)
Definition prints (f : func) : bool :=
  match f with
  | f_find_lpe_gains printing => printing
  | f_process_lpe_health | f_plot_faults => true
  | _ => false
  end.

(** A row with a finite time stamp. *)
Definition timed_row (r : row) : bool :=
  row_test "TIME_StartTime" F64.isfinite r.

(** * Proofs *)

(** ** Binary64 facts, from the specification of the primitive floats *)

Module F64Facts.

(** *** Comparison *)

Lemma SFcompare_Eq_finite s1 m1 e1 s2 m2 e2 :
  SFcompare (S754_finite s1 m1 e1) (S754_finite s2 m2 e2) = Some Eq ↔
  s1 = s2 ∧ m1 = m2 ∧ e1 = e2.
Proof.
  cbn. destruct s1, s2; try (split; [discriminate | intros (?&?&?); discriminate]).
  - destruct (Z.compare_spec e1 e2) as [->|?|?]; try (split; [discriminate | intros (?&?&?); lia]).
    rewrite Pos.compare_cont_spec. cbn.
    destruct (Pos.compare_spec m1 m2) as [->|?|?]; cbn;
      (split; [try discriminate; done | intros (?&?&?); try lia; done]).
  - destruct (Z.compare_spec e1 e2) as [->|?|?]; try (split; [discriminate | intros (?&?&?); lia]).
    rewrite Pos.compare_cont_spec. cbn.
    destruct (Pos.compare_spec m1 m2) as [->|?|?]; cbn;
      (split; [try discriminate; done | intros (?&?&?); try lia; done]).
Qed.

Lemma SFcompare_finite_refl s m e :
  SFcompare (S754_finite s m e) (S754_finite s m e) = Some Eq.
Proof. by apply SFcompare_Eq_finite. Qed.

Lemma SFeqb_true x y :
  SFeqb x y = true ↔ x ≠ S754_nan ∧ canon x = canon y.
Proof.
  unfold SFeqb.
  destruct x as [sx|sx| |sx mx ex], y as [sy|sy| |sy my ey];
    try (destruct sx); try (destruct sy);
    try (cbn; split; [try discriminate; done | intros [Hn E]; congruence]).
  all: destruct (SFcompare _ _) as [[]|] eqn:E;
    try (split; [discriminate|]; intros [_ [= -> ->]];
         rewrite SFcompare_finite_refl in E; discriminate).
  all: apply SFcompare_Eq_finite in E as (? & -> & ->); done.
Qed.

Lemma eqb_true x y :
  PrimFloat.eqb x y = true ↔
  Prim2SF x ≠ S754_nan ∧ canon (Prim2SF x) = canon (Prim2SF y).
Proof. rewrite FloatAxioms.eqb_spec. apply SFeqb_true. Qed.

Lemma is_nan_spec x : F64.is_nan x = true ↔ Prim2SF x = S754_nan.
Proof.
  unfold F64.is_nan. rewrite negb_true_iff, <- not_true_iff_false, eqb_true.
  split.
  - intros Hn. destruct (Prim2SF x); try done; exfalso; by apply Hn.
  - intros -> [? _]. done.
Qed.

Lemma eqb_refl x : F64.is_nan x = false → PrimFloat.eqb x x = true.
Proof. unfold F64.is_nan. by intros ->%negb_false_iff. Qed.

Lemma canon_nan x : canon x = S754_nan → x = S754_nan.
Proof. by destruct x. Qed.

Lemma eqb_sym x y : PrimFloat.eqb x y = PrimFloat.eqb y x.
Proof.
  apply eq_true_iff_eq. rewrite !eqb_true. split; intros [Hn E]; split; try done.
  - intros Hy. rewrite Hy in E. by apply canon_nan in E.
  - intros Hx. rewrite Hx in E. by apply canon_nan in E.
Qed.

Lemma eqb_trans x y z :
  PrimFloat.eqb x y = true → PrimFloat.eqb y z = true → PrimFloat.eqb x z = true.
Proof. rewrite !eqb_true. intros [? E1] [? E2]. split; congruence. Qed.

Lemma eqb_not_nan_l x y : PrimFloat.eqb x y = true → F64.is_nan x = false.
Proof.
  rewrite eqb_true. intros [Hn _]. apply not_true_iff_false.
  by rewrite is_nan_spec.
Qed.

End F64Facts.


Module F64Sub.
Import F64Facts.

(** *** Right shifts keep a mantissa with enough digits positive *)

Lemma iter_pos_nat {A} (f : A → A) (n : positive) (x : A) :
  SpecFloat.iter_pos f n x = Nat.iter (Pos.to_nat n) f x.
Proof.
  revert x. induction n as [n IH|n IH|]; intros x; cbn [SpecFloat.iter_pos].
  - rewrite !IH, Pos2Nat.inj_xI, <- Nat.iter_add.
    replace (S (2 * Pos.to_nat n)) with (Pos.to_nat n + Pos.to_nat n + 1)%nat by lia.
    rewrite (Nat.iter_add _ 1). done.
  - rewrite !IH, Pos2Nat.inj_xO, <- Nat.iter_add. f_equal. lia.
  - done.
Qed.

Lemma shr_1_wide k mrs : 0 ≤ k → wide (k + 1) mrs → wide k (shr_1 mrs).
Proof.
  intros Hk (p & Hm & Hd). destruct mrs as [m r s]. cbn in Hm. subst m.
  destruct p as [q|q|]; cbn in *; [exists q|exists q|lia]; split; try done; lia.
Qed.

Lemma iter_shr_1_wide (n : nat) k mrs :
  0 ≤ k → wide (k + Z.of_nat n) mrs → wide k (Nat.iter n shr_1 mrs).
Proof.
  revert k. induction n as [|n IH]; intros k Hk Hw.
  - by rewrite Z.add_0_r in Hw.
  - cbn [Nat.iter]. apply shr_1_wide; [done|]. apply IH; [lia|].
    replace (k + 1 + Z.of_nat n) with (k + Z.of_nat (S n)) by lia. done.
Qed.

Lemma shr_record_of_loc_m m l : shr_m (shr_record_of_loc m l) = m.
Proof. by destruct l as [|[]]. Qed.

(** Rounding to the format never shifts a positive mantissa away, as
    long as the exponent is at least [emin]: this is gradual
    underflow. *)
Lemma shr_fexp_pos p e l :
  emin ≤ e →
  ∃ p', shr_m (shr_fexp prec emax (Z.pos p) e l).1 = Z.pos p' ∧
        emin ≤ (shr_fexp prec emax (Z.pos p) e l).2.
Proof.
  intros He. unfold shr_fexp, shr.
  set (n := fexp prec emax (Zdigits2 (Z.pos p) + e) - e).
  assert (Hn : n < Z.pos (digits2_pos p)).
  { unfold n, fexp. cbn [Zdigits2]. unfold prec in *. lia. }
  destruct n as [|q|q] eqn:En; cbn [fst snd].
  - rewrite shr_record_of_loc_m. eauto.
  - rewrite iter_pos_nat.
    destruct (iter_shr_1_wide (Pos.to_nat q) 0 (shr_record_of_loc (Z.pos p) l))
      as (p' & Hp' & _); [done| |].
    + exists p. rewrite shr_record_of_loc_m. split; [done|]. lia.
    + exists p'. split; [done|]. lia.
  - rewrite shr_record_of_loc_m. eauto.
Qed.

Lemma round_nearest_even_pos p l : ∃ p', round_nearest_even (Z.pos p) l = Z.pos p'.
Proof.
  destruct l as [|[]]; cbn; eauto. destruct p; eauto.
Qed.

Lemma binary_round_aux_nonzero s p e l :
  emin ≤ e → nonzero s (binary_round_aux prec emax s (Z.pos p) e l).
Proof.
  intros He. unfold binary_round_aux.
  destruct (shr_fexp_pos p e l He) as (p1 & H1 & He1).
  destruct (shr_fexp prec emax (Z.pos p) e l) as [mrs1 e1]. cbn [fst snd] in *.
  rewrite H1.
  destruct (round_nearest_even_pos p1 (loc_of_shr_record mrs1)) as [p2 ->].
  destruct (shr_fexp_pos p2 e1 loc_Exact He1) as (p3 & H3 & He3).
  destruct (shr_fexp prec emax (Z.pos p2) e1 loc_Exact) as [mrs3 e3].
  cbn [fst snd] in *. rewrite H3.
  destruct (e3 <=? emax - prec); [left; eauto | by right].
Qed.

Lemma binary_round_nonzero s m e :
  emin ≤ e → nonzero s (binary_round prec emax s m e).
Proof.
  intros He. unfold binary_round.
  destruct (shl_align m e _) as [mz ez] eqn:E.
  apply binary_round_aux_nonzero.
  unfold shl_align in E. destruct (_ - e) eqn:Ed; injection E as <- <-; try done.
  unfold fexp. lia.
Qed.

Lemma binary_normalize_nonzero z e :
  emin ≤ e → z ≠ 0 →
  nonzero (z <? 0) (binary_normalize prec emax z e false).
Proof.
  intros He Hz. destruct z as [|p|p]; [done|..]; cbn [binary_normalize];
    by apply binary_round_nonzero.
Qed.

(** *** Subtraction of two finite doubles *)

Lemma digits_shl m d :
  Z.pos (digits2_pos (Pos.iter xO m d)) = Z.pos (digits2_pos m) + Z.pos d.
Proof.
  induction d as [|d IH] using Pos.peano_ind.
  - cbn. lia.
  - rewrite Pos.iter_succ. cbn [digits2_pos]. lia.
Qed.

Lemma bounded_canonical m e :
  bounded prec emax m e = true →
  fexp prec emax (Z.pos (digits2_pos m) + e) = e.
Proof.
  unfold bounded, canonical_mantissa. intros [H _]%andb_true_iff.
  by apply Z.eqb_eq in H.
Qed.

Lemma bounded_emin m e : bounded prec emax m e = true → emin ≤ e.
Proof. intros H%bounded_canonical. unfold fexp in H. lia. Qed.

Lemma fst_shl_align m e ez :
  ez ≤ e →
  Z.pos (digits2_pos (shl_align m e ez).1) = Z.pos (digits2_pos m) + (e - ez) ∧
  (e = ez → (shl_align m e ez).1 = m).
Proof.
  intros Hle. unfold shl_align. destruct (ez - e) as [|d|d] eqn:Ed; cbn [fst].
  - split; [lia|done].
  - lia.
  - rewrite digits_shl. split; [lia|]. lia.
Qed.

Lemma shl_align_inj mx ex my ey :
  bounded prec emax mx ex = true → bounded prec emax my ey = true →
  (shl_align mx ex (Z.min ex ey)).1 = (shl_align my ey (Z.min ex ey)).1 →
  mx = my ∧ ex = ey.
Proof.
  intros Hx%bounded_canonical Hy%bounded_canonical E.
  destruct (fst_shl_align mx ex (Z.min ex ey)) as [Dx Ex]; [lia|].
  destruct (fst_shl_align my ey (Z.min ex ey)) as [Dy Ey]; [lia|].
  rewrite E in Dx. unfold fexp in Hx, Hy.
  assert (ex = ey) as -> by lia.
  rewrite Z.min_id in *. split; [|done].
  rewrite <- Ex, <- Ey by done. done.
Qed.

Lemma SFcompare_finite_some s1 m1 e1 s2 m2 e2 :
  ∃ c, SFcompare (S754_finite s1 m1 e1) (S754_finite s2 m2 e2) = Some c.
Proof. cbn. eauto. Qed.

Lemma SFltb_zero_nonzero x :
  nonzero false x → SFltb (S754_zero false) x = true.
Proof. by intros [(m & e & ->)| ->]. Qed.

Lemma SFabs_nonzero s x : nonzero s x → nonzero false (SFabs x).
Proof. intros [(m & e & ->)| ->]; [left; cbn; eauto | by right]. Qed.

(** The difference of two doubles is positive in absolute value exactly
    when they compare as different. *)
Lemma SF_changed x y :
  valid_binary x = true → valid_binary y = true →
  SFltb (S754_zero false) (SFabs (SFsub prec emax x y)) =
    match SFcompare x y with
    | Some Lt | Some Gt => true
    | _ => false
    end.
Proof.
  intros Vx Vy.
  destruct x as [sx|sx| |sx mx ex], y as [sy|sy| |sy my ey];
    try (destruct sx); try (destruct sy); try reflexivity.
  all: cbn [SFsub].
  all: match goal with
       | |- context [binary_normalize _ _ ?z _ _] => set (d := z)
       end.
  all: cbn [valid_binary SpecFloat.valid_binary] in Vx, Vy.
  all: destruct (decide (d = 0)) as [Hz|Hz].
  all: try (rewrite Hz; cbn [binary_normalize SFabs];
            unfold d, cond_Zopp in Hz;
            first [ lia
                  | assert (mx = my ∧ ex = ey) as [-> ->]
                      by (apply shl_align_inj; [done..|lia]);
                    by rewrite SFcompare_finite_refl ]).
  all: rewrite SFltb_zero_nonzero
         by (eapply SFabs_nonzero, binary_normalize_nonzero;
             [pose proof (bounded_emin _ _ Vx); pose proof (bounded_emin _ _ Vy); lia | done]).
  all: destruct (SFcompare _ _) as [[]|] eqn:Ec; try done.
  all: try (apply SFcompare_Eq_finite in Ec as (_ & -> & ->);
            exfalso; apply Hz; unfold d, cond_Zopp; lia).
  all: cbn in Ec; discriminate Ec.
Qed.

Lemma SFcompare_None x y :
  SFcompare x y = None ↔ x = S754_nan ∨ y = S754_nan.
Proof.
  destruct x as [sx|sx| |sx mx ex], y as [sy|sy| |sy my ey]; cbn;
    try (destruct sx); try (destruct sy); cbn;
    (split; [try discriminate; auto | intros [?|?]; try discriminate; done]).
Qed.

End F64Sub.

(** [abs(x - y) > 0] on doubles: both are numbers, and [x != y]. *)
Lemma changed_iff (x y : float) :
  F64.gt0 (PrimFloat.abs (PrimFloat.sub x y)) = true ↔
  F64.is_nan x = false ∧ F64.is_nan y = false ∧ PrimFloat.eqb x y = false.
Proof.
  unfold F64.gt0.
  rewrite ltb_spec, abs_spec, sub_spec.
  change (Prim2SF PrimFloat.zero) with (S754_zero false).
  unfold SF64sub. rewrite F64Sub.SF_changed by apply Prim2SF_valid.
  rewrite FloatAxioms.eqb_spec. unfold SFeqb.
  rewrite <- !not_true_iff_false, !F64Facts.is_nan_spec.
  destruct (SFcompare (Prim2SF x) (Prim2SF y)) as [[]|] eqn:E.
  - split; [done|]. intros (_ & _ & Hne). by destruct Hne.
  - split; [|done]. intros _.
    assert (SFcompare (Prim2SF x) (Prim2SF y) ≠ None) as Hn by congruence.
    rewrite F64Sub.SFcompare_None in Hn. split; [|split]; try done; tauto.
  - split; [|done]. intros _.
    assert (SFcompare (Prim2SF x) (Prim2SF y) ≠ None) as Hn by congruence.
    rewrite F64Sub.SFcompare_None in Hn. split; [|split]; try done; tauto.
  - split; [done|]. intros (Hx & Hy & _).
    apply F64Sub.SFcompare_None in E. tauto.
Qed.


(** ** new_sample and find_meas_period *)

Lemma changed_bool (x y : float) :
  F64.gt0 (PrimFloat.abs (PrimFloat.sub x y)) = number_changed y x.
Proof.
  apply eq_true_iff_eq. rewrite changed_iff. unfold number_changed, differs.
  rewrite !andb_true_iff, !negb_true_iff. tauto.
Qed.

Lemma take_where_changed prev (s : Series) :
  take_where ((λ d, F64.gt0 (PrimFloat.abs d)) <$>
                zip_with PrimFloat.sub (s_values s) (prev :: s_values s)) s =
    samples_after number_changed prev s.
Proof.
  revert prev. induction s as [|[t v] s IH]; intros prev; [done|].
  cbn [s_values fmap list_fmap zip_with take_where samples_after snd].
  rewrite changed_bool. fold (s_values s). by rewrite IH.
Qed.

(** [new_sample] keeps the samples that are numbers, follow a number and
    differ from it. *)
Lemma new_sample_number_changed (s : Series) :
  new_sample s = samples_where number_changed s.
Proof.
  destruct s as [|[t v] s]; [done|].
  unfold new_sample, changed_mask.
  cbn [s_values fmap list_fmap diff snd take_where samples_where].
  change (F64.gt0 (PrimFloat.abs F64.nan)) with false. cbn iota.
  apply take_where_changed.
Qed.

Lemma samples_after_no_nan prev (s : Series) :
  F64.is_nan prev = false → Forall (λ p, F64.is_nan p.2 = false) s →
  samples_after number_changed prev s = samples_after differs prev s.
Proof.
  revert prev. induction s as [|[t v] s IH]; intros prev Hp Hs; [done|].
  apply Forall_cons in Hs as [Hv Hs]. cbn in Hv. cbn [samples_after].
  unfold number_changed. rewrite Hv, Hp. cbn [negb andb].
  by rewrite IH.
Qed.

Lemma samples_after_sublist test prev (s : Series) :
  sublist (samples_after test prev s) s.
Proof.
  revert prev. induction s as [|[t v] s IH]; intros prev; [done|].
  cbn. destruct (test prev v); by constructor.
Qed.

Lemma samples_after_differs_nil prev (s : Series) :
  samples_after differs prev s = [] → samples_after number_changed prev s = [].
Proof.
  revert prev. induction s as [|[t v] s IH]; intros prev; [done|].
  cbn [samples_after]. unfold number_changed.
  destruct (differs prev v); [done|]. rewrite andb_false_r. apply IH.
Qed.

Lemma samples_after_constant v (s : Series) :
  Forall (λ p, p.2 = v) s → samples_after number_changed v s = [].
Proof.
  induction s as [|[t v'] s IH]; intros Hs; [done|].
  apply Forall_cons in Hs as [Hv Hs]. cbn in Hv. subst v'.
  cbn [samples_after]. unfold number_changed, differs.
  destruct (F64.is_nan v) eqn:En; [by apply IH|].
  rewrite F64Facts.eqb_refl by done. by apply IH.
Qed.

Lemma find_meas_period_empty (s : Series) :
  new_sample s = [] → find_meas_period s = Raise IndexError.
Proof. intros Hn. unfold find_meas_period. by rewrite Hn. Qed.

(** C10 fails on a series that holds a NaN: the NaN differs from the
    value before it and the value after the NaN differs from the NaN, yet
    [new_sample] returns neither. *)
Lemma new_sample_skips_nan :
  new_sample nan_series = [] ∧
  samples_where differs nan_series = [(1, F64.nan); (2, 2)]%float ∧
  new_sample nan_series ≠ samples_where differs nan_series.
Proof. split; [|split]; [reflexivity | reflexivity | discriminate]. Qed.

(** C10, as amended.  [new_sample] returns exactly the samples that are
    numbers, follow a number and differ from it; on a series without NaN
    these are the samples whose value differs from the value of the
    sample before.  The first sample is never returned.  So
    [find_meas_period] raises [IndexError] whenever no value differs from
    the one before it, as on a constant series or a series of one
    sample. *)
Theorem new_sample_spec (s : Series) :
  new_sample s = samples_where number_changed s ∧
  (Forall (λ p, F64.is_nan p.2 = false) s →
     new_sample s = samples_where differs s) ∧
  sublist (new_sample s) (tail s) ∧
  (samples_where differs s = [] → find_meas_period s = Raise IndexError) ∧
  (∀ v, Forall (λ p, p.2 = v) s → find_meas_period s = Raise IndexError) ∧
  ((length s ≤ 1)%nat → find_meas_period s = Raise IndexError).
Proof.
  split; [apply new_sample_number_changed|].
  rewrite new_sample_number_changed.
  split; [|split; [|split; [|split]]].
  - destruct s as [|[t v] s]; [done|]. intros [Hv Hs]%Forall_cons.
    by apply samples_after_no_nan.
  - destruct s as [|[t v] s]; [done|]. apply samples_after_sublist.
  - intros Hd. apply find_meas_period_empty. rewrite new_sample_number_changed.
    destruct s as [|[t v] s]; [done|]. by apply samples_after_differs_nil.
  - intros v Hs. apply find_meas_period_empty. rewrite new_sample_number_changed.
    destruct s as [|[t v'] s]; [done|]. apply Forall_cons in Hs as [Hv Hs].
    cbn in Hv. subst v'. by apply samples_after_constant.
  - intros Hl. apply find_meas_period_empty.
    destruct s as [|[t v] [|? s]]; [done|done|cbn in Hl; lia].
Qed.


(** ** Names of the statistics *)

Lemma last_char_app k s : s ≠ "" → last_char (k +:+ s) = last_char s.
Proof.
  intros Hs. induction k as [|a k IH]; [done|].
  change (String a k +:+ s) with (String a (k +:+ s)).
  simpl. rewrite IH. destruct (k +:+ s) eqn:E; [|done].
  destruct k; [by destruct Hs | discriminate].
Qed.

Lemma string_length_app k s :
  String.length (k +:+ s) = (String.length k + String.length s)%nat.
Proof. induction k as [|a k IH]; [done|]. cbn. by rewrite <- IH. Qed.

Lemma string_app_inv_tail k1 k2 s : k1 +:+ s = k2 +:+ s → k1 = k2.
Proof.
  intros E. pose proof (f_equal String.length E) as El.
  rewrite !string_length_app in El.
  revert k2 E El.
  induction k1 as [|a k1 IH]; intros [|b k2] E El; simpl in *; try lia; [done|].
  change (String a (k1 +:+ s) = String b (k2 +:+ s)) in E. injection E as -> E.
  f_equal. apply IH; [done | lia].
Qed.

Lemma suffix_by_last_char s1 s2 :
  s1 ∈ stat_suffixes → s2 ∈ stat_suffixes →
  last_char s1 = last_char s2 → s1 = s2.
Proof.
  unfold stat_suffixes. rewrite !elem_of_cons, !elem_of_nil.
  intros H1 H2.
  destruct H1 as [->|[->|[->|[->|[->|[]]]]]];
  destruct H2 as [->|[->|[->|[->|[->|[]]]]]]; vm_compute; congruence.
Qed.

Lemma suffix_nonempty s : s ∈ stat_suffixes → s ≠ "".
Proof.
  unfold stat_suffixes. rewrite !elem_of_cons, !elem_of_nil.
  intros [->|[->|[->|[->|[->|[]]]]]]; discriminate.
Qed.

(** A name determines its key and its suffix. *)
Lemma stat_name_inj k1 k2 s1 s2 :
  s1 ∈ stat_suffixes → s2 ∈ stat_suffixes →
  k1 +:+ s1 = k2 +:+ s2 → k1 = k2 ∧ s1 = s2.
Proof.
  intros H1 H2 E.
  assert (s1 = s2) as ->.
  { apply suffix_by_last_char; [done..|].
    rewrite <- (last_char_app k1), <- (last_char_app k2 s2), E;
      auto using suffix_nonempty. }
  split; [|done]. by eapply string_app_inv_tail.
Qed.

Lemma stat_names_NoDup k : NoDup (stat_names k).
Proof.
  unfold stat_names. apply NoDup_fmap_2_strong.
  - intros s1 s2 H1 H2 E. by destruct (stat_name_inj k k s1 s2).
  - unfold stat_suffixes. repeat constructor; set_solver.
Qed.

Section StatisticsFacts.
Context `{Numeric}.

Lemma lookup_stats_store key v data s :
  s ∈ stat_suffixes →
  stats_store key v data !! (key +:+ s) = Some (stat_field s v).
Proof.
  unfold stat_suffixes, stats_store. rewrite !elem_of_cons, !elem_of_nil.
  intros [->|[->|[->|[->|[->|[]]]]]];
    repeat (rewrite lookup_insert_ne by (intros E; apply String.app_inj in E; discriminate));
    by rewrite lookup_insert_eq.
Qed.

Lemma lookup_stats_store_ne key v data name :
  name ∉ stat_names key →
  stats_store key v data !! name = data !! name.
Proof.
  unfold stat_names, stat_suffixes, stats_store. cbn [fmap list_fmap].
  rewrite !not_elem_of_cons. intros (?&?&?&?&?&_).
  by rewrite !lookup_insert_ne.
Qed.

Lemma stats_loop_noplot df keys data w :
  stats_loop df keys false data w =
    (Ok (foldl (λ acc k, stats_store k (key_stats w df k) acc) data keys), w).
Proof.
  revert data. induction keys as [|k keys IH]; intros data; [done|].
  cbn [stats_loop foldl].
  unfold mbind, Py_bind, py_bind, try_except, deref, lift, key_stats at 2.
  destruct (frames w !! df) as [d|]; cbn.
  - destruct (stats_try d k) as [v|e]; cbn; apply IH.
  - apply IH.
Qed.

Lemma lookup_stats_fold w df keys data k s :
  s ∈ stat_suffixes →
  foldl (λ acc k, stats_store k (key_stats w df k) acc) data keys !! (k +:+ s) =
    if decide (k ∈ keys) then Some (stat_field s (key_stats w df k))
    else data !! (k +:+ s).
Proof.
  intros Hs. revert data. induction keys as [|k0 keys IH]; intros data; [done|].
  cbn [foldl]. rewrite IH.
  destruct (decide (k ∈ keys)) as [Hin|Hin].
  - rewrite decide_True by set_solver. done.
  - destruct (decide (k = k0)) as [->|Hne].
    + rewrite decide_True by set_solver. by apply lookup_stats_store.
    + rewrite decide_False by set_solver.
      apply lookup_stats_store_ne. unfold stat_names.
      intros (s' & E & Hs')%list_elem_of_fmap.
      by destruct (stat_name_inj k k0 s s').
Qed.

Lemma lookup_stats_fold_other w df keys data name :
  (∀ k, k ∈ keys → name ∉ stat_names k) →
  foldl (λ acc k, stats_store k (key_stats w df k) acc) data keys !! name =
    data !! name.
Proof.
  revert data. induction keys as [|k0 keys IH]; intros data Hn; [done|].
  cbn [foldl]. rewrite IH by (intros; apply Hn; set_solver).
  apply lookup_stats_store_ne, Hn. set_solver.
Qed.

End StatisticsFacts.


Section StatisticsClaims.
Context `{Numeric}.

Lemma statistics_noplot df keys w :
  statistics df (Some keys) false w =
    (Ok (foldl (λ acc k, stats_store k (key_stats w df k) acc) ∅ keys), w).
Proof. apply stats_loop_noplot. Qed.

Lemma stat_names_disjoint k1 k2 name :
  name ∈ stat_names k1 → name ∈ stat_names k2 → k1 = k2.
Proof.
  unfold stat_names.
  intros (s1 & -> & H1)%list_elem_of_fmap (s2 & E & H2)%list_elem_of_fmap.
  by destruct (stat_name_inj k1 k2 s1 s2).
Qed.

Lemma lookup_statistics_name df keys w k name :
  k ∈ keys → name ∈ stat_names k →
  is_Some (foldl (λ acc k, stats_store k (key_stats w df k) acc) ∅ keys !! name).
Proof.
  unfold stat_names. intros Hk (s & -> & Hs)%list_elem_of_fmap.
  rewrite lookup_stats_fold, decide_True by done. eauto.
Qed.

(** C1. [statistics(df, keys)] (no plot) returns a dictionary and leaves
    the state as it was.  The names in the dictionary are exactly the
    names [key + suffix] for [key] in [keys] and [suffix] among [_stddev],
    [_variance], [_mean], [_dt] and [_noise_power]; the five names of a
    key are different from one another, and [n] different keys give
    [5 n] entries. *)
Theorem statistics_entries (df : loc) (keys : list string) (w : world) :
  ∃ data,
    statistics df (Some keys) false w = (Ok data, w) ∧
    dom data = list_to_set (keys ≫= stat_names) ∧
    (∀ k, k ∈ keys → NoDup (stat_names k) ∧ length (stat_names k) = 5%nat) ∧
    (NoDup keys → size data = (5 * length keys)%nat).
Proof.
  eexists. split; [apply statistics_noplot|].
  set (data := foldl _ _ _).
  assert (Hdom : dom data = list_to_set (keys ≫= stat_names)).
  { apply set_eq. intros name.
    rewrite elem_of_dom, elem_of_list_to_set, list_elem_of_bind. split.
    - intros Hsome.
      destruct (decide (name ∈ keys ≫= stat_names)) as [Hin|Hout].
      + by apply list_elem_of_bind in Hin.
      + unfold data in Hsome. rewrite lookup_stats_fold_other in Hsome.
        * rewrite lookup_empty in Hsome. by destruct Hsome.
        * intros k Hk Hn. apply Hout, list_elem_of_bind. eauto.
    - intros (k & Hn & Hk). by eapply lookup_statistics_name. }
  split; [done|]. split.
  - intros k _. split; [apply stat_names_NoDup | done].
  - intros Hnd. rewrite <- size_dom, Hdom, size_list_to_set.
    + clear. induction keys as [|k keys IH]; [done|].
      cbn [mbind list_bind]. rewrite length_app, IH. cbn. lia.
    + apply NoDup_bind; [|auto using stat_names_NoDup|done].
      intros k1 k2 name _ _. apply stat_names_disjoint.
Qed.


(** C8. When the [try] block of [statistics] raises for a key [k] of
    [keys], the call still returns a dictionary: the five entries of [k]
    are the integer [0], and every name that is not one of the five names
    of [k] has the entry it has in [statistics(df, keys without k)]. *)
Theorem statistics_error_zero (df : loc) (keys : list string) (w : world)
    (d : DataFrame) (k : string) (e : exn) :
  frames w !! df = Some d →
  k ∈ keys →
  stats_try d k = Raise e →
  ∃ data data',
    statistics df (Some keys) false w = (Ok data, w) ∧
    (∀ s, s ∈ stat_suffixes → data !! (k +:+ s) = Some (PyInt 0)) ∧
    statistics df (Some (filter (λ x, x ≠ k) keys)) false w = (Ok data', w) ∧
    (∀ name, name ∉ stat_names k → data !! name = data' !! name).
Proof.
  intros Hd Hk He.
  assert (Hks : key_stats w df k = stats_except) by (unfold key_stats; by rewrite Hd, He).
  eexists _, _. split; [apply statistics_noplot|]. split; [|split; [apply statistics_noplot|]].
  - intros s Hs. rewrite lookup_stats_fold, decide_True, Hks by done.
    revert Hs. unfold stat_suffixes. rewrite !elem_of_cons, !elem_of_nil.
    by intros [->|[->|[->|[->|[->|[]]]]]].
  - intros name Hn.
    destruct (decide (name ∈ keys ≫= stat_names)) as [Hin|Hout].
    + apply list_elem_of_bind in Hin as (k' & Hn' & Hk').
      assert (k' ≠ k) by (by intros ->).
      revert Hn'. unfold stat_names. intros (s & -> & Hs)%list_elem_of_fmap.
      rewrite !lookup_stats_fold by done.
      rewrite decide_True by done.
      rewrite decide_True; [done|]. by apply list_elem_of_filter.
    + rewrite !lookup_stats_fold_other; [done|..].
      * intros k' [_ Hk']%list_elem_of_filter Hn'.
        apply Hout, list_elem_of_bind. eauto.
      * intros k' Hk' Hn'. apply Hout, list_elem_of_bind. eauto.
Qed.

(** The two causes the claim names. *)
Lemma stats_try_missing_column d k :
  columns d !! k = None → stats_try d k = Raise (KeyError k).
Proof. intros Hk. unfold stats_try, getitem. by rewrite Hk. Qed.

Lemma stats_try_no_change d k col :
  getitem d k = Ok col → new_sample (new_sample col) = [] →
  stats_try d k = Raise IndexError.
Proof.
  intros Hcol Hnew. unfold stats_try. rewrite Hcol. cbn.
  unfold find_meas_period. by rewrite Hnew.
Qed.

Lemma key_stats_ext w1 w2 df1 df2 k :
  frames w1 !! df1 = frames w2 !! df2 → key_stats w1 df1 k = key_stats w2 df2 k.
Proof. unfold key_stats. by intros ->. Qed.

Lemma statistics_result_ext df1 df2 keys w1 w2 :
  frames w1 !! df1 = frames w2 !! df2 →
  (statistics df1 (Some keys) false w1).1 = (statistics df2 (Some keys) false w2).1.
Proof.
  intros E. rewrite !statistics_noplot. cbn. f_equal.
  generalize (∅ : gmap string num).
  induction keys as [|k keys IH]; intros data; [done|].
  cbn [foldl]. by rewrite IH, (key_stats_ext w1 w2 df1 df2).
Qed.

Lemma for_each_print_frames {A} (xs : list A) (f : A → line) w :
  ∃ out, for_each xs (λ x, print (f x)) w =
    (Ok (), {| frames := frames w; canvas := canvas w; stdout := stdout w ++ out |}).
Proof.
  revert w. induction xs as [|x xs IH]; intros w.
  - exists []. cbn. rewrite app_nil_r. by destruct w.
  - cbn [for_each]. unfold mbind, Py_bind, py_bind. cbn.
    edestruct IH as [out ->]. cbn. exists (f x :: out).
    by rewrite <- app_assoc.
Qed.

Lemma find_lpe_gains_result df printing w :
  ∃ out,
    find_lpe_gains df printing w =
      ((statistics df (Some lpe_keys) false w).1 ≫= lpe_params,
       {| frames := frames w; canvas := canvas w; stdout := stdout w ++ out |}).
Proof.
  unfold find_lpe_gains, mbind at 1 2 3, Py_bind, py_bind.
  rewrite statistics_noplot. cbn [fst]. unfold lift.
  set (stats := foldl _ _ _).
  change (Ok stats ≫= lpe_params) with (lpe_params stats).
  destruct (lpe_params stats) as [params|e].
  - destruct printing.
    + edestruct (for_each_print_frames (map_to_list params)) as [out ->].
      by exists out.
    + exists []. cbn. rewrite app_nil_r. by destruct w.
  - exists []. rewrite app_nil_r. by destruct w.
Qed.

(** C7. [statistics] (no plot) and [find_lpe_gains] are functions of the
    frame alone: two frames with the same content, under any two
    references and in any two states, give equal dictionaries, and a
    second call in the state the first call left gives the dictionary of
    the first. *)
Theorem statistics_deterministic (df1 df2 : loc) (keys : list string)
    (printing : bool) (w1 w2 : world) :
  frames w1 !! df1 = frames w2 !! df2 →
  (statistics df1 (Some keys) false w1).1 = (statistics df2 (Some keys) false w2).1 ∧
  (find_lpe_gains df1 printing w1).1 = (find_lpe_gains df2 printing w2).1 ∧
  (statistics df1 (Some keys) false (statistics df1 (Some keys) false w1).2).1 =
    (statistics df1 (Some keys) false w1).1 ∧
  (find_lpe_gains df1 printing (find_lpe_gains df1 printing w1).2).1 =
    (find_lpe_gains df1 printing w1).1.
Proof.
  intros E. split; [by apply statistics_result_ext|]. split; [|split].
  - destruct (find_lpe_gains_result df1 printing w1) as [o1 ->].
    destruct (find_lpe_gains_result df2 printing w2) as [o2 ->].
    cbn [fst]. f_equal. by apply statistics_result_ext.
  - rewrite (statistics_noplot df1 keys w1). cbn [fst snd].
    by rewrite statistics_noplot.
  - destruct (find_lpe_gains_result df1 printing w1) as [o1 ->]. cbn [fst snd].
    edestruct find_lpe_gains_result as [o2 ->]. cbn [fst].
    f_equal. by apply statistics_result_ext.
Qed.

End StatisticsClaims.


(** ** What a computation does to the store *)

Section Preserves.
Variable R : relation (gmap loc DataFrame).
Context `{!PreOrder R}.

Lemma preserves_ret {A} (a : A) : preserves R (mret a).
Proof. intros w. reflexivity. Qed.

Lemma preserves_lift {A} (m : outcome A) : preserves R (lift m).
Proof. intros w. reflexivity. Qed.

Lemma preserves_raise {A} e : preserves R (raise (A := A) e).
Proof. intros w. reflexivity. Qed.

Lemma preserves_deref l : preserves R (deref l).
Proof. intros w. unfold deref. destruct (frames w !! l); reflexivity. Qed.

Lemma preserves_draw a : preserves R (draw a).
Proof. intros w. reflexivity. Qed.

Lemma preserves_print x : preserves R (print x).
Proof. intros w. reflexivity. Qed.

Lemma preserves_bind {A B} (m : Py A) (f : A → Py B) :
  preserves R m → (∀ a, preserves R (f a)) → preserves R (m ≫= f).
Proof.
  intros Hm Hf w. unfold mbind, Py_bind, py_bind.
  specialize (Hm w). destruct (m w) as [[a|e] w']; [|done].
  etrans; [exact Hm|]. apply Hf.
Qed.

Lemma preserves_try {A} (m : Py A) (h : exn → Py A) :
  preserves R m → (∀ e, preserves R (h e)) → preserves R (try_except m h).
Proof.
  intros Hm Hh w. unfold try_except.
  specialize (Hm w). destruct (m w) as [[a|e] w']; [done|].
  etrans; [exact Hm|]. apply Hh.
Qed.

Lemma preserves_for_each {A} (xs : list A) (body : A → Py unit) :
  (∀ x, preserves R (body x)) → preserves R (for_each xs body).
Proof.
  intros Hb. induction xs as [|x xs IH]; [apply preserves_ret|].
  apply preserves_bind; [apply Hb | by intros _].
Qed.

Lemma preserves_if {A} (b : bool) (m1 m2 : Py A) :
  preserves R m1 → preserves R m2 → preserves R (if b then m1 else m2).
Proof. by destruct b. Qed.

End Preserves.

Ltac preserves_step :=
  lazymatch goal with
  | |- preserves _ (mret _) => apply preserves_ret
  | |- preserves _ (raise _) => apply preserves_raise
  | |- preserves _ (lift _) => apply preserves_lift
  | |- preserves _ (deref _) => apply preserves_deref
  | |- preserves _ (draw _) => apply preserves_draw
  | |- preserves _ (print _) => apply preserves_print
  | |- preserves _ (_ ≫= _) => apply preserves_bind; [..|intros ?]
  | |- preserves _ (try_except _ _) => apply preserves_try; [..|intros ?]
  | |- preserves _ (for_each _ _) => apply preserves_for_each; [..|intros ?]
  | |- preserves _ (if _ then _ else _) => apply preserves_if
  | |- PreOrder _ => apply _
  end.

Ltac preserves_auto := repeat preserves_step.

Lemma preserves_alloc df : preserves grows (alloc df).
Proof.
  intros w l Hl. cbn. apply lookup_insert_ne. intros <-.
  apply elem_of_dom in Hl. by apply is_fresh in Hl.
Qed.

Lemma preserves_eq_grows {A} (m : Py A) : preserves eq m → preserves grows m.
Proof. intros Hm w. by rewrite <- Hm. Qed.

(** The argument of a function that starts by reading it is unchanged
    when the store only grows. *)
Lemma grows_argument {A} (m : Py A) w l :
  preserves grows m → (frames w !! l = None → frames (m w).2 = frames w) →
  frames (m w).2 !! l = frames w !! l.
Proof.
  intros Hm Hnone. destruct (frames w !! l) as [d|] eqn:E.
  - rewrite <- E. by apply Hm.
  - by rewrite Hnone.
Qed.

Section Purity.
Context `{Numeric}.

Lemma statistics_reads df keys plot : preserves eq (statistics df keys plot).
Proof.
  destruct keys as [keys|]; [|cbn [statistics]; preserves_auto].
  unfold statistics. generalize (∅ : gmap string num).
  induction keys as [|k keys IH]; intros data; cbn [stats_loop].
  - preserves_auto.
  - unfold stats_plot. preserves_auto. apply IH.
Qed.

Lemma find_lpe_gains_reads df printing : preserves eq (find_lpe_gains df printing).
Proof. unfold find_lpe_gains. preserves_auto. apply statistics_reads. Qed.

End Purity.

Lemma background_flight_modes_reads cnames data :
  preserves eq (background_flight_modes cnames data).
Proof. unfold background_flight_modes. preserves_auto. Qed.

Lemma get_auto_data_grows data : preserves grows (get_auto_data data).
Proof. unfold get_auto_data. preserves_auto. apply preserves_alloc. Qed.

Lemma set_time_series_grows data : preserves grows (set_time_series data).
Proof. unfold set_time_series. preserves_auto. apply preserves_alloc. Qed.

Lemma get_float_data_grows data : preserves grows (get_float_data data).
Proof. unfold get_float_data. preserves_auto. apply preserves_alloc. Qed.

Lemma process_data_grows data : preserves grows (process_data data).
Proof.
  unfold process_data. preserves_auto;
    [apply get_float_data_grows | apply set_time_series_grows].
Qed.

(** *** process_lpe_health *)

Lemma preserves_assign_column data names d k col w :
  frames w !! data = Some d → k ∈ names →
  writes_columns data names (frames w)
    (frames (assign data (setitem d k col) w).2).
Proof.
  intros Hd Hk. cbn. split; [|split].
  - intros l Hl. by rewrite lookup_insert_ne.
  - by rewrite lookup_insert_eq, Hd.
  - intros k' Hk'. rewrite lookup_insert_eq, Hd. cbn.
    rewrite lookup_insert_ne; [done|]. by intros ->.
Qed.

Lemma health_try_writes data attr prefix a b :
  (∀ n, n ∈ health_names → prefix +:+ n ∈ health_columns) →
  preserves (writes_columns data health_columns)
    (health_try data attr prefix a b).
Proof.
  intros Hp. unfold health_try.
  apply preserves_bind; [try apply _ ..|intros d0]; [preserves_auto|].
  apply preserves_bind; [try apply _ ..|intros bits]; [preserves_auto|].
  apply preserves_for_each; [try apply _ ..|intros x].
  intros w. unfold mbind, Py_bind, py_bind, lift.
  destruct (py_index health_names x) as [name|] eqn:En; [|reflexivity].
  destruct (health_column bits x) as [col|]; [|reflexivity].
  unfold deref. destruct (frames w !! data) as [d|] eqn:Ed; [|reflexivity].
  apply preserves_assign_column; [done|]. apply Hp.
  unfold py_index in En.
  destruct (_ && _); [|done].
  destruct (health_names !! _) eqn:El; [|done].
  injection En as <-. by eapply list_elem_of_lookup_2.
Qed.

Lemma process_lpe_health_writes data :
  preserves (writes_columns data health_columns) (process_lpe_health data).
Proof.
  unfold process_lpe_health. preserves_auto.
  - apply health_try_writes. intros n Hn. unfold health_columns.
    apply elem_of_app. left. by apply list_elem_of_fmap_2.
  - apply health_try_writes. intros n Hn. unfold health_columns.
    apply elem_of_app. right. by apply list_elem_of_fmap_2.
Qed.


(** ** Purity *)

Lemma reads_leaves_argument {A} (f : loc → Py A) :
  (∀ data, preserves eq (f data)) → leaves_argument f.
Proof. intros Hf data w. by rewrite <- Hf. Qed.

Lemma deref_none {A} l (f : DataFrame → Py A) w :
  frames w !! l = None → (deref l ≫= f) w = (Raise TypeError, w).
Proof. intros Hl. unfold mbind, Py_bind, py_bind, deref. by rewrite Hl. Qed.

Lemma try_print_ok (m : Py unit) w :
  (try_except m (λ e, print (PrintExn e)) w).1 = Ok ().
Proof. unfold try_except. by destruct (m w) as [[[]|e] w']. Qed.

Lemma process_lpe_health_returns data w :
  (process_lpe_health data w).1 = Ok data.
Proof.
  unfold process_lpe_health, mbind, Py_bind, py_bind.
  pose proof (try_print_ok (health_try data "EST2_fHealth" "fault_" 1 0) w) as H1.
  destruct (try_except _ _ w) as [[[]|e] w1]; [|done].
  pose proof (try_print_ok (health_try data "EST0_fTOut" "timeout_" 0 1) w1) as H2.
  destruct (try_except _ _ w1) as [[[]|e] w2]; done.
Qed.

Lemma preserves_try_when (R : relation (gmap loc DataFrame)) `{!PreOrder R}
    {A} catches (m : Py A) (h : exn → Py A) :
  preserves R m → (∀ e, preserves R (h e)) →
  preserves R (try_except_when catches m h).
Proof.
  intros Hm Hh w. unfold try_except_when.
  specialize (Hm w). destruct (m w) as [[a|e] w']; [done|].
  destruct (catches e); [|done]. etrans; [exact Hm|]. apply Hh.
Qed.

Create HintDb store discriminated.

#[export] Hint Resolve background_flight_modes_reads : store.
#[export] Hint Resolve statistics_reads find_lpe_gains_reads : store.
#[export] Hint Resolve get_auto_data_grows set_time_series_grows
  get_float_data_grows process_data_grows preserves_alloc : store.

Ltac charts_step :=
  lazymatch goal with
  | |- preserves _ (try_except_when _ _ _) =>
      apply preserves_try_when; [..|intros ?]
  | |- preserves _ (procedure _) => unfold procedure
  | |- preserves _ (returning _ _) => unfold returning
  | |- preserves _ (attr _ _) => unfold attr
  | |- preserves _ (plot _ _ _) => unfold plot
  | |- preserves _ (plot_attr _ _ _) => unfold plot_attr
  | |- preserves _ (plot_deg _ _ _) => unfold plot_deg
  | |- preserves _ (plot_percent _ _) => unfold plot_percent
  | |- preserves _ (_plot_outputs _ _) => unfold _plot_outputs
  | |- preserves eq (background_flight_modes _ _) =>
      apply background_flight_modes_reads
  | |- _ => preserves_step
  end.

Ltac charts_auto := repeat charts_step; eauto with store.

Section ChartFacts.
Context `{Numeric}.
Variable cnames : list (string * string).

Lemma octa_cox_data_to_ss_grows data :
  preserves grows (octa_cox_data_to_ss data).
Proof. unfold octa_cox_data_to_ss. charts_auto. Qed.

Lemma call_reads f data :
  allocates f = false → f ≠ f_process_lpe_health →
  preserves eq (call cnames f data).
Proof.
  intros Ha Hf. destruct f; try done; cbn [call];
    unfold plot_control_loops;
    unfold plot_attitude_loops, plot_attitude_rate_loops,
      plot_attitude_control_loops, plot_velocity_loops,
      plot_position_loops, plot_rc_inputs,
      plot_acceleration_raw, plot_angular_speed_raw, plot_magnetic_raw,
      plot_gps_stats, plot_distance_sensor, plot_sonar_raw,
      plot_optical_flow_raw, plot_optical_flow_quality,
      plot_px4io_outputs, plot_px4fmu_outputs, plot_modes, plot_faults;
    solve [charts_auto].
Qed.

Lemma call_grows f data :
  allocates f = true → preserves grows (call cnames f data).
Proof.
  intros Ha. destruct f; try done; cbn [call];
    first [ apply octa_cox_data_to_ss_grows | solve [charts_auto] ].
Qed.

Lemma call_dangling f data w :
  allocates f = true → frames w !! data = None →
  frames (call cnames f data w).2 = frames w.
Proof.
  intros Ha Hn. destruct f; try done; cbn [call];
    unfold returning, octa_cox_data_to_ss, process_data, get_float_data,
      get_auto_data, set_time_series;
    unfold mbind, Py_bind, py_bind, deref; by rewrite Hn.
Qed.


End ChartFacts.

(** ** Rows *)

Lemma rows_of_where mask idx cols :
  rows_of (take_where mask idx) (take_where mask <$> cols) =
    take_where mask (rows_of idx cols).
Proof.
  revert idx cols. induction mask as [|b mask IH]; intros [|t idx] cols; try done.
  cbn [rows_of]. destruct b; cbn [take_where rows_of].
  - f_equal.
    + f_equal. apply map_eq. intros k. rewrite !lookup_omap, lookup_fmap.
      destruct (cols !! k) as [[|x c]|]; done.
    + rewrite <- IH. f_equal. apply map_eq. intros k. rewrite !lookup_fmap.
      destruct (cols !! k) as [[|x c]|]; try done. by destruct mask.
  - rewrite <- IH. f_equal. apply map_eq. intros k. rewrite !lookup_fmap.
    destruct (cols !! k) as [[|x c]|]; try done. by destruct mask.
Qed.

Lemma rows_frame_where mask df :
  rows (frame_where mask df) = take_where mask (rows df).
Proof. apply rows_of_where. Qed.

Lemma take_where_test k f idx cols col :
  cols !! k = Some col → length col = length idx →
  take_where (f <$> col) (rows_of idx cols) =
    List.filter (row_test k f) (rows_of idx cols).
Proof.
  revert cols col. induction idx as [|t idx IH]; intros cols [|x col] Hk Hlen;
    try done.
  cbn [rows_of fmap list_fmap take_where List.filter].
  unfold row_test at 1. cbn [snd]. rewrite lookup_omap, Hk. cbn.
  rewrite (IH (tail <$> cols) col); [done|..].
  - by rewrite lookup_fmap, Hk.
  - cbn in Hlen. lia.
Qed.

Lemma snd_zip_same {A B} (l : list A) (k : list B) :
  length k = length l → (zip l k).*2 = k.
Proof. intros Hl. apply snd_zip. lia. Qed.

Lemma take_where_length {A B} mask (l : list A) (k : list B) :
  length l = length k → length (take_where mask l) = length (take_where mask k).
Proof.
  revert l k. induction mask as [|b mask IH]; intros [|x l] [|y k] Hl; try done.
  cbn. destruct b; cbn; auto.
Qed.

Lemma frame_where_wf mask df : frame_wf df → frame_wf (frame_where mask df).
Proof.
  intros Hwf k col. cbn. rewrite lookup_fmap.
  destruct (columns df !! k) as [c|] eqn:Hk; [|done].
  intros [= <-]. apply take_where_length. by eapply Hwf.
Qed.

(** Selecting by the test of a column keeps the rows that pass. *)
Lemma rows_select k f df s :
  frame_wf df → getitem df k = Ok s →
  rows (frame_where (f <$> s_values s) df) = List.filter (row_test k f) (rows df).
Proof.
  intros Hwf Hs. unfold getitem in Hs.
  destruct (columns df !! k) as [col|] eqn:Hk; [|done]. injection Hs as <-.
  rewrite rows_frame_where. unfold s_values.
  rewrite snd_zip_same by eauto. by eapply take_where_test; eauto.
Qed.

Lemma getitem_where mask df k :
  is_ok (getitem (frame_where mask df) k) = is_ok (getitem df k).
Proof.
  unfold getitem. cbn. rewrite lookup_fmap. by destruct (columns df !! k).
Qed.

Lemma filter_filter {A} (f g : A → bool) l :
  List.filter g (List.filter f l) = List.filter (λ x, f x && g x) l.
Proof.
  induction l as [|x l IH]; [done|]. cbn. destruct (f x); cbn; [|done].
  destruct (g x); by rewrite IH.
Qed.

Lemma rows_length df : length (rows df) = length (index df).
Proof.
  unfold rows. generalize (columns df).
  induction (index df) as [|t idx IH]; intros cols; [done|]. cbn. by rewrite IH.
Qed.

(** The selections of [get_auto_data] on a frame that has the three
    columns. *)
Lemma auto_rows_spec df :
  frame_wf df →
  is_Some (columns df !! "STAT_MainState") →
  is_Some (columns df !! "GPSP_Lat") →
  is_Some (columns df !! "GPSP_Lon") →
  match auto_rows df with
  | Ok df' =>
      rows df' = List.filter auto_row (rows df) ∧ rows df' ≠ []
  | Raise e =>
      e = RuntimeError "no auto mode detected" ∧
      List.filter auto_row (rows df) = []
  end.
Proof.
  intros Hwf [c1 H1] [c2 H2] [c3 H3]. unfold auto_rows.
  destruct (getitem df "STAT_MainState") as [state|] eqn:E1;
    [|unfold getitem in E1; by rewrite H1 in E1].
  cbn [mbind outcome_bind obind]. set (d1 := frame_where _ df).
  assert (Hwf1 : frame_wf d1) by by apply frame_where_wf.
  assert (R1 : rows d1 = List.filter (row_test "STAT_MainState" (λ v, PrimFloat.eqb v 3%float)) (rows df))
    by by apply rows_select.
  destruct (getitem d1 "GPSP_Lat") as [lat|] eqn:E2.
  2:{ pose proof (getitem_where ((λ v, PrimFloat.eqb v 3%float) <$> s_values state) df "GPSP_Lat") as Hok.
      fold d1 in Hok. rewrite E2 in Hok. unfold getitem in Hok. by rewrite H2 in Hok. }
  cbn [mbind outcome_bind obind]. set (d2 := frame_where _ d1).
  assert (Hwf2 : frame_wf d2) by by apply frame_where_wf.
  assert (R2 : rows d2 = List.filter (row_test "GPSP_Lat" F64.isfinite) (rows d1))
    by by apply rows_select.
  destruct (getitem d2 "GPSP_Lon") as [lon|] eqn:E3.
  2:{ pose proof (getitem_where (F64.isfinite <$> s_values lat) d1 "GPSP_Lon") as Hok.
      fold d2 in Hok. rewrite E3 in Hok.
      pose proof (getitem_where ((λ v, PrimFloat.eqb v 3%float) <$> s_values state) df "GPSP_Lon") as Hok'.
      fold d1 in Hok'. rewrite <- Hok in Hok'.
      unfold getitem in Hok'. by rewrite H3 in Hok'. }
  cbn [mbind outcome_bind obind]. set (d3 := frame_where _ d2).
  assert (R3 : rows d3 = List.filter auto_row (rows df)).
  { unfold d3. rewrite (rows_select "GPSP_Lon") by done.
    by rewrite R2, R1, (filter_filter _ _ (rows df)), filter_filter. }
  rewrite <- R3.
  rewrite <- (rows_length d3).
  destruct (rows d3) eqn:E; cbn; [done|]. split; [exact E | change (rows d3 ≠ []); by rewrite E].
Qed.


(** ** get_auto_data *)

Lemma filter_nil_iff {A} (f : A → bool) (l : list A) :
  List.filter f l = [] ↔ ∀ x, x ∈ l → f x = false.
Proof.
  induction l as [|x l IH]; cbn.
  - split; [|done]. intros _ x Hx. by apply elem_of_nil in Hx.
  - destruct (f x) eqn:Ef.
    + split; [done|]. intros Hall. specialize (Hall x). rewrite Ef in Hall.
      discriminate Hall. by left.
    + rewrite IH. split.
      * intros Hall y [->|Hy]%elem_of_cons; auto.
      * intros Hall y Hy. apply Hall. by right.
Qed.



(** ** Flight mode intervals *)

(** *** Sequences *)

Lemma take_where_filter {A B} (f : B → bool) (g : A → B) (l : list A) :
  take_where (f <$> (g <$> l)) l = List.filter (λ x, f (g x)) l.
Proof.
  induction l as [|x l IH]; [done|]. cbn. by rewrite IH.
Qed.

Lemma py_index_head {A} (l : list A) :
  py_index l 0 = match head l with Some x => Ok x | None => Raise IndexError end.
Proof.
  unfold py_index. destruct l as [|x l]; [done|].
  cbn [head]. rewrite Z.ltb_irrefl.
  rewrite (proj2 (Z.leb_le 0 0)) by lia.
  rewrite (proj2 (Z.ltb_lt 0 _)) by (cbn [length]; lia). done.
Qed.

Lemma py_index_last {A} (l : list A) :
  py_index l (Z.of_nat (length l) - 1) =
    match last l with Some x => Ok x | None => Raise IndexError end.
Proof.
  unfold py_index. destruct l as [|x l] using rev_ind; [done|].
  rewrite last_snoc, length_app. cbn [length].
  replace (Z.of_nat (length l + 1) - 1)%Z with (Z.of_nat (length l)) by lia.
  destruct (Z.ltb_spec (Z.of_nat (length l)) 0); [lia|].
  rewrite (proj2 (Z.leb_le 0 _)) by lia.
  rewrite (proj2 (Z.ltb_lt _ _)) by lia. cbn [andb].
  rewrite Nat2Z.id, lookup_app_r, Nat.sub_diag by lia. done.
Qed.

Lemma last_cons_default {A} (x : A) (l : list A) :
  last (x :: l) = Some (default x (last l)).
Proof.
  revert x. induction l as [|y l IH]; intros x; [done|].
  change (last (x :: y :: l)) with (last (y :: l)). rewrite IH.
  by destruct l.
Qed.

Lemma Forall2_and_l {A B} (P : A → Prop) (Q : A → B → Prop) l k :
  Forall P l → Forall2 Q l k → Forall2 (λ x y, P x ∧ Q x y) l k.
Proof.
  intros HP HQ. induction HQ; [constructor|].
  apply Forall_cons in HP as [? ?]. constructor; auto.
Qed.


(** *** Intervals of a series whose modes are all different *)

Lemma eqb_false_trans x y z :
  PrimFloat.eqb x y = true → PrimFloat.eqb z y = false → PrimFloat.eqb x z = false.
Proof.
  intros Hxy Hzy. apply not_true_iff_false. intros Hxz.
  apply not_true_iff_false in Hzy. apply Hzy.
  rewrite F64Facts.eqb_sym in Hxz. by eapply F64Facts.eqb_trans.
Qed.

Lemma runs_from_head m t0 t1 s :
  ∃ t rest, runs_from m t0 t1 s =
    {| i_mode := m; i_start := t0; i_end := t |} :: rest.
Proof.
  revert t1. induction s as [|[t v] s IH]; intros t1; cbn; [eauto|].
  destruct (PrimFloat.eqb v m); eauto.
Qed.

(** Every row lies in an interval of its mode. *)
Lemma runs_from_cover m t0 t1 s p :
  no_nan s → p ∈ s →
  ∃ r, r ∈ runs_from m t0 t1 s ∧ PrimFloat.eqb p.2 (i_mode r) = true.
Proof.
  revert m t0 t1. induction s as [|[t v] s IH]; intros m t0 t1 Hs Hp.
  { by apply elem_of_nil in Hp. }
  apply Forall_cons in Hs as [Hv Hs]. cbn in Hv. cbn [runs_from].
  apply elem_of_cons in Hp as [->|Hp].
  - cbn [snd]. destruct (PrimFloat.eqb v m) eqn:E.
    + destruct (runs_from_head m t0 t s) as (t' & rest & ->).
      eexists. split; [by left|done].
    + destruct (runs_from_head v t t s) as (t' & rest & ->).
      eexists. split; [right; by left|]. by apply F64Facts.eqb_refl.
  - destruct (PrimFloat.eqb v m).
    + by apply IH.
    + destruct (IH v t t Hs Hp) as (r & Hr & Er). exists r. split; [by right|done].
Qed.

Lemma times_of_cons m t v s :
  times_of m ((t, v) :: s) =
    if PrimFloat.eqb v m then t :: times_of m s else times_of m s.
Proof. unfold times_of. cbn. by destruct (PrimFloat.eqb v m). Qed.

Lemma times_of_none m s :
  (∀ p, p ∈ s → PrimFloat.eqb p.2 m = false) → times_of m s = [].
Proof.
  intros Hs. unfold times_of.
  rewrite (proj2 (filter_nil_iff _ _)); [done|exact Hs].
Qed.

(** The intervals behind the current one, when no mode comes twice: the
    current interval ends at the last time of its mode, and every later
    interval runs from the first to the last time of its mode. *)
Lemma runs_from_spec m t0 t1 s :
  no_nan s → F64.is_nan m = false →
  distinct_modes (runs_from m t0 t1 s) →
  ∃ rest,
    runs_from m t0 t1 s =
      {| i_mode := m; i_start := t0;
         i_end := default t1 (last (times_of m s)) |} :: rest ∧
    Forall (λ r, head (times_of (i_mode r) s) = Some (i_start r) ∧
                 last (times_of (i_mode r) s) = Some (i_end r)) rest.
Proof.
  revert m t0 t1. induction s as [|[t v] s IH]; intros m t0 t1 Hs Hm Hd.
  { exists []. by split. }
  apply Forall_cons in Hs as [Hv Hs]. cbn in Hv.
  cbn [runs_from] in *. rewrite times_of_cons.
  destruct (PrimFloat.eqb v m) eqn:E.
  - destruct (IH m t0 t Hs Hm Hd) as (rest & Hr & Hrest).
    exists rest. rewrite last_cons_default. split; [done|].
    rewrite Hr in Hd. destruct Hd as [Hd _]. cbn [i_mode] in Hd.
    rewrite Forall_forall in Hrest, Hd. apply Forall_forall. intros r Hin.
    rewrite times_of_cons.
    rewrite (eqb_false_trans v m (i_mode r)); [by apply Hrest|done|by apply Hd].
  - destruct Hd as [Hd1 Hd2]. cbn [i_mode] in Hd1.
    destruct (IH v t t Hs Hv Hd2) as (rest & Hr & Hrest).
    eexists. split.
    + f_equal. f_equal. rewrite times_of_none; [done|].
      intros p Hp. destruct (runs_from_cover v t t s p Hs Hp) as (r & Hin & Er).
      eapply eqb_false_trans; [exact Er|].
      rewrite Forall_forall in Hd1. rewrite <- (Hd1 r Hin).
      apply F64Facts.eqb_sym.
    + rewrite Hr. constructor.
      * cbn [i_mode i_start i_end]. rewrite times_of_cons.
        rewrite F64Facts.eqb_refl by done. by rewrite last_cons_default.
      * rewrite Hr in Hd2. destruct Hd2 as [Hd2 _]. cbn [i_mode] in Hd2.
        rewrite Forall_forall in Hrest, Hd2. apply Forall_forall. intros r Hin.
        rewrite times_of_cons.
        rewrite (eqb_false_trans v v (i_mode r));
          [by apply Hrest | by apply F64Facts.eqb_refl | by apply Hd2].
Qed.

(** Every interval runs from the first to the last time of its mode. *)
Lemma runs_spec s :
  no_nan s → distinct_modes (runs s) →
  Forall (λ r, head (times_of (i_mode r) s) = Some (i_start r) ∧
               last (times_of (i_mode r) s) = Some (i_end r)) (runs s).
Proof.
  destruct s as [|[t v] s]; intros Hs Hd; [constructor|].
  apply Forall_cons in Hs as [Hv Hs]. cbn in Hv. cbn [runs] in *.
  destruct (runs_from_spec v t t s Hs Hv Hd) as (rest & Hr & Hrest).
  rewrite Hr. constructor.
  - cbn [i_mode i_start i_end]. rewrite times_of_cons.
    rewrite F64Facts.eqb_refl by done. by rewrite last_cons_default.
  - rewrite Hr in Hd. destruct Hd as [Hd _]. cbn [i_mode] in Hd.
    rewrite Forall_forall in Hrest, Hd. apply Forall_forall. intros r Hin.
    rewrite times_of_cons.
    rewrite (eqb_false_trans v v (i_mode r));
      [by apply Hrest | by apply F64Facts.eqb_refl | by apply Hd].
Qed.

(** *** unique *)

Lemma same_key_eqb v x : F64.is_nan v = false → same_key v x = PrimFloat.eqb v x.
Proof. intros Hv. unfold same_key. rewrite Hv. by rewrite orb_false_r. Qed.

Lemma unique_from_elem seen vs v : v ∈ unique_from seen vs → v ∈ vs.
Proof.
  revert seen. induction vs as [|x vs IH]; intros seen; cbn; [done|].
  destruct (existsb _ _).
  - intros Hin. right. by eapply IH.
  - intros [->|Hin]%elem_of_cons; [by left|]. right. by eapply IH.
Qed.

Lemma unique_from_runs seen m t0 t1 s :
  no_nan s →
  distinct_modes (runs_from m t0 t1 s) →
  m ∈ seen →
  Forall (λ r, Forall (λ x, PrimFloat.eqb (i_mode r) x = false) seen)
         (tail (runs_from m t0 t1 s)) →
  unique_from seen (s_values s) = i_mode <$> tail (runs_from m t0 t1 s).
Proof.
  revert seen m t0 t1. induction s as [|[t v] s IH]; intros seen m t0 t1 Hs Hd Hm Hseen.
  { done. }
  apply Forall_cons in Hs as [Hv Hs]. cbn in Hv.
  cbn [s_values fmap list_fmap snd unique_from]. fold (s_values s).
  cbn [runs_from] in *.
  destruct (PrimFloat.eqb v m) eqn:E.
  - assert (existsb (same_key v) seen = true) as ->.
    { apply existsb_exists. exists m. split; [by apply list_elem_of_In|].
      unfold same_key. by rewrite E. }
    by apply IH.
  - cbn [tail] in *. destruct Hd as [Hd1 Hd2].
    destruct (runs_from_head v t t s) as (t' & rest & Hr).
    assert (existsb (same_key v) seen = false) as ->.
    { apply not_true_iff_false. intros (x & Hx & Ex)%existsb_exists.
      rewrite same_key_eqb in Ex by done.
      rewrite Hr in Hseen. apply Forall_cons in Hseen as [Hseen _].
      cbn [i_mode] in Hseen. rewrite Forall_forall in Hseen.
      apply list_elem_of_In in Hx. rewrite (Hseen x Hx) in Ex. discriminate. }
    rewrite (IH (v :: seen) v t t); try done.
    + rewrite Hr. done.
    + by left.
    + rewrite Hr in Hd2, Hseen |- *. cbn [tail]. destruct Hd2 as [Hd2 _].
      cbn [i_mode] in Hd2. apply Forall_cons in Hseen as [_ Hseen].
      rewrite Forall_forall in Hd2, Hseen |- *. intros r Hin.
      constructor; [by apply Hd2 | by apply Hseen].
Qed.

Lemma unique_runs s :
  no_nan s → distinct_modes (runs s) →
  unique (s_values s) = i_mode <$> runs s.
Proof.
  destruct s as [|[t v] s]; intros Hs Hd; [done|].
  apply Forall_cons in Hs as [Hv Hs]. cbn in Hv.
  unfold unique. cbn [s_values fmap list_fmap snd unique_from existsb runs] in *.
  fold (s_values s).
  destruct (runs_from_head v t t s) as (t' & rest & Hr).
  rewrite (unique_from_runs [v] v t t); try done.
  - by rewrite Hr.
  - by left.
  - rewrite Hr in Hd |- *. cbn [tail]. destruct Hd as [Hd _]. cbn [i_mode] in Hd.
    rewrite Forall_forall in Hd |- *. intros r Hin.
    constructor; [by apply Hd | constructor].
Qed.


(** *** The spans of background_flight_modes *)

Lemma count_all (s : Series) :
  no_nan s → count s = Z.of_nat (length (s_index s)).
Proof.
  intros Hs. unfold count, s_index, s_values. rewrite length_fmap.
  f_equal. induction Hs as [|p s Hp Hs IH]; [done|].
  rewrite fmap_cons, filter_cons_True by done. cbn [length]. by rewrite IH.
Qed.

Section SpanFacts.
Variable cnames : list (string * string).

Lemma to_int_not_nan m : is_ok (F64.to_int m) = true → F64.is_nan m = false.
Proof.
  intros Hok. apply not_true_iff_false. intros Hn%F64Facts.is_nan_spec.
  unfold F64.to_int in Hok. by rewrite Hn in Hok.
Qed.

Lemma mode_style_not_nan m :
  is_ok (mode_style cnames m) = true → F64.is_nan m = false.
Proof.
  intros Hok. apply to_int_not_nan. unfold mode_style in Hok.
  by destruct (F64.to_int m).
Qed.

(** One iteration of the loop: the span of [m] runs from the first to
    the last time of [m]. *)
Lemma mode_span_times d state m :
  getattr d "STAT_MainState" = Ok state →
  m ∈ s_values state →
  is_ok (mode_style cnames m) = true →
  ∃ t_min t_max,
    head (times_of m state) = Some t_min ∧
    last (times_of m state) = Some t_max ∧
    mode_span cnames d m = span_of cnames m t_min t_max.
Proof.
  intros Hstate Hm Hstyle.
  pose proof (mode_style_not_nan m Hstyle) as Hnan.
  unfold mode_span. rewrite Hstate. cbn [mbind outcome_bind obind].
  unfold s_values. rewrite take_where_filter.
  set (mode := List.filter _ state).
  change (s_index mode) with (times_of m state).
  assert (Hmode : no_nan mode).
  { apply Forall_forall. intros p [_ Hp]%list_elem_of_In%filter_In.
    by eapply F64Facts.eqb_not_nan_l. }
  assert (Hne : times_of m state ≠ []).
  { apply list_elem_of_fmap in Hm as ([t v] & -> & Hin). cbn [snd] in *.
    intros Hnil. apply fmap_nil_inv in Hnil.
    assert ((t, v) ∈ List.filter (λ p : sample, PrimFloat.eqb p.2 v) state) as Hf.
    { apply list_elem_of_In, filter_In. split; [by apply list_elem_of_In|].
      by apply F64Facts.eqb_refl. }
    rewrite Hnil in Hf. by eapply not_elem_of_nil. }
  rewrite (count_all mode Hmode). change (s_index mode) with (times_of m state).
  rewrite py_index_head, py_index_last.
  destruct (times_of m state) as [|t0 ts] eqn:Et; [done|].
  cbn [head]. rewrite last_cons_default.
  exists t0, (default t0 (last ts)). split; [done|]. split; [done|].
  cbn [mbind outcome_bind obind]. unfold span_of, mode_style.
  destruct (F64.to_int m) as [i|]; [|done]. cbn [mbind outcome_bind obind].
  destruct (py_index (colors_ cnames) i) as [c|]; [|done].
  cbn [mbind outcome_bind obind].
  destruct (item0 c) as [color|]; [|done]. cbn [mbind outcome_bind obind].
  destruct (py_index FLIGHT_MODES i) as [label|]; done.
Qed.

Lemma for_each_spans data d modes spans w :
  frames w !! data = Some d →
  Forall2 (λ m a, mode_span cnames d m = Ok a) modes spans →
  for_each modes (λ m, d ← deref data; span ← lift (mode_span cnames d m);
                       draw span) w =
    (Ok (), {| frames := frames w; canvas := canvas w ++ spans;
               stdout := stdout w |}).
Proof.
  intros Hd HF. revert w Hd. induction HF as [|m a modes spans Hm HF IH]; intros w Hd.
  - cbn. rewrite app_nil_r. by destruct w.
  - cbn [for_each]. unfold mbind at 1, Py_bind, py_bind.
    unfold mbind at 1 2, Py_bind, py_bind, deref, lift. rewrite Hd, Hm.
    cbn [draw]. rewrite IH by done. cbn [frames canvas stdout].
    by rewrite <- app_assoc.
Qed.

End SpanFacts.


Lemma Forall_exists_Forall2 {A B} (Q : A → B → Prop) (l : list A) :
  Forall (λ x, ∃ y, Q x y) l → ∃ k, Forall2 Q l k.
Proof.
  induction 1 as [|x l [y Hy] _ [k Hk]]; [by exists []|].
  exists (y :: k). by constructor.
Qed.

(** C3 fails when a mode comes back: for the modes 0, 1, 0 at the times
    0, 1, 2 there are three intervals and two spans, and the span of
    mode 0 runs from 0 to 2, over the time 1 at which the mode is 1. *)
Lemma background_flight_modes_merges_intervals :
  getattr modes_frame "STAT_MainState" = Ok modes_series ∧
  canvas (background_flight_modes palette 1%positive modes_world).2 =
    [AxVSpan 0 2 0.3 "w" "MANUAL"; AxVSpan 1 1 0.3 "red" "ALTCTL"]%float ∧
  interval_span palette <$> runs modes_series =
    [Ok (AxVSpan 0 0 0.3 "w" "MANUAL"); Ok (AxVSpan 1 1 0.3 "red" "ALTCTL");
     Ok (AxVSpan 2 2 0.3 "w" "MANUAL")]%float ∧
  ¬ Forall2 (λ r a, interval_span palette r = Ok a) (runs modes_series)
      (canvas (background_flight_modes palette 1%positive modes_world).2).
Proof.
  split; [reflexivity|]. split; [vm_compute; reflexivity|].
  split; [vm_compute; reflexivity|].
  intros HF. apply Forall2_length in HF. vm_compute in HF. discriminate HF.
Qed.

Section SpanClaim.
Variable cnames : list (string * string).

(** C3, as amended.  On a frame whose [STAT_MainState] is defined on
    every row (each value has a colour and a name),
    [background_flight_modes] draws one span per distinct mode, in the
    order of first appearance, from the first to the last time at which
    the mode is active; when no mode comes back after another mode, the
    spans are exactly the contiguous same-mode intervals. *)
Theorem background_flight_modes_spans (data : loc) (w : world)
    (d : DataFrame) (state : Series) :
  frames w !! data = Some d →
  getattr d "STAT_MainState" = Ok state →
  Forall (λ m, is_ok (mode_style cnames m) = true) (s_values state) →
  ∃ spans,
    background_flight_modes cnames data w =
      (Ok (), {| frames := frames w; canvas := canvas w ++ spans;
                 stdout := stdout w |}) ∧
    Forall2 (λ m a, ∃ t_min t_max,
               head (times_of m state) = Some t_min ∧
               last (times_of m state) = Some t_max ∧
               span_of cnames m t_min t_max = Ok a)
            (unique (s_values state)) spans ∧
    (distinct_modes (runs state) →
     Forall2 (λ r a, interval_span cnames r = Ok a) (runs state) spans).
Proof.
  intros Hd Hstate Hstyle.
  assert (Hnan : no_nan state).
  { apply Forall_fmap in Hstyle. eapply Forall_impl; [exact Hstyle|].
    intros p Hp. by eapply mode_style_not_nan. }
  assert (Hall : Forall (λ m, ∃ a, ∃ t_min t_max,
                   head (times_of m state) = Some t_min ∧
                   last (times_of m state) = Some t_max ∧
                   span_of cnames m t_min t_max = Ok a ∧
                   mode_span cnames d m = Ok a) (unique (s_values state))).
  { apply Forall_forall. intros m Hm%unique_from_elem.
    rewrite Forall_forall in Hstyle. specialize (Hstyle m Hm).
    destruct (mode_span_times cnames d state m Hstate Hm Hstyle)
      as (t_min & t_max & H1 & H2 & H3).
    unfold span_of in *. destruct (mode_style cnames m) as [style|]; [|done].
    eexists _, t_min, t_max. repeat split; try done. }
  apply Forall_exists_Forall2 in Hall as [spans Hspans].
  exists spans. split; [|split].
  - unfold background_flight_modes, mbind at 1 2, Py_bind, py_bind, deref, lift.
    rewrite Hd, Hstate. apply (for_each_spans cnames data d); [done|].
    eapply Forall2_impl; [exact Hspans|]. by intros m a (?&?&?&?&?&?).
  - eapply Forall2_impl; [exact Hspans|]. intros m a (?&?&?&?&?&?). eauto.
  - intros Hdist. rewrite (unique_runs state Hnan Hdist) in Hspans.
    apply Forall2_fmap_l in Hspans.
    pose proof (runs_spec state Hnan Hdist) as Hruns.
    pose proof (Forall2_and_l _ _ _ _ Hruns Hspans) as Hboth.
    eapply Forall2_impl; [exact Hboth|].
    intros r a ([Hs He] & t_min & t_max & Hmin & Hmax & Hspan & _).
    unfold interval_span. congruence.
Qed.

End SpanClaim.

(** ** The functions of the module that take a dataframe *)

(** *** What a computation returns *)

Lemma returns_ret {A} (P : A → Prop) a : P a → returns P (mret a).
Proof. intros HP w a' [= <-]. done. Qed.

Lemma returns_bind {A B} (P : B → Prop) (m : Py A) (f : A → Py B) :
  (∀ a, returns P (f a)) → returns P (m ≫= f).
Proof.
  intros Hf w b. unfold mbind, Py_bind, py_bind.
  destruct (m w) as [[a|e] w'] eqn:E; [apply Hf | done].
Qed.

Lemma returns_procedure m : returns (λ v, kind_of v = KNone) (procedure m).
Proof. apply returns_bind. intros _. by apply returns_ret. Qed.

Lemma returns_returning {A} (wrap : A → pyvalue) k m :
  (∀ a, kind_of (wrap a) = k) → returns (λ v, kind_of v = k) (returning wrap m).
Proof. intros Hk. apply returns_bind. intros a. by apply returns_ret. Qed.

Section Results.
Context `{Numeric}.
Variable cnames : list (string * string).

Lemma octa_cox_data_to_ss_returns data :
  returns (λ v, kind_of v = result_kind f_octa_cox_data_to_ss)
          (octa_cox_data_to_ss data).
Proof.
  unfold octa_cox_data_to_ss.
  repeat (apply returns_bind; intros ?). by apply returns_ret.
Qed.


End Results.

(** ** find_lpe_gains *)

Section Gains.
Context `{Numeric}.

Lemma lookup_lpe_stats w df k s :
  k ∈ lpe_keys → s ∈ stat_suffixes →
  dict_get (foldl (λ acc k, stats_store k (key_stats w df k) acc) ∅ lpe_keys)
           (k +:+ s) = Ok (stat_field s (key_stats w df k)).
Proof.
  intros Hk Hs. unfold dict_get.
  by rewrite lookup_stats_fold, decide_True.
Qed.

(** What [find_lpe_gains] returns, in terms of the locals [statistics]
    had for each channel. *)
Lemma find_lpe_gains_params df printing w :
  let st := key_stats w df in
  (find_lpe_gains df printing w).1 =
    Ok (<["LPE_GPS_VZ" := l_stddev (st "GPS_VelD")]>
       (<["LPE_GPS_VXY" := array_max2 (l_stddev (st "GPS_VelN"))
                                      (l_stddev (st "GPS_VelE"))]>
       (<["LPE_GPS_Z" := l_stddev (st "GPS_Z")]>
       (<["LPE_GPS_XY" := array_max2 (l_stddev (st "GPS_X"))
                                     (l_stddev (st "GPS_Y"))]>
       (<["LPE_ACC_Z" := l_stddev (st "IMU1_AccZ")]>
       (<["LPE_ACC_XY" := array_max2 (l_stddev (st "IMU1_AccX"))
                                     (l_noise_power (st "IMU1_AccX"))]>
       (<["LPE_BAR_Z" := l_stddev (st "SENS_BaroAlt")]>
       (<["LPE_LDR_Z" := l_stddev (st "DIST_Distance")]> ∅)))))))).
Proof.
  intros st. destruct (find_lpe_gains_result df printing w) as [out ->].
  cbn [fst]. rewrite statistics_noplot. cbn [fst].
  change (Ok ?x ≫= lpe_params) with (lpe_params x). unfold lpe_params.
  change "DIST_Distance_stddev" with ("DIST_Distance" +:+ "_stddev").
  change "SENS_BaroAlt_stddev" with ("SENS_BaroAlt" +:+ "_stddev").
  change "IMU1_AccX_stddev" with ("IMU1_AccX" +:+ "_stddev").
  change "IMU1_AccX_noise_power" with ("IMU1_AccX" +:+ "_noise_power").
  change "IMU1_AccZ_stddev" with ("IMU1_AccZ" +:+ "_stddev").
  change "GPS_X_stddev" with ("GPS_X" +:+ "_stddev").
  change "GPS_Y_stddev" with ("GPS_Y" +:+ "_stddev").
  change "GPS_Z_stddev" with ("GPS_Z" +:+ "_stddev").
  change "GPS_VelN_stddev" with ("GPS_VelN" +:+ "_stddev").
  change "GPS_VelE_stddev" with ("GPS_VelE" +:+ "_stddev").
  change "GPS_VelD_stddev" with ("GPS_VelD" +:+ "_stddev").
  rewrite !lookup_lpe_stats by (unfold lpe_keys, stat_suffixes; set_solver).
  reflexivity.
Qed.

End Gains.

(** * Error behaviour, composition and output *)

(** ** new_sample applied to its own result *)

Lemma py_index_neg1 {A} (l : list A) :
  py_index l (-1) = match last l with Some x => Ok x | None => Raise IndexError end.
Proof.
  rewrite <- py_index_last. destruct l as [|x l]; [done|].
  unfold py_index. cbv zeta. change (-1 <? 0) with true. cbv iota.
  replace (Z.of_nat (length (x :: l)) + -1)
    with (Z.of_nat (length (x :: l)) - 1) by lia.
  by rewrite (proj2 (Z.ltb_ge (Z.of_nat (length (x :: l)) - 1) 0))
    by (cbn [length]; lia).
Qed.

Lemma no_nan_sublist (s r : Series) : sublist r s → no_nan s → no_nan r.
Proof.
  unfold no_nan. induction 1 as [|p r s _ IH|p r s _ IH]; [done|..];
    intros [Hp Hs]%Forall_cons; [constructor|]; auto.
Qed.

Lemma sublist_tail_l {A} (l : list A) : sublist (tail l) l.
Proof. destruct l; [done|]. by apply sublist_cons. Qed.

(** Filtering again from a previous value equal to the current one keeps
    everything. *)
Lemma samples_after_again u prev (s : Series) :
  PrimFloat.eqb u prev = true → no_nan s →
  samples_after differs u (samples_after differs prev s) =
    samples_after differs prev s.
Proof.
  revert u prev. induction s as [|[t v] s IH]; intros u prev Hu Hs; [done|].
  apply Forall_cons in Hs as [Hv Hs]. cbn in Hv.
  cbn [samples_after]. destruct (differs prev v) eqn:E.
  - cbn [samples_after].
    assert (differs u v = true) as ->.
    { unfold differs in *. apply negb_true_iff in E. apply negb_true_iff.
      rewrite F64Facts.eqb_sym. by eapply eqb_false_trans. }
    f_equal. apply IH; [by apply F64Facts.eqb_refl | done].
  - apply IH; [|done]. unfold differs in E. apply negb_false_iff in E.
    eapply F64Facts.eqb_trans; [exact Hu|]. by rewrite F64Facts.eqb_sym.
Qed.

Lemma new_sample_differs (s : Series) :
  no_nan s → new_sample s = samples_where differs s.
Proof.
  intros Hs. rewrite new_sample_number_changed.
  destruct s as [|[t v] s]; [done|]. apply Forall_cons in Hs as [Hv Hs].
  by apply samples_after_no_nan.
Qed.

Lemma new_sample_sublist (s : Series) : sublist (new_sample s) (tail s).
Proof.
  rewrite new_sample_number_changed. destruct s as [|[t v] s]; [done|].
  apply samples_after_sublist.
Qed.

Lemma new_sample_length (s : Series) :
  (length (new_sample s) ≤ length s - 1)%nat.
Proof.
  pose proof (sublist_length _ _ (new_sample_sublist s)) as Hl.
  by rewrite length_tl in Hl.
Qed.

Lemma samples_where_after v (s : Series) :
  no_nan s →
  samples_where differs (samples_after differs v s) =
    tail (samples_after differs v s).
Proof.
  revert v. induction s as [|[t' v'] s IH]; intros v Hs; [done|].
  apply Forall_cons in Hs as [Hv' Hs]. cbn in Hv'.
  cbn [samples_after]. destruct (differs v v'); [|by apply IH].
  cbn [samples_where tail].
  apply samples_after_again; [by apply F64Facts.eqb_refl | done].
Qed.

Lemma new_sample_again (s : Series) :
  no_nan s → new_sample (new_sample s) = tail (new_sample s).
Proof.
  intros Hs.
  assert (Hr : no_nan (new_sample s)).
  { eapply no_nan_sublist; [|exact Hs].
    etrans; [apply new_sample_sublist|]. apply sublist_tail_l. }
  rewrite (new_sample_differs (new_sample s) Hr).
  rewrite (new_sample_differs s Hs).
  destruct s as [|[t v] s]; [done|]. apply Forall_cons in Hs as [Hv Hs].
  by apply samples_where_after.
Qed.

(** The period [statistics] measures: [find_meas_period] on the changed
    samples. *)
Lemma find_meas_period_new (s : Series) :
  find_meas_period s =
    match new_sample s with
    | [] => Raise IndexError
    | p :: rest =>
        Ok (PrimFloat.div (PrimFloat.sub (default p (last rest)).1 p.1)
                          (F64.of_Z (Z.of_nat (length (p :: rest)))))
    end.
Proof.
  unfold find_meas_period. rewrite py_index_neg1, py_index_head.
  destruct (new_sample s) as [|p rest]; [done|].
  unfold s_index. rewrite fmap_cons. cbn [head]. rewrite last_cons_default.
  cbn [mbind outcome_bind obind]. do 3 f_equal.
  rewrite fmap_last. unfold sample in *. destruct (last rest); reflexivity.
Qed.

(** X1. On a series without NaN every sample [new_sample] returns
    differs from the sample returned before it, so [new_sample] applied a
    second time drops the first of them only.  [find_meas_period] applies
    [new_sample] to its argument; called on [new_sample(s)], as
    [statistics] does, it therefore raises [IndexError] when at most one
    sample of [s] differs from the one before it, and otherwise returns
    the time from the second changed sample to the last one divided by
    the number of changed samples less one. *)
Theorem new_sample_twice (s : Series) :
  no_nan s →
  new_sample (new_sample s) = tail (new_sample s) ∧
  find_meas_period (new_sample s) =
    match tail (new_sample s) with
    | [] => Raise IndexError
    | p :: rest =>
        Ok (PrimFloat.div (PrimFloat.sub (default p (last rest)).1 p.1)
                          (F64.of_Z (Z.of_nat (length (p :: rest)))))
    end.
Proof.
  intros Hs. split; [by apply new_sample_again|].
  by rewrite find_meas_period_new, new_sample_again.
Qed.

Section FewChanges.
Context `{Numeric}.

Lemma stats_try_ok_iff d k col :
  getitem d k = Ok col →
  is_ok (stats_try d k) = true ↔ new_sample (new_sample col) ≠ [].
Proof.
  intros Hcol. unfold stats_try. rewrite Hcol. cbn [mbind outcome_bind obind].
  rewrite find_meas_period_new.
  destruct (new_sample (new_sample col)); cbn; split; done.
Qed.

Lemma stat_field_except s : stat_field s stats_except = PyInt 0.
Proof. unfold stat_field. by repeat case_decide. Qed.

Lemma stat_field_try d k v s :
  stats_try d k = Ok v → ∃ x, stat_field s v = PyFloat x.
Proof.
  unfold stats_try. destruct (getitem d k) as [col|]; [|done].
  cbn [mbind outcome_bind obind].
  destruct (find_meas_period _) as [dt|]; [|done].
  cbn [mbind outcome_bind obind]. intros [= <-].
  unfold stat_field. repeat case_decide; eauto.
Qed.

(** X2. [statistics(df, keys)] (no plot), for a key [k] of [keys] whose
    column is in the frame: the five entries of [k] are the integer [0]
    when the column has at most two rows, and when at most one of its
    samples differs from the sample before; they are five floats when the
    column holds no NaN and at least two samples differ from the sample
    before them. *)
Theorem statistics_few_changes (df : loc) (keys : list string) (w : world)
    (d : DataFrame) (k : string) (col : Series) :
  frames w !! df = Some d →
  k ∈ keys →
  getitem d k = Ok col →
  ∃ data,
    statistics df (Some keys) false w = (Ok data, w) ∧
    ((length col ≤ 2)%nat →
       ∀ s, s ∈ stat_suffixes → data !! (k +:+ s) = Some (PyInt 0)) ∧
    ((length (new_sample col) ≤ 1)%nat →
       ∀ s, s ∈ stat_suffixes → data !! (k +:+ s) = Some (PyInt 0)) ∧
    (no_nan col → (2 ≤ length (new_sample col))%nat →
       ∀ s, s ∈ stat_suffixes → ∃ x, data !! (k +:+ s) = Some (PyFloat x)).
Proof.
  intros Hd Hk Hcol. eexists. split; [apply statistics_noplot|].
  assert (Hzero : (length (new_sample col) ≤ 1)%nat →
    ∀ s, s ∈ stat_suffixes →
      foldl (λ acc k, stats_store k (key_stats w df k) acc) ∅ keys !! (k +:+ s) =
        Some (PyInt 0)).
  { intros Hl s Hs. rewrite lookup_stats_fold, decide_True by done.
    unfold key_stats. rewrite Hd.
    destruct (stats_try d k) as [v|e] eqn:Ev; [|by rewrite stat_field_except].
    assert (Hok : is_ok (stats_try d k) = true) by by rewrite Ev.
    apply (stats_try_ok_iff d k col Hcol) in Hok. exfalso. apply Hok.
    pose proof (new_sample_length (new_sample col)) as Hl2.
    destruct (new_sample (new_sample col)); [done|]. cbn [length] in Hl2. lia. }
  split; [|split; [exact Hzero|]].
  - intros Hl. apply Hzero. pose proof (new_sample_length col). lia.
  - intros Hnan Hl s Hs. rewrite lookup_stats_fold, decide_True by done.
    unfold key_stats. rewrite Hd.
    destruct (stats_try d k) as [v|e] eqn:Ev.
    + destruct (stat_field_try d k v s Ev) as [x ->]. eauto.
    + assert (Hok : is_ok (stats_try d k) = true); [|by rewrite Ev in Hok].
      apply (stats_try_ok_iff d k col Hcol). rewrite new_sample_again by done.
      destruct (new_sample col) as [|p [|q r]]; cbn [length] in Hl; [lia|lia|done].
Qed.

End FewChanges.

(** ** Binary64 arithmetic: differences and quotients of time stamps *)

Module F64Arith.

Lemma shr_1_nonneg mrs : 0 ≤ shr_m mrs → 0 ≤ shr_m (shr_1 mrs).
Proof. destruct mrs as [[|[p|p|]|[p|p|]] r s]; cbn; lia. Qed.

Lemma iter_shr_1_nonneg (n : nat) mrs :
  0 ≤ shr_m mrs → 0 ≤ shr_m (Nat.iter n shr_1 mrs).
Proof.
  intros Hm. induction n as [|n IH]; [done|]. cbn [Nat.iter].
  by apply shr_1_nonneg.
Qed.

Lemma shr_fexp_nonneg m e l :
  0 ≤ m → 0 ≤ shr_m (shr_fexp prec emax m e l).1.
Proof.
  intros Hm. unfold shr_fexp, shr.
  destruct (fexp prec emax (Zdigits2 m + e) - e) as [|q|q]; cbn [fst];
    rewrite ?F64Sub.iter_pos_nat; try apply iter_shr_1_nonneg;
    by rewrite F64Sub.shr_record_of_loc_m.
Qed.

Lemma round_nearest_even_nonneg m l : 0 ≤ m → 0 ≤ round_nearest_even m l.
Proof.
  intros Hm. destruct l as [|[]]; cbn; try lia.
  destruct (IntDef.Z.even m); lia.
Qed.

(** Rounding a mantissa that is not negative never gives a NaN. *)
Lemma binary_round_aux_not_nan s m e l :
  0 ≤ m → binary_round_aux prec emax s m e l ≠ S754_nan.
Proof.
  intros Hm. unfold binary_round_aux.
  pose proof (shr_fexp_nonneg m e l Hm) as H1.
  destruct (shr_fexp prec emax m e l) as [mrs1 e1]. cbn [fst] in H1.
  pose proof (shr_fexp_nonneg
    (round_nearest_even (shr_m mrs1) (loc_of_shr_record mrs1)) e1 loc_Exact
    (round_nearest_even_nonneg _ _ H1)) as H2.
  destruct (shr_fexp prec emax _ e1 loc_Exact) as [mrs2 e2]. cbn [fst] in H2.
  destruct (shr_m mrs2) as [|p|p]; [done| |lia].
  by destruct (e2 <=? emax - prec).
Qed.

Lemma binary_normalize_not_nan z e :
  binary_normalize prec emax z e false ≠ S754_nan.
Proof.
  destruct z as [|p|p]; [done|..]; cbn [binary_normalize]; unfold binary_round;
    destruct (shl_align _ _ _) as [mz ez]; by apply binary_round_aux_not_nan.
Qed.

Lemma SFsub_not_nan x y :
  finite_sf x → finite_sf y → SFsub prec emax x y ≠ S754_nan.
Proof.
  destruct x as [sx|sx| |sx mx ex], y as [sy|sy| |sy my ey]; try done; intros _ _.
  - by destruct sx, sy.
  - apply binary_normalize_not_nan.
Qed.

Lemma SFsub_self x : finite_sf x → SFsub prec emax x x = S754_zero false.
Proof.
  destruct x as [sx|sx| |sx mx ex]; try done; intros _.
  - by destruct sx.
  - cbn [SFsub]. by rewrite Z.sub_diag.
Qed.

Lemma div_eucl_nonneg a b : 0 ≤ a → 0 < b → 0 ≤ (Z.div_eucl a b).1.
Proof.
  intros Ha Hb. change ((Z.div_eucl a b).1) with (a `div` b).
  apply Z.div_pos; lia.
Qed.

Lemma SFdiv_not_nan x sy my ey :
  x ≠ S754_nan → SFdiv prec emax x (S754_finite sy my ey) ≠ S754_nan.
Proof.
  destruct x as [sx|sx| |sx mx ex]; try done; intros _. cbn [SFdiv].
  unfold SFdiv_core_binary.
  set (s := ex - ey - _).
  set (m' := match s with 0 => Z.pos mx | Z.pos _ => Z.pos mx ≪ s | Z.neg _ => 0 end).
  assert (0 ≤ m').
  { unfold m'. destruct s; try lia. by apply Z.shiftl_nonneg. }
  pose proof (div_eucl_nonneg m' (Z.pos my)) as Hq.
  destruct (IntDef.Z.div_eucl m' (Z.pos my)) as [q r]. cbn [fst] in Hq.
  apply binary_round_aux_not_nan. apply Hq; lia.
Qed.

End F64Arith.

Lemma isfinite_finite x : F64.isfinite x = true ↔ finite_sf (Prim2SF x).
Proof. unfold F64.isfinite. by destruct (Prim2SF x). Qed.

Lemma is_nan_false x : F64.is_nan x = false ↔ Prim2SF x ≠ S754_nan.
Proof. by rewrite <- not_true_iff_false, F64Facts.is_nan_spec. Qed.

(** The first row of a log with a time stamp is at second 0. *)
Lemma seconds_after_self t0 :
  F64.isfinite t0 = true → seconds_after t0 t0 = 0%float.
Proof.
  intros Hf%isfinite_finite. apply Prim2SF_inj.
  unfold seconds_after. rewrite div_spec, sub_spec. unfold SF64sub.
  by rewrite F64Arith.SFsub_self.
Qed.

Lemma seconds_after_not_nan t0 v :
  F64.isfinite t0 = true → F64.isfinite v = true →
  F64.is_nan (seconds_after t0 v) = false.
Proof.
  intros H0%isfinite_finite Hv%isfinite_finite. apply is_nan_false.
  unfold seconds_after. rewrite div_spec, sub_spec.
  apply F64Arith.SFdiv_not_nan. by apply F64Arith.SFsub_not_nan.
Qed.

Lemma seconds_after_nan t0 v :
  F64.is_nan t0 = true → F64.is_nan (seconds_after t0 v) = true.
Proof.
  intros H0%F64Facts.is_nan_spec. apply F64Facts.is_nan_spec.
  unfold seconds_after. rewrite div_spec, sub_spec, H0.
  unfold SF64sub. by destruct (Prim2SF v).
Qed.

(** ** set_time_series, get_float_data and process_data *)

Lemma mapM_ok {A B} (f : A → outcome B) (g : A → B) (l : list A) :
  (∀ x, x ∈ l → f x = Ok (g x)) → mapM f l = Ok (g <$> l).
Proof.
  induction l as [|x l IH]; intros Hf; [done|].
  cbn [mapM]. rewrite (Hf x) by apply list_elem_of_here.
  cbn [mbind outcome_bind obind]. rewrite IH; [done|].
  intros y Hy. apply Hf. by apply list_elem_of_further.
Qed.

Lemma take_where_self {A} (f : A → bool) (l : list A) :
  take_where (f <$> l) l = List.filter f l.
Proof. induction l as [|x l IH]; [done|]. cbn. by rewrite IH. Qed.

Lemma getattr_values d k col :
  frame_wf d → columns d !! k = Some col →
  getattr d k = Ok (zip (index d) col) ∧ s_values (zip (index d) col) = col.
Proof.
  intros Hwf Hk. unfold getattr. rewrite Hk. split; [done|].
  apply snd_zip_same. by eapply Hwf.
Qed.

(** In a frame of doubles every column converts to [float]:
    [get_float_data] keeps the rows with a finite time stamp and every
    column. *)
Lemma float_data_of_where d time :
  getattr d "TIME_StartTime" = Ok time →
  float_data_of d = Ok (frame_where (F64.isfinite <$> s_values time) d).
Proof.
  intros Ht. unfold float_data_of. rewrite Ht. cbn [mbind outcome_bind obind].
  set (d1 := frame_where _ d).
  rewrite (mapM_ok _ (λ kc, (kc.1, true))) by done.
  cbn [mbind outcome_bind obind]. f_equal.
  destruct d1 as [idx cols]. cbn [index columns]. f_equal.
  apply map_filter_id. intros k col Hk. cbn [fst].
  apply elem_of_list_to_set, list_elem_of_fmap.
  exists (k, true). split; [done|].
  apply list_elem_of_filter. split; [done|].
  apply list_elem_of_fmap. exists (k, col). split; [done|].
  by apply elem_of_map_to_list.
Qed.

Lemma time_sec_spec d :
  frame_wf d →
  time_sec d =
    match columns d !! "TIME_StartTime" with
    | None => Raise (KeyError "TIME_StartTime")
    | Some [] => Raise IndexError
    | Some (t0 :: ts) => Ok (seconds_after t0 <$> (t0 :: ts))
    end.
Proof.
  intros Hwf. unfold time_sec, getitem.
  destruct (columns d !! "TIME_StartTime") as [time|] eqn:Ht; [|done].
  cbn [mbind outcome_bind obind]. unfold s_values.
  rewrite snd_zip_same by by eapply Hwf.
  rewrite py_index_head. by destruct time.
Qed.

Lemma alloc_fresh (df : DataFrame) (w : world) :
  ∃ l, frames w !! l = None ∧
    alloc df w = (Ok l, {| frames := <[l := df]> (frames w);
                           canvas := canvas w; stdout := stdout w |}).
Proof.
  eexists. split; [|reflexivity]. apply not_elem_of_dom, is_fresh.
Qed.

Lemma seconds_after_wf d t : 
  frame_wf d → columns d !! "TIME_StartTime" = Some t →
  frame_wf {| index := seconds_after (default 0%float (head t)) <$> t;
              columns := columns d |}.
Proof.
  intros Hwf Ht k col Hk. cbn in *. rewrite length_fmap.
  rewrite (Hwf k col Hk). symmetry. by eapply Hwf.
Qed.

Lemma run_deref_lift {A} (f : DataFrame → outcome A) (k : A → Py loc) data w d :
  frames w !! data = Some d →
  (d ← deref data; r ← lift (f d); k r) w =
    match f d with
    | Ok r => k r w
    | Raise e => (Raise e, w)
    end.
Proof.
  intros Hd. unfold mbind, Py_bind, py_bind, deref, lift. by rewrite Hd.
Qed.

Lemma time_series_of_spec d :
  frame_wf d →
  time_series_of d =
    match columns d !! "TIME_StartTime" with
    | None => Raise (KeyError "TIME_StartTime")
    | Some [] => Raise IndexError
    | Some (t0 :: ts) =>
        Ok {| index := seconds_after t0 <$> (t0 :: ts); columns := columns d |}
    end.
Proof.
  intros Hwf. unfold time_series_of. rewrite (time_sec_spec d Hwf).
  by destruct (columns d !! "TIME_StartTime") as [[|t0 ts]|].
Qed.

(** X3. [set_time_series] on a frame without the column
    [TIME_StartTime] raises [KeyError] and on a frame without rows
    [IndexError], the state unchanged.  Otherwise it returns a new frame
    with the columns of its argument, whose index holds for every row
    [(TIME_StartTime - t0)/1.0e6], [t0] being the time stamp of the first
    row: the index starts at [0.0] when [t0] is finite, and is NaN on
    every row when [t0] is NaN. *)
Theorem set_time_series_index (data : loc) (w : world) (d : DataFrame) :
  frames w !! data = Some d →
  frame_wf d →
  match columns d !! "TIME_StartTime" with
  | None => set_time_series data w = (Raise (KeyError "TIME_StartTime"), w)
  | Some [] => set_time_series data w = (Raise IndexError, w)
  | Some (t0 :: ts) =>
      ∃ l d',
        (set_time_series data w).1 = Ok l ∧
        frames w !! l = None ∧
        frames (set_time_series data w).2 = <[l := d']> (frames w) ∧
        columns d' = columns d ∧
        frame_wf d' ∧
        index d' = seconds_after t0 <$> (t0 :: ts) ∧
        (F64.isfinite t0 = true → head (index d') = Some 0%float) ∧
        (F64.is_nan t0 = true → Forall (λ t, F64.is_nan t = true) (index d'))
  end.
Proof.
  intros Hd Hwf. unfold set_time_series.
  rewrite (run_deref_lift _ _ data w d Hd), (time_series_of_spec d Hwf).
  destruct (columns d !! "TIME_StartTime") as [[|t0 ts]|] eqn:Ht; [done| |done].
  destruct (alloc_fresh {| index := seconds_after t0 <$> t0 :: ts;
                           columns := columns d |} w) as (l & Hl & ->).
  eexists l, _. cbn [fst snd frames index columns].
  repeat split; try done.
  - apply (seconds_after_wf d (t0 :: ts) Hwf Ht).
  - intros Hf. rewrite fmap_cons. cbn [head]. by rewrite seconds_after_self.
  - intros Hn. apply Forall_fmap, Forall_forall. intros v _.
    by apply seconds_after_nan.
Qed.

Lemma filter_isfinite_Forall (l : list float) :
  Forall (λ v, F64.isfinite v = true) (List.filter F64.isfinite l).
Proof.
  apply Forall_forall. intros v Hv%list_elem_of_In%filter_In. tauto.
Qed.

Lemma process_data_run data w d :
  frames w !! data = Some d →
  process_data data w =
    match float_data_of d with
    | Raise e => (Raise e, w)
    | Ok d1 =>
        let l1 := fresh (dom (frames w)) in
        let w1 := {| frames := <[l1 := d1]> (frames w);
                     canvas := canvas w; stdout := stdout w |} in
        match time_series_of d1 with
        | Raise e => (Raise e, w1)
        | Ok r => alloc r w1
        end
    end.
Proof.
  intros Hd. unfold process_data, get_float_data.
  unfold mbind at 1, Py_bind, py_bind.
  rewrite (run_deref_lift _ _ data w d Hd).
  destruct (float_data_of d) as [d1|e]; [|done].
  cbn [alloc]. cbv zeta. unfold set_time_series.
  by rewrite (run_deref_lift _ _ _ _ d1) by apply lookup_insert_eq.
Qed.

(** X4. [process_data] raises [AttributeError] on a frame without the
    column [TIME_StartTime] and [IndexError] when no time stamp is finite.
    Otherwise it returns a new frame that holds, of every column, the rows
    with a finite time stamp; its index is the time in seconds after the
    first of these rows: it starts at [0.0] and holds no NaN. *)
Theorem process_data_index (data : loc) (w : world) (d : DataFrame) :
  frames w !! data = Some d →
  frame_wf d →
  match columns d !! "TIME_StartTime" with
  | None => process_data data w = (Raise (AttributeError "TIME_StartTime"), w)
  | Some time =>
      match List.filter F64.isfinite time with
      | [] => (process_data data w).1 = Raise IndexError
      | t0 :: ts =>
          ∃ l d',
            (process_data data w).1 = Ok l ∧
            frames w !! l = None ∧
            frames (process_data data w).2 !! l = Some d' ∧
            frame_wf d' ∧
            columns d' = take_where (F64.isfinite <$> time) <$> columns d ∧
            index d' = seconds_after t0 <$> (t0 :: ts) ∧
            head (index d') = Some 0%float ∧
            Forall (λ t, F64.is_nan t = false) (index d')
      end
  end.
Proof.
  intros Hd Hwf. rewrite (process_data_run data w d Hd).
  destruct (columns d !! "TIME_StartTime") as [time|] eqn:Ht;
    [|unfold float_data_of, getattr; by rewrite Ht].
  destruct (getattr_values d _ time Hwf Ht) as [Hattr Hvals].
  rewrite (float_data_of_where d _ Hattr), Hvals.
  set (d1 := frame_where _ d). cbv zeta.
  set (w1 := {| frames := <[_ := d1]> (frames w) |}).
  assert (Hwf1 : frame_wf d1) by by apply frame_where_wf.
  assert (Ht1 : columns d1 !! "TIME_StartTime" = Some (List.filter F64.isfinite time)).
  { unfold d1. cbn. rewrite lookup_fmap, Ht. cbn. by rewrite take_where_self. }
  pose proof (filter_isfinite_Forall time) as Hfin.
  rewrite (time_series_of_spec d1 Hwf1), Ht1.
  destruct (List.filter F64.isfinite time) as [|t0 ts] eqn:Ef; [done|].
  destruct (alloc_fresh {| index := seconds_after t0 <$> t0 :: ts;
                           columns := columns d1 |} w1) as (l & Hl & ->).
  apply Forall_cons in Hfin as [Hf0 Hfs].
  eexists l, _. cbn [fst snd frames index columns].
  split; [done|]. split.
  { cbn in Hl. apply lookup_insert_None in Hl. tauto. }
  split; [apply lookup_insert_eq|]. split.
  { apply (seconds_after_wf d1 (t0 :: ts) Hwf1 Ht1). }
  split; [done|]. split; [done|]. split.
  - rewrite fmap_cons. cbn [head]. by rewrite seconds_after_self.
  - apply Forall_fmap, Forall_forall. intros v Hv. cbn.
    apply seconds_after_not_nan; [done|].
    apply elem_of_cons in Hv as [->|Hv]; [done|].
    rewrite Forall_forall in Hfs. by apply Hfs.
Qed.

(** ** get_auto_data: missing columns, and a second call *)

Lemma get_auto_data_run data w d :
  frames w !! data = Some d →
  get_auto_data data w =
    match auto_rows d with
    | Ok r => alloc r w
    | Raise e => (Raise e, w)
    end.
Proof. intros Hd. unfold get_auto_data. by rewrite (run_deref_lift _ _ data w d Hd). Qed.

Lemma getitem_where_None mask d k :
  columns (frame_where mask d) !! k = None ↔ columns d !! k = None.
Proof. cbn. rewrite lookup_fmap. by destruct (columns d !! k). Qed.

Lemma getitem_None d k :
  columns d !! k = None → getitem d k = Raise (KeyError k).
Proof. intros Hk. unfold getitem. by rewrite Hk. Qed.

Lemma getitem_Some d k col :
  columns d !! k = Some col → getitem d k = Ok (zip (index d) col).
Proof. intros Hk. unfold getitem. by rewrite Hk. Qed.

(** What [auto_rows] raises for a missing column, and that it raises
    no [KeyError] otherwise. *)
Lemma auto_rows_missing d :
  match head (filter (λ k, columns d !! k = None) auto_columns) with
  | Some k => auto_rows d = Raise (KeyError k)
  | None => ∀ k, auto_rows d ≠ Raise (KeyError k)
  end.
Proof.
  unfold auto_columns, auto_rows. rewrite !filter_cons, filter_nil.
  destruct (columns d !! "STAT_MainState") as [c1|] eqn:E1.
  2:{ rewrite decide_True by done. cbn [head]. by rewrite getitem_None. }
  rewrite decide_False by done. rewrite (getitem_Some d _ c1 E1).
  cbn [mbind outcome_bind obind]. set (d1 := frame_where _ d).
  destruct (columns d !! "GPSP_Lat") as [c2|] eqn:E2.
  2:{ rewrite decide_True by done. cbn [head].
      by rewrite (getitem_None d1) by by apply getitem_where_None. }
  rewrite decide_False by done.
  assert (is_Some (columns d1 !! "GPSP_Lat")) as [c2' E2'].
  { apply not_eq_None_Some. intros Hn. apply getitem_where_None in Hn. congruence. }
  rewrite (getitem_Some d1 _ c2' E2').
  cbn [mbind outcome_bind obind]. set (d2 := frame_where _ d1).
  destruct (columns d !! "GPSP_Lon") as [c3|] eqn:E3.
  2:{ rewrite decide_True by done. cbn [head].
      by rewrite (getitem_None d2) by by do 2 apply getitem_where_None. }
  rewrite decide_False by done.
  assert (is_Some (columns d2 !! "GPSP_Lon")) as [c3' E3'].
  { apply not_eq_None_Some. intros Hn. do 2 apply getitem_where_None in Hn.
    congruence. }
  rewrite (getitem_Some d2 _ c3' E3').
  cbn [mbind outcome_bind obind head].
  intros k. by destruct (_ =? _)%nat.
Qed.

(** X5. [get_auto_data] reads the columns [STAT_MainState], [GPSP_Lat]
    and [GPSP_Lon] in this order: when one of them is missing it raises
    [KeyError] with the name of the first missing one and leaves the
    state as it was; when the three are there it raises no [KeyError]. *)
Theorem get_auto_data_missing_column (data : loc) (w : world) (d : DataFrame) :
  frames w !! data = Some d →
  match head (filter (λ k, columns d !! k = None) auto_columns) with
  | Some k => get_auto_data data w = (Raise (KeyError k), w)
  | None => ∀ k, (get_auto_data data w).1 ≠ Raise (KeyError k)
  end.
Proof.
  intros Hd. rewrite (get_auto_data_run data w d Hd).
  pose proof (auto_rows_missing d) as Hm.
  destruct (head _) as [k|].
  - by rewrite Hm.
  - intros k. specialize (Hm k). destruct (auto_rows d) as [r|e]; [done|].
    cbn. congruence.
Qed.

(** *** A second call *)

Lemma mask_rows k (f : float → bool) idx cols col :
  cols !! k = Some col → length col = length idx →
  f <$> col = row_test k f <$> rows_of idx cols.
Proof.
  revert cols col. induction idx as [|t idx IH]; intros cols [|x col] Hk Hlen;
    try done.
  cbn [rows_of fmap list_fmap]. f_equal.
  - unfold row_test. cbn [snd]. by rewrite lookup_omap, Hk.
  - apply (IH (tail <$> cols) col).
    + by rewrite lookup_fmap, Hk.
    + cbn in Hlen. lia.
Qed.

Lemma take_where_all {A} (l : list A) (mask : list bool) :
  length mask = length l → Forall (λ b, b = true) mask → take_where mask l = l.
Proof.
  revert l. induction mask as [|b mask IH]; intros [|x l] Hl Hm; try done.
  apply Forall_cons in Hm as [-> Hm]. cbn. f_equal. apply IH; [|done].
  cbn in Hl. lia.
Qed.

Lemma frame_where_all mask d :
  frame_wf d → length mask = length (index d) →
  Forall (λ b, b = true) mask → frame_where mask d = d.
Proof.
  intros Hwf Hl Hm. destruct d as [idx cols]. unfold frame_where.
  cbn [index columns] in *. f_equal; [by apply take_where_all|].
  apply map_eq. intros k. rewrite lookup_fmap.
  destruct (cols !! k) as [col|] eqn:Hk; [|done]. cbn. f_equal.
  apply take_where_all; [|done]. rewrite Hl. symmetry. by apply (Hwf k).
Qed.

(** Selecting by a test that every row passes gives the frame back. *)
Lemma frame_where_passes k f d s :
  frame_wf d → getitem d k = Ok s →
  Forall (λ r, row_test k f r = true) (rows d) →
  frame_where (f <$> s_values s) d = d.
Proof.
  intros Hwf Hs Hall. unfold getitem in Hs.
  destruct (columns d !! k) as [col|] eqn:Hk; [|done]. injection Hs as <-.
  unfold s_values. rewrite snd_zip_same by by eapply Hwf.
  rewrite (mask_rows k f (index d) (columns d) col Hk) by by eapply Hwf.
  fold (rows d). apply frame_where_all; [done|..].
  - by rewrite length_fmap, rows_length.
  - by apply Forall_fmap.
Qed.

Lemma auto_row_tests r :
  auto_row r = true →
  row_test "STAT_MainState" (λ v, PrimFloat.eqb v 3%float) r = true ∧
  row_test "GPSP_Lat" F64.isfinite r = true ∧
  row_test "GPSP_Lon" F64.isfinite r = true.
Proof. unfold auto_row. rewrite !andb_true_iff. tauto. Qed.

Lemma auto_rows_columns d r :
  auto_rows d = Ok r →
  is_Some (columns d !! "STAT_MainState") ∧
  is_Some (columns d !! "GPSP_Lat") ∧
  is_Some (columns d !! "GPSP_Lon").
Proof.
  intros Hr. pose proof (auto_rows_missing d) as Hm. rewrite Hr in Hm.
  unfold auto_columns in Hm. rewrite !filter_cons, filter_nil in Hm.
  repeat case_decide; cbn [head] in Hm; try done.
  rewrite <- !not_eq_None_Some. tauto.
Qed.

Lemma auto_rows_wf d r :
  frame_wf d → auto_rows d = Ok r →
  frame_wf r ∧ (∀ k, is_Some (columns d !! k) → is_Some (columns r !! k)).
Proof.
  intros Hwf. unfold auto_rows.
  destruct (getitem d "STAT_MainState") as [s1|]; [|done].
  cbn [mbind outcome_bind obind]. set (d1 := frame_where _ d).
  destruct (getitem d1 "GPSP_Lat") as [s2|]; [|done].
  cbn [mbind outcome_bind obind]. set (d2 := frame_where _ d1).
  destruct (getitem d2 "GPSP_Lon") as [s3|]; [|done].
  cbn [mbind outcome_bind obind]. set (d3 := frame_where _ d2).
  destruct (_ =? _)%nat; [done|]. intros [= <-].
  split; [by do 3 apply frame_where_wf|].
  intros k Hk. unfold d3, d2, d1. cbn. rewrite !lookup_fmap.
  destruct (columns d !! k); [by eexists | by destruct Hk].
Qed.

(** On a frame whose rows all pass the tests, [auto_rows] is the
    identity. *)
Lemma auto_rows_fixed d :
  frame_wf d →
  is_Some (columns d !! "STAT_MainState") →
  is_Some (columns d !! "GPSP_Lat") →
  is_Some (columns d !! "GPSP_Lon") →
  rows d ≠ [] →
  Forall (λ r, auto_row r = true) (rows d) →
  auto_rows d = Ok d.
Proof.
  intros Hwf [c1 H1] [c2 H2] [c3 H3] Hne Hall. unfold auto_rows.
  destruct (getitem d "STAT_MainState") as [s1|] eqn:E1;
    [|unfold getitem in E1; by rewrite H1 in E1].
  cbn [mbind outcome_bind obind].
  rewrite (frame_where_passes "STAT_MainState" _ d s1 Hwf E1).
  2:{ eapply Forall_impl; [exact Hall|]. intros r Hr. by apply auto_row_tests. }
  destruct (getitem d "GPSP_Lat") as [s2|] eqn:E2;
    [|unfold getitem in E2; by rewrite H2 in E2].
  cbn [mbind outcome_bind obind].
  rewrite (frame_where_passes "GPSP_Lat" _ d s2 Hwf E2).
  2:{ eapply Forall_impl; [exact Hall|]. intros r Hr. by apply auto_row_tests. }
  destruct (getitem d "GPSP_Lon") as [s3|] eqn:E3;
    [|unfold getitem in E3; by rewrite H3 in E3].
  cbn [mbind outcome_bind obind].
  rewrite (frame_where_passes "GPSP_Lon" _ d s3 Hwf E3).
  2:{ eapply Forall_impl; [exact Hall|]. intros r Hr. by apply auto_row_tests. }
  rewrite <- (rows_length d). by destruct (rows d).
Qed.

(** X6. A frame [get_auto_data] returns is well formed, has at least
    one row, and every row of it is a row of automatic flight;
    [get_auto_data] applied to it returns a frame with the same index and
    columns. *)
Theorem get_auto_data_again (data : loc) (w : world) (d : DataFrame) (l : loc) :
  frames w !! data = Some d →
  frame_wf d →
  (get_auto_data data w).1 = Ok l →
  ∃ d' l',
    frames (get_auto_data data w).2 !! l = Some d' ∧
    frame_wf d' ∧
    rows d' ≠ [] ∧
    Forall (λ r, auto_row r = true) (rows d') ∧
    (get_auto_data l (get_auto_data data w).2).1 = Ok l' ∧
    frames (get_auto_data l (get_auto_data data w).2).2 !! l' = Some d'.
Proof.
  intros Hd Hwf. rewrite (get_auto_data_run data w d Hd).
  destruct (auto_rows d) as [d'|e] eqn:Er; [|done].
  destruct (auto_rows_columns d d' Er) as (H1 & H2 & H3).
  destruct (auto_rows_wf d d' Hwf Er) as (Hwf' & Hcols).
  pose proof (auto_rows_spec d Hwf H1 H2 H3) as Hspec. rewrite Er in Hspec.
  destruct Hspec as [Hrows Hne].
  assert (Hall : Forall (λ r, auto_row r = true) (rows d')).
  { rewrite Hrows. apply Forall_forall.
    intros r Hr%list_elem_of_In%filter_In. tauto. }
  destruct (alloc_fresh d' w) as (l0 & Hl0 & ->). cbn [fst snd].
  intros [= ->]. set (w' := {| frames := <[l := d']> (frames w) |}).
  assert (Hl : frames w' !! l = Some d') by apply lookup_insert_eq.
  rewrite (get_auto_data_run l w' d' Hl).
  rewrite (auto_rows_fixed d') by auto.
  destruct (alloc_fresh d' w') as (l' & Hl' & ->). cbn [fst snd frames].
  exists d', l'. repeat split; try done. apply lookup_insert_eq.
Qed.

(** ** process_lpe_health *)

Lemma land_pow2 n j :
  0 ≤ j → (Z.land n (2 ^ j) =? 0) = negb (Z.testbit n j).
Proof.
  intros Hj. destruct (Z.testbit n j) eqn:Hb; cbn [negb].
  - assert (Z.land n (2 ^ j) = 2 ^ j) as ->.
    { apply Z.bits_inj'. intros i Hi.
      rewrite Z.land_spec, Z.pow2_bits_eqb by done.
      destruct (Z.eqb_spec j i) as [<-|]; [by rewrite Hb | apply andb_false_r]. }
    apply Z.eqb_neq. pose proof (Z.pow_pos_nonneg 2 j). lia.
  - assert (Z.land n (2 ^ j) = 0) as ->; [|done].
    apply Z.bits_inj'. intros i Hi.
    rewrite Z.land_spec, Z.pow2_bits_eqb, Z.bits_0 by done.
    destruct (Z.eqb_spec j i) as [<-|]; [by rewrite Hb | apply andb_false_r].
Qed.

Lemma to_int_isfinite v : is_ok (F64.to_int v) = F64.isfinite v.
Proof. unfold F64.to_int, F64.isfinite. by destruct (Prim2SF v). Qed.

Lemma py_index_lookup {A} (l : list A) (i : nat) x :
  l !! i = Some x → py_index l (Z.of_nat i) = Ok x.
Proof.
  intros Hi. pose proof (lookup_lt_Some _ _ _ Hi) as Hlt.
  unfold py_index. cbv zeta.
  rewrite (proj2 (Z.ltb_ge _ 0)) by lia.
  rewrite (proj2 (Z.leb_le 0 _)) by lia.
  rewrite (proj2 (Z.ltb_lt _ _)) by lia. cbn [andb].
  by rewrite Nat2Z.id, Hi.
Qed.

Lemma mapM_index {A B} (l : list A) (f : Z → outcome B) (g : A → outcome B) m :
  (∀ (i : nat) x, l !! i = Some x → f (m + Z.of_nat i) = g x) →
  mapM f (seqZ m (Z.of_nat (length l))) = mapM g l.
Proof.
  revert m. induction l as [|x l IH]; intros m Hf; [done|].
  rewrite seqZ_cons by (cbn [length]; lia).
  replace (Z.pred (Z.of_nat (length (x :: l)))) with (Z.of_nat (length l))
    by (cbn [length]; lia).
  cbn [mapM]. rewrite <- (Hf 0%nat x), Z.add_0_r by done.
  rewrite (IH (Z.succ m)); [done|].
  intros i y Hi. rewrite <- (Hf (S i) y) by done. f_equal. lia.
Qed.

(** The row of flags of one health word. *)
Lemma health_row d attr col (a b : Z) i v :
  getattr d attr = Ok col → py_index (s_values col) i = Ok v →
  mapM (λ j : Z,
          col ← getattr d attr;
          v ← py_index (s_values col) i;
          n ← F64.to_int v;
          Ok (if Z.land n (2 ^ j) =? 0 then b else a)) (seqZ 0 7) =
    n ← F64.to_int v;
    Ok ((λ j, if Z.testbit n j then a else b) <$> seqZ 0 7).
Proof.
  intros Hcol Hv. destruct (F64.to_int v) as [n|e] eqn:Hn.
  - cbn [mbind outcome_bind obind]. apply mapM_ok.
    intros j Hj%elem_of_seqZ. rewrite Hcol. cbn [mbind outcome_bind obind].
    rewrite Hv. cbn [mbind outcome_bind obind]. rewrite Hn.
    cbn [mbind outcome_bind obind]. rewrite land_pow2 by lia.
    by destruct (Z.testbit n j).
  - rewrite seqZ_cons by lia. cbn [mapM]. rewrite Hcol.
    cbn [mbind outcome_bind obind]. rewrite Hv.
    cbn [mbind outcome_bind obind]. by rewrite Hn.
Qed.

Lemma health_bits_word d attr a b word :
  frame_wf d → columns d !! attr = Some word →
  health_bits d attr a b =
    mapM (λ v, n ← F64.to_int v;
               Ok ((λ j, if Z.testbit n j then a else b) <$> seqZ 0 7)) word.
Proof.
  intros Hwf Hw. destruct (getattr_values d attr word Hwf Hw) as [Hattr Hvals].
  unfold health_bits. rewrite <- (Hwf attr word Hw).
  apply (mapM_index word _ _ 0). intros i v Hi. rewrite Z.add_0_l.
  apply (health_row d attr (zip (index d) word) a b); [done|].
  rewrite Hvals. by apply py_index_lookup.
Qed.

Lemma health_bits_missing d attr a b :
  columns d !! attr = None →
  health_bits d attr a b =
    match index d with
    | [] => Ok []
    | _ => Raise (AttributeError attr)
    end.
Proof.
  intros Hw. unfold health_bits. destruct (index d) as [|t idx]; [done|].
  rewrite (seqZ_cons 0 (Z.of_nat _)) by (cbn [length]; lia). cbn [mapM].
  rewrite (seqZ_cons 0 7) by lia. cbn [mapM]. unfold getattr. by rewrite Hw.
Qed.

Lemma mapM_raise {A B} (f : A → outcome B) (l : list A) :
  Exists (λ x, is_ok (f x) = false) l → ∃ e, mapM f l = Raise e.
Proof.
  induction 1 as [x l Hx|x l _ [e IH]]; cbn [mapM].
  - destruct (f x) as [y|e]; [done|]. by exists e.
  - destruct (f x) as [y|e']; cbn [mbind outcome_bind obind];
      [rewrite IH|]; eauto.
Qed.

Lemma forallb_false_Exists {A} (f : A → bool) (l : list A) :
  forallb f l = false → Exists (λ x, f x = false) l.
Proof.
  induction l as [|x l IH]; [done|]. cbn. intros [H|H]%andb_false_iff.
  - by left.
  - right. by apply IH.
Qed.

(** The rows of flags when every health word is finite, by word. *)
Lemma health_bits_finite word (a b : Z) :
  forallb F64.isfinite word = true →
  mapM (λ v, n ← F64.to_int v;
             Ok ((λ j, if Z.testbit n j then a else b) <$> seqZ 0 7)) word =
    Ok ((λ v, (λ j, if health_bit v j then a else b) <$> seqZ 0 7) <$> word).
Proof.
  intros Hf. apply mapM_ok. intros v Hv.
  assert (F64.isfinite v = true) as Hfin.
  { rewrite forallb_forall in Hf. by apply Hf, list_elem_of_In. }
  rewrite <- to_int_isfinite in Hfin. unfold health_bit.
  by destruct (F64.to_int v).
Qed.


Lemma health_column_rows word (a b : Z) (j : Z) :
  0 ≤ j < 7 →
  mapM (λ row : list Z, py_index row j)
    ((λ v, (λ j, if health_bit v j then a else b) <$> seqZ 0 7) <$> word) =
    Ok ((λ v, if health_bit v j then a else b) <$> word).
Proof.
  intros Hj.
  rewrite (mapM_ok _ (λ row, default 0 (row !! Z.to_nat j))).
  - f_equal. rewrite <- list_fmap_compose. apply list_fmap_ext.
    intros i v _. cbn [compose]. rewrite list_lookup_fmap, lookup_seqZ_lt by lia.
    cbn [fmap option_fmap option_map default].
    by rewrite Z.add_0_l, Z2Nat.id by lia.
  - intros row (v & -> & _)%list_elem_of_fmap.
    rewrite <- (Z2Nat.id j) at 1 by lia.
    erewrite py_index_lookup; [|by rewrite list_lookup_fmap, lookup_seqZ_lt by lia].
    by rewrite list_lookup_fmap, lookup_seqZ_lt by lia.
Qed.

Lemma health_column_flags word (a b : Z) (j : Z) :
  word ≠ [] → 0 ≤ j < 7 →
  health_column
    ((λ v, (λ j, if health_bit v j then a else b) <$> seqZ 0 7) <$> word) j =
    Ok ((λ v, if health_bit v j then a else b) <$> word).
Proof.
  intros Hne Hj. unfold health_column.
  destruct (_ <$> word) as [|row rows] eqn:E.
  - by apply fmap_nil_inv in E.
  - rewrite <- E. by apply health_column_rows.
Qed.

Lemma world_eta w :
  {| frames := frames w; canvas := canvas w; stdout := stdout w |} = w.
Proof. by destruct w. Qed.

(** A loop of column assignments into one frame. *)
Lemma for_each_setitem {A} data (xs : list A) (body : A → Py unit)
    (key : A → string) (val : A → list float) w d :
  frames w !! data = Some d →
  (∀ x w', x ∈ xs →
     body x w' = (d ← deref data; assign data (setitem d (key x) (val x))) w') →
  for_each xs body w =
    (Ok (), {| frames := <[data := foldl (λ acc x, setitem acc (key x) (val x)) d xs]>
                           (frames w);
               canvas := canvas w; stdout := stdout w |}).
Proof.
  revert w d. induction xs as [|x xs IH]; intros w d Hd Hbody.
  - cbn. by rewrite insert_id, world_eta.
  - cbn [for_each foldl]. unfold mbind at 1, Py_bind, py_bind.
    rewrite Hbody by apply list_elem_of_here.
    unfold mbind at 1, Py_bind, py_bind, deref. rewrite Hd. cbn [assign].
    rewrite (IH _ (setitem d (key x) (val x))).
    + cbn [frames canvas stdout]. by rewrite insert_insert_eq.
    + apply lookup_insert_eq.
    + intros y w' Hy. apply Hbody. by apply list_elem_of_further.
Qed.

Lemma health_word_Some d attr word :
  health_word d attr = Some word ↔
  index d ≠ [] ∧ columns d !! attr = Some word ∧ forallb F64.isfinite word = true.
Proof.
  unfold health_word. destruct (index d) as [|t idx].
  - split; [done|]. by intros [? _].
  - destruct (columns d !! attr) as [word'|]; [|split; [done|by intros (_&?&_)]].
    destruct (forallb _ word') eqn:E.
    + split; [by intros [= ->]|]. by intros (_ & [= ->] & _).
    + split; [done|]. intros (_ & [= ->] & ?). congruence.
Qed.

Lemma health_name_lookup (j : Z) :
  0 ≤ j < 7 → py_index health_names j = Ok (health_name j).
Proof.
  intros Hj. unfold health_name.
  assert (Z.to_nat j < 7)%nat as Hlt by lia.
  rewrite <- (Z2Nat.id j) at 1 by lia.
  destruct (health_names !! Z.to_nat j) as [name|] eqn:E.
  - by apply py_index_lookup.
  - apply lookup_ge_None in E. cbn in E. lia.
Qed.

(** One [try] block when the health word can be decoded: the seven flag
    columns are assigned. *)
Lemma health_try_writes_flags data attr prefix a b w d word :
  frames w !! data = Some d → frame_wf d →
  health_word d attr = Some word →
  health_try data attr prefix a b w =
    (Ok (), {| frames := <[data := health_write d prefix word a b]> (frames w);
               canvas := canvas w; stdout := stdout w |}).
Proof.
  intros Hd Hwf (Hidx & Hw & Hfin)%health_word_Some.
  assert (word ≠ []) as Hne.
  { intros ->. apply Hidx. apply nil_length_inv.
    by rewrite <- (Hwf attr [] Hw). }
  unfold health_try. unfold mbind at 1 2, Py_bind, py_bind, deref, lift.
  rewrite Hd, (health_bits_word d attr a b word Hwf Hw), health_bits_finite by done.
  apply (for_each_setitem data (seqZ 0 7) _
           (λ j, prefix +:+ health_name j) (λ j, health_flags word a b j)); [done|].
  intros j w' Hj%elem_of_seqZ.
  unfold mbind at 1 2, Py_bind, py_bind, lift.
  rewrite health_name_lookup, health_column_flags by (done || lia).
  unfold health_flags. by rewrite <- list_fmap_compose.
Qed.

(** One [try] block when the health word cannot be decoded: an exception,
    and nothing is assigned. *)
Lemma health_try_raises data attr prefix a b w d :
  frames w !! data = Some d → frame_wf d →
  health_word d attr = None →
  ∃ e, health_try data attr prefix a b w = (Raise e, w).
Proof.
  intros Hd Hwf Hnone.
  unfold health_try. unfold mbind at 1 2, Py_bind, py_bind, deref, lift.
  rewrite Hd. unfold health_word in Hnone.
  destruct (columns d !! attr) as [word|] eqn:Hw.
  - rewrite (health_bits_word d attr a b word Hwf Hw).
    destruct (index d) as [|t idx] eqn:Hidx.
    + assert (word = []) as ->.
      { apply nil_length_inv. rewrite (Hwf attr word Hw). by rewrite Hidx. }
      cbn [mapM mret outcome_ret]. exists IndexError.
      rewrite (seqZ_cons 0 7) by lia. cbn [for_each].
      unfold mbind, Py_bind, py_bind, lift. by cbn.
    + destruct (forallb F64.isfinite word) eqn:Hf; [done|].
      apply forallb_false_Exists in Hf.
      destruct (mapM_raise (λ v, n ← F64.to_int v;
          Ok ((λ j, if Z.testbit n j then a else b) <$> seqZ 0 7)) word) as [e ->].
      * eapply Exists_impl; [exact Hf|]. intros v Hv. cbn beta in Hv |- *.
        rewrite <- to_int_isfinite in Hv. by destruct (F64.to_int v).
      * by exists e.
  - rewrite (health_bits_missing d attr a b Hw).
    destruct (index d) as [|t idx]; [|by eexists].
    exists IndexError. rewrite (seqZ_cons 0 7) by lia. cbn [for_each].
    unfold mbind, Py_bind, py_bind, lift. by cbn.
Qed.

(** One [try] block with its handler. *)
Lemma health_block data attr prefix a b w d :
  frames w !! data = Some d → frame_wf d →
  ∃ out,
    try_except (health_try data attr prefix a b) (λ e, print (PrintExn e)) w =
      (Ok (), {| frames := <[data := after_block d attr prefix a b]> (frames w);
                 canvas := canvas w; stdout := stdout w ++ out |}) ∧
    match health_word d attr with
    | Some _ => out = []
    | None => ∃ e, out = [PrintExn e]
    end.
Proof.
  intros Hd Hwf. unfold try_except, after_block.
  destruct (health_word d attr) as [word|] eqn:Hword.
  - exists []. rewrite (health_try_writes_flags data attr prefix a b w d word) by done.
    by rewrite app_nil_r.
  - destruct (health_try_raises data attr prefix a b w d) as [e ->]; [done..|].
    exists [PrintExn e]. cbn [print]. rewrite insert_id by done. eauto.
Qed.

(** *** The columns of [health_write] *)

Lemma foldl_setitem {A} (key : A → string) (val : A → list float) d (xs : list A) :
  index (foldl (λ acc x, setitem acc (key x) (val x)) d xs) = index d ∧
  columns (foldl (λ acc x, setitem acc (key x) (val x)) d xs) =
    foldl (λ m x, <[key x := val x]> m) (columns d) xs.
Proof.
  revert d. induction xs as [|x xs IH]; intros d; [done|].
  cbn [foldl]. destruct (IH (setitem d (key x) (val x))) as [-> ->]. done.
Qed.

Lemma foldl_insert_other {A} (key : A → string) (val : A → list float)
    (m : gmap string (list float)) (xs : list A) k :
  k ∉ key <$> xs → foldl (λ m x, <[key x := val x]> m) m xs !! k = m !! k.
Proof.
  revert m. induction xs as [|x xs IH]; intros m Hk; [done|].
  rewrite fmap_cons, not_elem_of_cons in Hk. destruct Hk as [Hx Hk].
  cbn [foldl]. rewrite IH by done. by rewrite lookup_insert_ne.
Qed.

Lemma foldl_insert_lookup {A} (key : A → string) (val : A → list float)
    (m : gmap string (list float)) (xs : list A) x :
  NoDup (key <$> xs) → x ∈ xs →
  foldl (λ m x, <[key x := val x]> m) m xs !! key x = Some (val x).
Proof.
  revert m. induction xs as [|y xs IH]; intros m Hnd Hx.
  { by apply elem_of_nil in Hx. }
  rewrite fmap_cons in Hnd. apply NoDup_cons in Hnd as [Hy Hnd].
  cbn [foldl]. apply elem_of_cons in Hx as [->|Hx].
  - rewrite foldl_insert_other by done. apply lookup_insert_eq.
  - by apply IH.
Qed.

Lemma health_names_seq : health_name <$> seqZ 0 7 = health_names.
Proof. reflexivity. Qed.

Lemma health_keys_NoDup prefix :
  NoDup ((λ j, prefix +:+ health_name j) <$> seqZ 0 7).
Proof.
  change (NoDup ((λ n, prefix +:+ n) ∘ health_name <$> seqZ 0 7)).
  rewrite list_fmap_compose, health_names_seq.
  apply NoDup_fmap_2; [apply String.app_inj|].
  apply (bool_decide_unpack _). by vm_compute.
Qed.

Lemma health_write_index d prefix word a b :
  index (health_write d prefix word a b) = index d.
Proof. unfold health_write. apply foldl_setitem. Qed.

Lemma health_write_lookup d prefix word a b j :
  0 ≤ j < 7 →
  columns (health_write d prefix word a b) !! (prefix +:+ health_name j) =
    Some (health_flags word a b j).
Proof.
  intros Hj. unfold health_write.
  rewrite (proj2 (foldl_setitem (λ j, prefix +:+ health_name j)
                    (λ j, health_flags word a b j) d (seqZ 0 7))).
  apply (foldl_insert_lookup (λ j, prefix +:+ health_name j)
           (λ j, health_flags word a b j)).
  - apply health_keys_NoDup.
  - apply elem_of_seqZ. lia.
Qed.

Lemma health_write_other d prefix word a b k :
  k ∉ (λ j, prefix +:+ health_name j) <$> seqZ 0 7 →
  columns (health_write d prefix word a b) !! k = columns d !! k.
Proof.
  intros Hk. unfold health_write.
  rewrite (proj2 (foldl_setitem (λ j, prefix +:+ health_name j)
                    (λ j, health_flags word a b j) d (seqZ 0 7))).
  by apply foldl_insert_other.
Qed.

Lemma health_flags_length word a b j :
  length (health_flags word a b j) = length word.
Proof. unfold health_flags. apply length_fmap. Qed.

Lemma health_write_wf d prefix word a b :
  frame_wf d → length word = length (index d) →
  frame_wf (health_write d prefix word a b).
Proof.
  intros Hwf Hl k col. rewrite health_write_index.
  destruct (decide (k ∈ (λ j, prefix +:+ health_name j) <$> seqZ 0 7))
    as [Hin|Hout].
  - apply list_elem_of_fmap in Hin as (j & -> & Hj%elem_of_seqZ).
    rewrite health_write_lookup by lia. intros [= <-].
    by rewrite health_flags_length.
  - rewrite health_write_other by done. apply Hwf.
Qed.

Lemma after_block_wf d attr prefix a b :
  frame_wf d → frame_wf (after_block d attr prefix a b).
Proof.
  intros Hwf. unfold after_block.
  destruct (health_word d attr) as [word|] eqn:Hw; [|done].
  apply health_word_Some in Hw as (_ & Hw & _).
  apply health_write_wf; [done|]. by eapply Hwf.
Qed.

Lemma after_block_index d attr prefix a b :
  index (after_block d attr prefix a b) = index d.
Proof.
  unfold after_block. destruct (health_word d attr); [|done].
  apply health_write_index.
Qed.

Lemma after_block_other d attr prefix a b k :
  k ∉ (λ j, prefix +:+ health_name j) <$> seqZ 0 7 →
  columns (after_block d attr prefix a b) !! k = columns d !! k.
Proof.
  intros Hk. unfold after_block. destruct (health_word d attr); [|done].
  by apply health_write_other.
Qed.

(** A block does not change the health word of a column it does not
    assign. *)
Lemma after_block_word d attr prefix a b attr' :
  attr' ∉ (λ j, prefix +:+ health_name j) <$> seqZ 0 7 →
  health_word (after_block d attr prefix a b) attr' = health_word d attr'.
Proof.
  intros Hk. unfold health_word.
  by rewrite after_block_index, after_block_other.
Qed.

(** What [process_lpe_health] does, block by block. *)
Lemma process_lpe_health_run data w d :
  frames w !! data = Some d → frame_wf d →
  ∃ out1 out2,
    process_lpe_health data w =
      (Ok data, {| frames := <[data := after_health d]> (frames w);
                   canvas := canvas w;
                   stdout := stdout w ++ out1 ++ out2 |}) ∧
    match health_word d "EST2_fHealth" with
    | Some _ => out1 = []
    | None => ∃ e, out1 = [PrintExn e]
    end ∧
    match health_word d "EST0_fTOut" with
    | Some _ => out2 = []
    | None => ∃ e, out2 = [PrintExn e]
    end.
Proof.
  intros Hd Hwf. unfold process_lpe_health.
  destruct (health_block data "EST2_fHealth" "fault_" 1 0 w d Hd Hwf)
    as (out1 & E1 & H1).
  unfold mbind at 1, Py_bind, py_bind. rewrite E1.
  set (d1 := after_block d "EST2_fHealth" "fault_" 1 0) in *.
  set (w1 := {| frames := <[data := d1]> (frames w) |}).
  assert (Hd1 : frames w1 !! data = Some d1) by apply lookup_insert_eq.
  assert (Hwf1 : frame_wf d1) by by apply after_block_wf.
  destruct (health_block data "EST0_fTOut" "timeout_" 0 1 w1 d1 Hd1 Hwf1)
    as (out2 & E2 & H2).
  unfold mbind at 1, Py_bind, py_bind. rewrite E2.
  exists out1, out2. split; [|split; [done|]].
  - cbn. unfold after_health. fold d1.
    by rewrite insert_insert_eq, app_assoc.
  - unfold d1 in H2. rewrite after_block_word in H2; [done|].
    apply (bool_decide_unpack _). by vm_compute.
Qed.

Lemma health_word_finite d attr word :
  index d ≠ [] → columns d !! attr = Some word →
  Forall (λ v, F64.isfinite v = true) word →
  health_word d attr = Some word.
Proof.
  intros Hidx Hw Hf. apply health_word_Some. split; [done|]. split; [done|].
  apply forallb_forall. rewrite Forall_forall in Hf.
  intros v Hv%list_elem_of_In. by apply Hf.
Qed.

Lemma health_name_of (j : nat) name :
  health_names !! j = Some name →
  health_name (Z.of_nat j) = name ∧ 0 ≤ Z.of_nat j < 7.
Proof.
  intros Hj. pose proof (lookup_lt_Some _ _ _ Hj) as Hlt. cbn in Hlt.
  unfold health_name. rewrite Nat2Z.id, Hj. split; [done|lia].
Qed.

(** X7. After [process_lpe_health] on a frame with rows whose health
    word ([EST2_fHealth], or the timeout word [EST0_fTOut]) holds finite
    numbers only, the column [fault_<name>] of the sensor with bit [j]
    holds [1.0] on the rows where bit [j] of the integer part of
    [EST2_fHealth] is set and [0.0] elsewhere; the column
    [timeout_<name>] holds [1.0] on the rows where bit [j] of
    [EST0_fTOut] is clear and [0.0] elsewhere. *)
Theorem process_lpe_health_flags (data : loc) (w : world) (d : DataFrame)
    (timeout : bool) (word : list float) :
  frames w !! data = Some d →
  frame_wf d →
  index d ≠ [] →
  columns d !! (if timeout then "EST0_fTOut" else "EST2_fHealth") = Some word →
  Forall (λ v, F64.isfinite v = true) word →
  ∀ (j : nat) (name : string),
    health_names !! j = Some name →
    (frames (process_lpe_health data w).2 !! data)
      ≫= (λ d', columns d' !! ((if timeout then "timeout_" else "fault_") +:+ name)) =
    Some ((λ v, if xorb (health_bit v (Z.of_nat j)) timeout
                then 1%float else 0%float) <$> word).
Proof.
  intros Hd Hwf Hidx Hw Hfin j name Hj.
  destruct (health_name_of j name Hj) as [<- Hlt].
  pose proof (health_word_finite d _ word Hidx Hw Hfin) as Hword.
  destruct (process_lpe_health_run data w d Hd Hwf) as (out1 & out2 & -> & _).
  cbn [snd frames]. rewrite lookup_insert_eq. cbn [mbind option_bind].
  unfold after_health. destruct timeout.
  - unfold after_block at 1. rewrite after_block_word, Hword
      by (apply (bool_decide_unpack _); by vm_compute).
    rewrite health_write_lookup by done. f_equal. unfold health_flags.
    apply list_fmap_ext. intros i v _. by destruct (health_bit v _).
  - rewrite after_block_other.
    2:{ intros (j' & E & _)%list_elem_of_fmap.
        apply (f_equal (λ s, String.get 0 s)) in E. cbn in E. discriminate E. }
    unfold after_block. rewrite Hword.
    rewrite health_write_lookup by done. f_equal. unfold health_flags.
    apply list_fmap_ext. intros i v _. by destruct (health_bit v _).
Qed.

(** X8. [process_lpe_health] never raises and returns its argument.
    Each of its two [try] blocks writes its seven columns or none: when
    the health word cannot be decoded (no rows, no such column, a NaN or
    an infinity in it) the block prints one exception and every
    [fault_<name>] (respectively [timeout_<name>]) column is as it was
    before the call; otherwise the block prints nothing.  The figure is
    unchanged. *)
Theorem process_lpe_health_all_or_nothing (data : loc) (w : world) (d : DataFrame) :
  frames w !! data = Some d →
  frame_wf d →
  ∃ out1 out2,
    process_lpe_health data w =
      (Ok data, {| frames := <[data := after_health d]> (frames w);
                   canvas := canvas w;
                   stdout := stdout w ++ out1 ++ out2 |}) ∧
    match health_word d "EST2_fHealth" with
    | Some _ => out1 = []
    | None =>
        (∃ e, out1 = [PrintExn e]) ∧
        ∀ name, name ∈ health_names →
          columns (after_health d) !! ("fault_" +:+ name) =
            columns d !! ("fault_" +:+ name)
    end ∧
    match health_word d "EST0_fTOut" with
    | Some _ => out2 = []
    | None =>
        (∃ e, out2 = [PrintExn e]) ∧
        ∀ name, name ∈ health_names →
          columns (after_health d) !! ("timeout_" +:+ name) =
            columns d !! ("timeout_" +:+ name)
    end.
Proof.
  intros Hd Hwf.
  destruct (process_lpe_health_run data w d Hd Hwf) as (out1 & out2 & E & H1 & H2).
  exists out1, out2. split; [done|]. split.
  - destruct (health_word d "EST2_fHealth") eqn:Hw1; [done|]. split; [done|].
    intros name _. unfold after_health. rewrite after_block_other.
    + unfold after_block. by rewrite Hw1.
    + intros (j' & E' & _)%list_elem_of_fmap.
      apply (f_equal (λ s, String.get 0 s)) in E'. cbn in E'. discriminate E'.
  - destruct (health_word d "EST0_fTOut") eqn:Hw2; [done|]. split; [done|].
    intros name _. unfold after_health. unfold after_block at 1.
    rewrite after_block_word, Hw2 by (apply (bool_decide_unpack _); by vm_compute).
    apply after_block_other.
    intros (j' & E' & _)%list_elem_of_fmap.
    apply (f_equal (λ s, String.get 0 s)) in E'. cbn in E'. discriminate E'.
Qed.

(** *** A second call *)

Lemma setitem_same d k col : columns d !! k = Some col → setitem d k col = d.
Proof.
  intros Hk. destruct d as [idx cols]. unfold setitem. cbn in *.
  by rewrite insert_id.
Qed.

Lemma foldl_setitem_same {A} (key : A → string) (val : A → list float) d
    (xs : list A) :
  (∀ x, x ∈ xs → columns d !! key x = Some (val x)) →
  foldl (λ acc x, setitem acc (key x) (val x)) d xs = d.
Proof.
  induction xs as [|x xs IH]; intros Hall; [done|]. cbn [foldl].
  rewrite setitem_same by (apply Hall, list_elem_of_here).
  apply IH. intros y Hy. apply Hall. by apply list_elem_of_further.
Qed.

Lemma health_write_same d prefix word a b :
  (∀ j, 0 ≤ j < 7 →
     columns d !! (prefix +:+ health_name j) = Some (health_flags word a b j)) →
  health_write d prefix word a b = d.
Proof.
  intros Hall. unfold health_write.
  apply (foldl_setitem_same (λ j, prefix +:+ health_name j)
           (λ j, health_flags word a b j)).
  intros j Hj%elem_of_seqZ. apply Hall. lia.
Qed.

(** A block on a frame that already went through it. *)
Lemma after_block_again d d' attr prefix a b :
  health_word d' attr = health_word d attr →
  (∀ j, 0 ≤ j < 7 →
     columns d' !! (prefix +:+ health_name j) =
       columns (after_block d attr prefix a b) !! (prefix +:+ health_name j)) →
  after_block d' attr prefix a b = d'.
Proof.
  intros Hw Hcols. unfold after_block in *. rewrite Hw.
  destruct (health_word d attr) as [word|]; [|done].
  apply health_write_same. intros j Hj.
  by rewrite Hcols, health_write_lookup.
Qed.

Lemma after_health_again d : after_health (after_health d) = after_health d.
Proof.
  unfold after_health at 1.
  set (d1 := after_block d "EST2_fHealth" "fault_" 1 0).
  assert (E1 : after_block (after_health d) "EST2_fHealth" "fault_" 1 0 =
               after_health d).
  { apply (after_block_again d).
    - unfold after_health.
      rewrite !after_block_word; [done|..]; apply (bool_decide_unpack _); by vm_compute.
    - intros j Hj. unfold after_health. apply after_block_other.
      intros (j' & E' & _)%list_elem_of_fmap.
      apply (f_equal (λ s, String.get 0 s)) in E'. cbn in E'. discriminate E'. }
  rewrite E1. unfold after_health. fold d1.
  apply (after_block_again d1); [|done].
  apply after_block_word. apply (bool_decide_unpack _). by vm_compute.
Qed.

(** X9. [process_lpe_health] is idempotent on the frames: a second
    call on the same frame leaves every frame as the first call left
    it. *)
Theorem process_lpe_health_twice (data : loc) (w : world) (d : DataFrame) :
  frames w !! data = Some d →
  frame_wf d →
  frames (process_lpe_health data (process_lpe_health data w).2).2 =
    frames (process_lpe_health data w).2.
Proof.
  intros Hd Hwf.
  destruct (process_lpe_health_run data w d Hd Hwf) as (out1 & out2 & -> & _).
  cbn [snd]. set (w' := {| frames := <[data := after_health d]> (frames w) |}).
  assert (Hd' : frames w' !! data = Some (after_health d)) by apply lookup_insert_eq.
  assert (Hwf' : frame_wf (after_health d)) by by do 2 apply after_block_wf.
  destruct (process_lpe_health_run data w' _ Hd' Hwf') as (o1 & o2 & -> & _).
  unfold w'. cbn [snd frames canvas]. by rewrite after_health_again, insert_insert_eq.
Qed.

(** ** plot_faults *)

Lemma plot_faults_run data w d :
  frames w !! data = Some d →
  plot_faults data w =
    (Ok (), {| frames := frames w;
               canvas := canvas w ++ (lines_until_missing d fault_plots).1;
               stdout := stdout w ++
                 match (lines_until_missing d fault_plots).2 with
                 | Some name => [PrintExn (AttributeError name)]
                 | None => []
                 end |}).
Proof.
  intros Hd.
  unfold plot_faults, try_except_when, plot_attr, attr, plot, draw, mbind,
    Py_bind, py_bind, deref, lift, print, is_AttributeError, getattr.
  cbn beta. cbn [frames canvas stdout lines_until_missing fault_plots].
  rewrite !Hd.
  destruct (columns d !! "fault_sonar") as [c0|];
    cbn [frames canvas stdout fst snd]; rewrite ?Hd; [|by rewrite app_nil_r].
  destruct (columns d !! "fault_baro") as [c1|];
    cbn [frames canvas stdout fst snd]; rewrite ?Hd; [|done].
  destruct (columns d !! "fault_gps") as [c2|];
    cbn [frames canvas stdout fst snd]; rewrite ?Hd;
    [|by rewrite <- !app_assoc].
  destruct (columns d !! "fault_flow") as [c3|];
    cbn [frames canvas stdout fst snd]; rewrite ?Hd;
    [|by rewrite <- !app_assoc].
  destruct (columns d !! "fault_vision") as [c4|];
    cbn [frames canvas stdout fst snd]; rewrite ?Hd;
    [|by rewrite <- !app_assoc].
  destruct (columns d !! "fault_mocap") as [c5|];
    cbn [frames canvas stdout fst snd]; rewrite ?Hd;
    [|by rewrite <- !app_assoc].
  destruct (columns d !! "fault_lidar") as [c6|];
    cbn [frames canvas stdout fst snd]; rewrite ?Hd;
    rewrite <- !app_assoc; by rewrite ?app_nil_r.
Qed.

Lemma lines_until_missing_length d plots :
  (length (lines_until_missing d plots).1 ≤ length plots)%nat.
Proof.
  induction plots as [|[name alpha] plots IH]; [done|]. cbn.
  destruct (columns d !! name); cbn; lia.
Qed.

Lemma lines_until_missing_all d plots :
  (lines_until_missing d plots).2 = None ↔
  Forall (λ p, is_Some (columns d !! p.1)) plots.
Proof.
  induction plots as [|[name alpha] plots IH]; [done|]. cbn.
  rewrite Forall_cons, <- IH. cbn.
  destruct (columns d !! name) as [col|]; cbn.
  - split; [by eauto|tauto].
  - split; [done|]. intros [[? ?] _]. done.
Qed.

(** X10. [plot_faults] never raises.  It draws the columns
    [fault_sonar], [fault_baro], [fault_gps], [fault_flow],
    [fault_vision], [fault_mocap], [fault_lidar] in this order up to the
    first one the frame does not have, and prints the [AttributeError] of
    that one; it draws at most seven lines, prints nothing exactly when
    the frame has the seven columns, and draws nothing on a frame without
    [fault_sonar]. *)
Theorem plot_faults_never_raises (data : loc) (w : world) (d : DataFrame) :
  frames w !! data = Some d →
  plot_faults data w =
    (Ok (), {| frames := frames w;
               canvas := canvas w ++ (lines_until_missing d fault_plots).1;
               stdout := stdout w ++
                 match (lines_until_missing d fault_plots).2 with
                 | Some name => [PrintExn (AttributeError name)]
                 | None => []
                 end |}) ∧
  (length (lines_until_missing d fault_plots).1 ≤ 7)%nat ∧
  ((lines_until_missing d fault_plots).2 = None ↔
     Forall (λ p, is_Some (columns d !! p.1)) fault_plots) ∧
  (columns d !! "fault_sonar" = None →
     plot_faults data w =
       (Ok (), {| frames := frames w; canvas := canvas w;
                  stdout := stdout w ++ [PrintExn (AttributeError "fault_sonar")] |})).
Proof.
  intros Hd. split; [by apply plot_faults_run|]. split; [|split].
  - apply (lines_until_missing_length d fault_plots).
  - apply lines_until_missing_all.
  - intros Hs. rewrite (plot_faults_run data w d Hd).
    cbn [lines_until_missing fault_plots]. rewrite Hs. cbn [fst snd].
    by rewrite app_nil_r.
Qed.

(** *** After process_lpe_health *)

Lemma after_health_fault d word j :
  health_word d "EST2_fHealth" = Some word → 0 ≤ j < 7 →
  columns (after_health d) !! ("fault_" +:+ health_name j) =
    Some (health_flags word 1 0 j).
Proof.
  intros Hw Hj. unfold after_health. rewrite after_block_other.
  - unfold after_block. rewrite Hw. by apply health_write_lookup.
  - intros (j' & E' & _)%list_elem_of_fmap.
    apply (f_equal (λ s, String.get 0 s)) in E'. cbn in E'. discriminate E'.
Qed.

Lemma after_health_index d : index (after_health d) = index d.
Proof. unfold after_health. by rewrite !after_block_index. Qed.

(** X11. After [process_lpe_health] on a frame with rows and a finite
    health word [EST2_fHealth], [plot_faults] draws seven lines and
    prints nothing: the flags of the bits 4 (sonar, drawn with opacity
    0.1), 0 (baro), 1 (gps), 3 (flow), 5 (vision), 6 (mocap) and 2
    (lidar) of the health word, over the index of the frame. *)
Theorem plot_faults_after_health (data : loc) (w : world) (d : DataFrame)
    (word : list float) :
  frames w !! data = Some d →
  frame_wf d →
  index d ≠ [] →
  columns d !! "EST2_fHealth" = Some word →
  Forall (λ v, F64.isfinite v = true) word →
  let w1 := (process_lpe_health data w).2 in
  plot_faults data w1 =
    (Ok (), {| frames := frames w1;
               canvas := canvas w ++
                 ((λ p : Z * option float,
                     Line (zip (index d) (health_flags word 1 0 p.1)) false p.2)
                    <$> fault_plot_bits);
               stdout := stdout w1 |}).
Proof.
  intros Hd Hwf Hidx Hw Hfin.
  pose proof (health_word_finite d _ word Hidx Hw Hfin) as Hword.
  destruct (process_lpe_health_run data w d Hd Hwf) as (out1 & out2 & -> & _).
  cbn [snd]. set (w1 := {| frames := <[data := after_health d]> (frames w) |}).
  rewrite (plot_faults_run data w1 (after_health d)) by apply lookup_insert_eq.
  assert (Hcol : ∀ j, 0 ≤ j < 7 →
    columns (after_health d) !! ("fault_" +:+ health_name j) =
      Some (health_flags word 1 0 j)) by (intros; by apply after_health_fault).
  pose proof (Hcol 0 ltac:(lia)) as H0. pose proof (Hcol 1 ltac:(lia)) as H1.
  pose proof (Hcol 2 ltac:(lia)) as H2. pose proof (Hcol 3 ltac:(lia)) as H3.
  pose proof (Hcol 4 ltac:(lia)) as H4. pose proof (Hcol 5 ltac:(lia)) as H5.
  pose proof (Hcol 6 ltac:(lia)) as H6.
  change ("fault_" +:+ health_name 0) with "fault_baro" in H0.
  change ("fault_" +:+ health_name 1) with "fault_gps" in H1.
  change ("fault_" +:+ health_name 2) with "fault_lidar" in H2.
  change ("fault_" +:+ health_name 3) with "fault_flow" in H3.
  change ("fault_" +:+ health_name 4) with "fault_sonar" in H4.
  change ("fault_" +:+ health_name 5) with "fault_vision" in H5.
  change ("fault_" +:+ health_name 6) with "fault_mocap" in H6.
  cbn [lines_until_missing fault_plots].
  rewrite H0, H1, H2, H3, H4, H5, H6, after_health_index.
  cbn [fst snd]. by rewrite app_nil_r.
Qed.

(** ** When background_flight_modes succeeds *)

Lemma py_index_ok {A} (l : list A) (i : Z) :
  is_ok (py_index l i) = true ↔
  - Z.of_nat (length l) ≤ i < Z.of_nat (length l).
Proof.
  unfold py_index. cbv zeta.
  destruct (Z.ltb_spec i 0) as [Hneg|Hpos].
  - destruct (Z.leb_spec 0 (Z.of_nat (length l) + i)) as [H1|H1]; cbn [andb].
    + rewrite (proj2 (Z.ltb_lt _ _)) by lia.
      destruct (l !! Z.to_nat (Z.of_nat (length l) + i)) eqn:E.
      * cbn. split; [lia|done].
      * apply lookup_ge_None in E. lia.
    + cbn. split; [done|lia].
  - destruct (Z.leb_spec 0 i) as [_|?]; [|lia]. cbn [andb].
    destruct (Z.ltb_spec i (Z.of_nat (length l))) as [H1|H1].
    + destruct (l !! Z.to_nat i) eqn:E.
      * cbn. split; [lia|done].
      * apply lookup_ge_None in E. lia.
    + cbn. split; [done|lia].
Qed.

Lemma py_index_elem {A} (l : list A) (i : Z) x : py_index l i = Ok x → x ∈ l.
Proof.
  unfold py_index. cbv zeta. destruct (_ && _); [|done].
  destruct (l !! _) eqn:E; [|done]. intros [= <-].
  by eapply list_elem_of_lookup_2.
Qed.

Section ModeFacts.
Variable cnames : list (string * string).

Lemma item0_colors c : c ∈ colors_ cnames → is_ok (item0 c) = true.
Proof.
  unfold colors_. intros [->|Hc]%elem_of_cons; [done|].
  apply list_elem_of_fmap in Hc as ([name hex] & -> & _). done.
Qed.

(** The values that have a colour and a label. *)
Lemma mode_style_ok m :
  (13 ≤ length cnames)%nat →
  is_ok (mode_style cnames m) = true ↔ valid_mode m.
Proof.
  intros Hlen. unfold mode_style, valid_mode.
  destruct (F64.to_int m) as [i|e]; cbn [mbind outcome_bind obind].
  2:{ split; [done|]. by intros (i & ? & _). }
  pose proof (py_index_ok (colors_ cnames) i) as Hc.
  pose proof (py_index_ok FLIGHT_MODES i) as Hf.
  unfold colors_ in Hc at 2 3. cbn [length] in Hc, Hf. rewrite length_fmap in Hc.
  destruct (py_index (colors_ cnames) i) as [c|] eqn:Ec;
    cbn [mbind outcome_bind obind].
  - pose proof (item0_colors c (py_index_elem _ _ _ Ec)) as Hi.
    destruct (item0 c) as [color|]; [|done]. cbn [mbind outcome_bind obind].
    destruct (py_index FLIGHT_MODES i) as [label|]; cbn [mbind outcome_bind obind is_ok].
    + split; [|done]. intros _. exists i. split; [done|]. apply Hf. done.
    + split; [done|]. intros (i' & [= <-] & Hr). apply Hf in Hr. done.
  - split; [done|]. intros (i' & [= <-] & Hr).
    assert (is_ok (Raise (A := string + string * string) IndexError) = true);
      [|done].
    apply Hc. lia.
Qed.

Lemma mode_span_style d m :
  is_ok (mode_span cnames d m) = true → is_ok (mode_style cnames m) = true.
Proof.
  unfold mode_span, mode_style.
  destruct (getattr d "STAT_MainState") as [state|]; [|done].
  cbn [mbind outcome_bind obind].
  destruct (py_index (s_index _) 0) as [t0|]; [|done].
  cbn [mbind outcome_bind obind].
  destruct (py_index (s_index _) _) as [t1|]; [|done].
  cbn [mbind outcome_bind obind].
  destruct (F64.to_int m) as [i|]; [|done]. cbn [mbind outcome_bind obind].
  destruct (py_index (colors_ cnames) i) as [c|]; [|done].
  cbn [mbind outcome_bind obind].
  destruct (item0 c) as [color|]; [|done]. cbn [mbind outcome_bind obind].
  by destruct (py_index FLIGHT_MODES i).
Qed.

(** A loop that returns has drawn a span for every mode. *)
Lemma for_each_spans_ok data d modes w :
  frames w !! data = Some d →
  (for_each modes (λ m, d ← deref data; span ← lift (mode_span cnames d m);
                        draw span) w).1 = Ok () →
  Forall (λ m, is_ok (mode_span cnames d m) = true) modes.
Proof.
  revert w. induction modes as [|m modes IH]; intros w Hd Hok; [constructor|].
  cbn [for_each] in Hok. unfold mbind at 1, Py_bind, py_bind in Hok.
  unfold mbind at 1 2, Py_bind, py_bind, deref, lift in Hok.
  rewrite Hd in Hok.
  destruct (mode_span cnames d m) as [span|e] eqn:Es; [|by cbn in Hok].
  constructor; [by rewrite Es|]. cbn [draw] in Hok. eapply IH; [|exact Hok]. done.
Qed.

Lemma background_flight_modes_run data w d state :
  frames w !! data = Some d → getattr d "STAT_MainState" = Ok state →
  background_flight_modes cnames data w =
    for_each (unique (s_values state))
      (λ m, d ← deref data; span ← lift (mode_span cnames d m); draw span) w.
Proof.
  intros Hd Hstate.
  unfold background_flight_modes, mbind at 1 2, Py_bind, py_bind, deref, lift.
  by rewrite Hd, Hstate.
Qed.

End ModeFacts.

(** Every value has its key among the distinct values. *)
Lemma unique_from_cover seen vs v :
  v ∈ vs → existsb (same_key v) (seen ++ unique_from seen vs) = true.
Proof.
  revert seen. induction vs as [|x vs IH]; intros seen Hv.
  { by apply elem_of_nil in Hv. }
  cbn [unique_from]. destruct (existsb (same_key x) seen) eqn:Ex.
  - apply elem_of_cons in Hv as [->|Hv]; [|by apply IH].
    rewrite existsb_app, Ex. done.
  - apply elem_of_cons in Hv as [->|Hv].
    + rewrite existsb_app. cbn [existsb].
      assert (same_key x x = true) as ->; [|by rewrite orb_true_r].
      unfold same_key, F64.is_nan. by destruct (PrimFloat.eqb x x).
    + specialize (IH (x :: seen) Hv). rewrite existsb_app in *.
      cbn [existsb] in *. rewrite !orb_true_iff in *. tauto.
Qed.

Lemma to_int_canon x y :
  canon (Prim2SF x) = canon (Prim2SF y) → F64.to_int x = F64.to_int y.
Proof.
  unfold F64.to_int.
  destruct (Prim2SF x) as [sx|sx| |sx mx ex], (Prim2SF y) as [sy|sy| |sy my ey];
    cbn; try done; by intros [= -> -> ->] || intros [= ->].
Qed.

Lemma valid_mode_same_key v m :
  same_key v m = true → valid_mode m → valid_mode v.
Proof.
  unfold same_key, valid_mode. intros Hk (i & Hi & Hr).
  apply orb_true_iff in Hk as [Heq|Hnan].
  - apply F64Facts.eqb_true in Heq as [_ Hc].
    exists i. by rewrite (to_int_canon v m).
  - apply andb_true_iff in Hnan as [_ Hm%F64Facts.is_nan_spec].
    unfold F64.to_int in Hi. by rewrite Hm in Hi.
Qed.

Section ModeClaim.
Variable cnames : list (string * string).

(** X12. With at least thirteen colour names, [background_flight_modes]
    raises [AttributeError], the state unchanged, on a frame without
    [STAT_MainState]; on a frame with this column it returns exactly when
    every value of the column is a number whose integer part lies between
    [-14] and [13], the indices Python accepts for the fourteen names of
    [FLIGHT_MODES]. *)
Theorem background_flight_modes_succeeds (data : loc) (w : world) (d : DataFrame) :
  frames w !! data = Some d →
  (13 ≤ length cnames)%nat →
  match getattr d "STAT_MainState" with
  | Raise e =>
      e = AttributeError "STAT_MainState" ∧
      background_flight_modes cnames data w = (Raise e, w)
  | Ok state =>
      (background_flight_modes cnames data w).1 = Ok () ↔
      Forall valid_mode (s_values state)
  end.
Proof.
  intros Hd Hlen.
  destruct (getattr d "STAT_MainState") as [state|e] eqn:Hstate.
  2:{ unfold background_flight_modes, mbind at 1 2, Py_bind, py_bind, deref, lift.
      rewrite Hd, Hstate. split; [|done].
      unfold getattr in Hstate. destruct (columns d !! _); congruence. }
  split.
  - intros Hok.
    rewrite (background_flight_modes_run cnames data w d state Hd Hstate) in Hok.
    pose proof (for_each_spans_ok cnames data d _ w Hd Hok) as Hall.
    apply Forall_forall. intros v Hv.
    pose proof (unique_from_cover [] (s_values state) v Hv) as Hc.
    cbn [app] in Hc. apply existsb_exists in Hc as (m & Hm%list_elem_of_In & Hk).
    apply (valid_mode_same_key v m Hk), (mode_style_ok cnames m Hlen).
    apply (mode_span_style cnames d). rewrite Forall_forall in Hall. by apply Hall.
  - intros Hvalid.
    assert (Hstyle : Forall (λ m, is_ok (mode_style cnames m) = true)
                       (s_values state)).
    { eapply Forall_impl; [exact Hvalid|]. intros m Hm.
      by apply (mode_style_ok cnames m Hlen). }
    assert (Hall : Forall (λ m, ∃ a, mode_span cnames d m = Ok a)
                     (unique (s_values state))).
    { apply Forall_forall. intros m Hm%unique_from_elem.
      rewrite Forall_forall in Hstyle. specialize (Hstyle m Hm).
      destruct (mode_span_times cnames d state m Hstate Hm Hstyle)
        as (t_min & t_max & _ & _ & ->).
      unfold span_of. destruct (mode_style cnames m); [by eexists|done]. }
    apply Forall_exists_Forall2 in Hall as [spans Hspans].
    rewrite (background_flight_modes_run cnames data w d state Hd Hstate).
    by rewrite (for_each_spans cnames data d _ spans w Hd Hspans).
Qed.

End ModeClaim.

(** ** statistics with its charts *)

Section StatisticsPlot.
Context `{Numeric}.

Lemma stats_loop_step df k rest plot data w d :
  frames w !! df = Some d →
  stats_loop df (k :: rest) plot data w =
    ((if plot then stats_plot df k (key_stats w df k) else mret ()) ;;
     stats_loop df rest plot (stats_store k (key_stats w df k) data)) w.
Proof.
  intros Hd. cbn [stats_loop].
  unfold mbind at 1, Py_bind at 1, py_bind at 1.
  unfold try_except, mbind at 1, Py_bind at 1, py_bind at 1, deref, lift, key_stats.
  rewrite Hd. by destruct (stats_try d k).
Qed.

Lemma stats_plot_run df key v w d :
  frames w !! df = Some d →
  stats_plot df key v w =
    match columns d !! key with
    | None =>
        (Raise (KeyError key),
         {| frames := frames w;
            canvas := canvas w ++ [Figure; Title (key +:+ " statistics")];
            stdout := stdout w |})
    | Some col =>
        match index d with
        | [] =>
            (Raise IndexError,
             {| frames := frames w;
                canvas := canvas w ++
                  [Figure; Title (key +:+ " statistics");
                   Line (zip (index d) col) false (Some 0.5%float)];
                stdout := stdout w |})
        | _ =>
            (Ok (), {| frames := frames w;
                       canvas := canvas w ++ stats_chart d key v;
                       stdout := stdout w |})
        end
    end.
Proof.
  intros Hd. unfold stats_plot, stats_chart, draw, mbind, Py_bind, py_bind,
    deref, lift, getitem.
  cbn beta. cbn [frames canvas stdout]. rewrite !Hd.
  destruct (columns d !! key) as [col|]; cbn [frames canvas stdout].
  2:{ by rewrite <- !app_assoc. }
  rewrite ?Hd. rewrite py_index_head, py_index_neg1.
  destruct (index d) as [|t0 idx] eqn:Hidx.
  { cbn. by rewrite <- !app_assoc. }
  rewrite last_cons_default. cbn [head frames canvas stdout].
  by rewrite <- !app_assoc.
Qed.

Lemma stats_chart_length d key v :
  is_Some (columns d !! key) → index d ≠ [] →
  length (stats_chart d key v) = 5%nat.
Proof.
  intros [col Hc] Hidx. unfold stats_chart. rewrite Hc.
  destruct (index d) as [|t0 idx]; [done|].
  rewrite last_cons_default. done.
Qed.

(** The loop with its charts on a frame that has rows and every key. *)
Lemma stats_loop_plot df keys data w d :
  frames w !! df = Some d → index d ≠ [] →
  Forall (λ k, is_Some (columns d !! k)) keys →
  stats_loop df keys true data w =
    (Ok (foldl (λ acc k, stats_store k (key_stats w df k) acc) data keys),
     {| frames := frames w;
        canvas := canvas w ++ (keys ≫= λ k, stats_chart d k (key_stats w df k));
        stdout := stdout w |}).
Proof.
  intros Hd Hidx Hkeys. revert data w Hd.
  induction Hkeys as [|k keys [col Hk] _ IH]; intros data w Hd.
  { cbn. by rewrite app_nil_r, world_eta. }
  rewrite (stats_loop_step df k keys true data w d Hd).
  unfold mbind at 1, Py_bind, py_bind.
  rewrite (stats_plot_run df k _ w d Hd), Hk.
  destruct (index d) as [|t0 idx] eqn:Ei; [done|].
  set (w1 := {| frames := frames w |}).
  rewrite (IH _ w1) by done. cbn [foldl mbind list_bind].
  unfold w1. cbn [frames canvas stdout]. by rewrite <- app_assoc.
Qed.

(** X13. [statistics(df, keys, plot=True)] on a frame with rows that has
    every column of [keys] returns what [statistics(df, keys)] returns,
    leaves frames and output as they were and draws five artists for each
    key.  On a frame with rows it raises [KeyError] with the first key of
    [keys] that is not a column (raised by [df[key].plot], after the [try]
    block); on a frame without rows it raises at the first key:
    [IndexError] when the column exists, [KeyError] when not. *)
Theorem statistics_plot (df : loc) (keys : list string) (w : world)
    (d : DataFrame) :
  frames w !! df = Some d →
  (index d ≠ [] →
   Forall (λ k, is_Some (columns d !! k)) keys →
   ∃ drawn,
     statistics df (Some keys) true w =
       ((statistics df (Some keys) false w).1,
        {| frames := frames w; canvas := canvas w ++ drawn;
           stdout := stdout w |}) ∧
     length drawn = (5 * length keys)%nat) ∧
  (∀ k, index d ≠ [] →
        head (filter (λ k, columns d !! k = None) keys) = Some k →
        (statistics df (Some keys) true w).1 = Raise (KeyError k)) ∧
  (∀ k rest, index d = [] → keys = k :: rest →
        (statistics df (Some keys) true w).1 =
          Raise (match columns d !! k with
                 | Some _ => IndexError
                 | None => KeyError k
                 end)).
Proof.
  intros Hd. split; [|split].
  - intros Hidx Hkeys. eexists. rewrite statistics_noplot. cbn [fst].
    split; [by apply (stats_loop_plot df keys ∅ w d)|].
    clear -Hidx Hkeys. induction Hkeys as [|k keys Hk _ IH]; [done|].
    cbn [mbind list_bind]. rewrite length_app, stats_chart_length by done.
    cbn [length]. rewrite IH. lia.
  - intros k Hidx. unfold statistics. generalize (∅ : gmap string num).
    revert w Hd. induction keys as [|k0 keys IH]; intros w Hd data; [done|].
    rewrite filter_cons.
    rewrite (stats_loop_step df k0 keys true data w d Hd).
    unfold mbind at 1, Py_bind, py_bind.
    rewrite (stats_plot_run df k0 _ w d Hd).
    destruct (columns d !! k0) as [col|] eqn:Hk.
    + rewrite decide_False by done.
      destruct (index d) as [|t0 idx] eqn:Ei; [done|].
      intros Hhead. by apply IH.
    + rewrite decide_True by done. by intros [= ->].
  - intros k rest Hidx ->. unfold statistics.
    rewrite (stats_loop_step df k rest true ∅ w d Hd).
    unfold mbind at 1, Py_bind, py_bind.
    rewrite (stats_plot_run df k _ w d Hd), Hidx.
    by destruct (columns d !! k).
Qed.

End StatisticsPlot.

(** ** find_lpe_gains always returns *)

Lemma for_each_print_run {A} (xs : list A) (f : A → line) w :
  for_each xs (λ x, print (f x)) w =
    (Ok (), {| frames := frames w; canvas := canvas w;
               stdout := stdout w ++ (f <$> xs) |}).
Proof.
  revert w. induction xs as [|x xs IH]; intros w.
  - cbn. by rewrite app_nil_r, world_eta.
  - cbn [for_each]. unfold mbind, Py_bind, py_bind. cbn [print].
    rewrite IH. cbn [frames canvas stdout]. by rewrite <- app_assoc.
Qed.

(** The dictionary display of [find_lpe_gains] has eight different keys. *)
Lemma lpe_dict_size (v1 v2 v3 v4 v5 v6 v7 v8 : num) :
  size (<["LPE_GPS_VZ" := v1]>
       (<["LPE_GPS_VXY" := v2]>
       (<["LPE_GPS_Z" := v3]>
       (<["LPE_GPS_XY" := v4]>
       (<["LPE_ACC_Z" := v5]>
       (<["LPE_ACC_XY" := v6]>
       (<["LPE_BAR_Z" := v7]>
       (<["LPE_LDR_Z" := v8]> (∅ : gmap string num))))))))) = 8%nat.
Proof. vm_compute. reflexivity. Qed.

Lemma lpe_dict_dom (v1 v2 v3 v4 v5 v6 v7 v8 : num) :
  dom (<["LPE_GPS_VZ" := v1]>
       (<["LPE_GPS_VXY" := v2]>
       (<["LPE_GPS_Z" := v3]>
       (<["LPE_GPS_XY" := v4]>
       (<["LPE_ACC_Z" := v5]>
       (<["LPE_ACC_XY" := v6]>
       (<["LPE_BAR_Z" := v7]>
       (<["LPE_LDR_Z" := v8]> (∅ : gmap string num))))))))) =
    list_to_set lpe_names.
Proof.
  unfold lpe_names. rewrite !dom_insert_L, dom_empty_L. cbn [list_to_set].
  apply set_eq. intros k.
  rewrite !elem_of_union, !elem_of_singleton, elem_of_empty. tauto.
Qed.

Section GainsTotal.
Context `{Numeric}.

Lemma find_lpe_gains_eq df printing w :
  find_lpe_gains df printing w =
    match lpe_params (foldl (λ acc k, stats_store k (key_stats w df k) acc)
                        ∅ lpe_keys) with
    | Ok params =>
        (Ok params,
         {| frames := frames w; canvas := canvas w;
            stdout := stdout w ++
              (if printing
               then (λ kv, PrintParam kv.1 kv.2) <$> map_to_list params
               else []) |})
    | Raise e => (Raise e, w)
    end.
Proof.
  unfold find_lpe_gains, mbind, Py_bind, py_bind.
  rewrite statistics_noplot. unfold lift.
  destruct (lpe_params _) as [params|e]; [|done].
  destruct printing.
  - by rewrite for_each_print_run.
  - cbn. by rewrite app_nil_r, world_eta.
Qed.

Lemma find_lpe_gains_run df printing w params :
  (find_lpe_gains df printing w).1 = Ok params →
  find_lpe_gains df printing w =
    (Ok params,
     {| frames := frames w; canvas := canvas w;
        stdout := stdout w ++
          (if printing
           then (λ kv, PrintParam kv.1 kv.2) <$> map_to_list params
           else []) |}).
Proof.
  rewrite find_lpe_gains_eq. destruct (lpe_params _) as [params'|e]; [|done].
  by intros [= ->].
Qed.

Lemma key_stats_missing w df k :
  (∀ d, frames w !! df = Some d → columns d !! k = None) →
  key_stats w df k = stats_except.
Proof.
  intros Hk. unfold key_stats. destruct (frames w !! df) as [d|]; [|done].
  by rewrite stats_try_missing_column by by apply Hk.
Qed.

(** X14. [find_lpe_gains] always returns, on any frame and any state: a
    dictionary with exactly the eight names [LPE_LDR_Z], [LPE_BAR_Z],
    [LPE_ACC_XY], [LPE_ACC_Z], [LPE_GPS_XY], [LPE_GPS_Z], [LPE_GPS_VXY]
    and [LPE_GPS_VZ].  It changes neither frames nor figure, prints eight
    lines when [printing] is true and nothing when not, and returns the
    same dictionary for both values of [printing].  On a frame with none
    of the eleven sensor columns every entry is the integer [0]. *)
Theorem find_lpe_gains_total (df : loc) (printing : bool) (w : world) :
  ∃ params out,
    find_lpe_gains df printing w =
      (Ok params, {| frames := frames w; canvas := canvas w;
                     stdout := stdout w ++ out |}) ∧
    dom params = list_to_set lpe_names ∧
    size params = 8%nat ∧
    length out = (if printing then 8 else 0)%nat ∧
    (find_lpe_gains df (negb printing) w).1 = Ok params ∧
    ((∀ k d, k ∈ lpe_keys → frames w !! df = Some d → columns d !! k = None) →
     ∀ name, name ∈ lpe_names → params !! name = Some (PyInt 0)).
Proof.
  pose proof (find_lpe_gains_params df printing w) as Hp.
  pose proof (find_lpe_gains_params df (negb printing) w) as Hn.
  cbv zeta in Hp, Hn. set (params := <["LPE_GPS_VZ" := _]> _) in *.
  exists params. eexists. split; [by apply find_lpe_gains_run|].
  split; [apply lpe_dict_dom|]. split; [apply lpe_dict_size|].
  split; [|split; [done|]].
  - destruct printing; [|done]. by rewrite length_fmap, length_map_to_list.
  - intros Hmiss name Hname.
    assert (Hz : ∀ k, k ∈ lpe_keys → key_stats w df k = stats_except).
    { intros k Hk. apply key_stats_missing. intros d. by apply Hmiss. }
    unfold params.
    rewrite !Hz by (apply (bool_decide_unpack _); by vm_compute).
    cbn [stats_except l_stddev l_noise_power array_max2].
    revert Hname. unfold lpe_names. rewrite !elem_of_cons, elem_of_nil.
    intros [->|[->|[->|[->|[->|[->|[->|[->|[]]]]]]]]]; by vm_compute.
Qed.

End GainsTotal.

(** ** _plot_outputs *)

(** *** The maximum of a series is positive when a sample is *)

Lemma ltb_zero_positive x :
  PrimFloat.ltb 0%float x = true ↔ positive_sf (Prim2SF x).
Proof.
  rewrite ltb_spec. change (Prim2SF 0%float) with (S754_zero false).
  unfold SFltb. destruct (Prim2SF x) as [s|[]| |[] m e]; cbn; split; done.
Qed.

Lemma ltb_above_positive v x :
  PrimFloat.ltb 0%float v = true → PrimFloat.ltb v x = true →
  PrimFloat.ltb 0%float x = true.
Proof.
  rewrite !ltb_zero_positive, ltb_spec. unfold SFltb.
  destruct (Prim2SF v) as [sv|[]| |[] mv ev]; try done;
    destruct (Prim2SF x) as [sx|[]| |[] mx ex]; cbn; done.
Qed.

Lemma ltb_below_positive v x :
  F64.is_nan v = false →
  PrimFloat.ltb 0%float v = false → PrimFloat.ltb 0%float x = true →
  PrimFloat.ltb v x = true.
Proof.
  rewrite is_nan_false, <- not_true_iff_false, !ltb_zero_positive, ltb_spec.
  unfold SFltb.
  destruct (Prim2SF v) as [sv|[]| |[] mv ev]; try done;
    destruct (Prim2SF x) as [sx|[]| |[] mx ex]; cbn; try done; tauto.
Qed.

Lemma foldl_max_positive v (vs : list float) :
  Forall (λ x, F64.is_nan x = false) (v :: vs) →
  PrimFloat.ltb 0%float
    (foldl (λ acc x, if PrimFloat.ltb acc x then x else acc) v vs) =
    PrimFloat.ltb 0%float v || existsb (PrimFloat.ltb 0%float) vs.
Proof.
  revert v. induction vs as [|x vs IH]; intros v Hall.
  { cbn. by rewrite orb_false_r. }
  apply Forall_cons in Hall as [Hv Hall].
  pose proof Hall as [Hx Hvs]%Forall_cons.
  cbn [foldl existsb]. destruct (PrimFloat.ltb v x) eqn:Hlt.
  - rewrite IH by done. rewrite orb_assoc. f_equal.
    destruct (PrimFloat.ltb 0 v) eqn:H0; [|done].
    by rewrite (ltb_above_positive v x).
  - rewrite IH by (by constructor). rewrite orb_assoc. f_equal.
    destruct (PrimFloat.ltb 0 v) eqn:H0; [done|].
    destruct (PrimFloat.ltb 0 x) eqn:H1; [|done].
    by rewrite (ltb_below_positive v x) in Hlt.
Qed.

Lemma existsb_positive_numbers (l : list float) :
  existsb (PrimFloat.ltb 0%float) (List.filter (λ v, negb (F64.is_nan v)) l) =
    existsb (PrimFloat.ltb 0%float) l.
Proof.
  induction l as [|x l IH]; [done|]. cbn [List.filter existsb].
  destruct (F64.is_nan x) eqn:Hn; cbn [negb existsb]; rewrite IH; [|done].
  assert (PrimFloat.ltb 0 x = false) as ->; [|done].
  apply not_true_iff_false. rewrite ltb_zero_positive.
  apply F64Facts.is_nan_spec in Hn. rewrite Hn. intros [].
Qed.

(** [series.max() > 0] holds exactly when a sample is greater than
    zero. *)
Lemma series_max_positive (s : Series) :
  PrimFloat.ltb 0%float (series_max s) = has_positive s.
Proof.
  unfold series_max, has_positive.
  rewrite <- (existsb_positive_numbers (s_values s)).
  assert (Hall : Forall (λ x, F64.is_nan x = false)
                   (List.filter (λ v, negb (F64.is_nan v)) (s_values s))).
  { apply Forall_forall. intros x [_ Hx]%list_elem_of_In%filter_In.
    by apply negb_true_iff. }
  destruct (List.filter _ (s_values s)) as [|v vs]; [done|].
  by rewrite foldl_max_positive.
Qed.

(** *** The loop *)

Lemma outputs_step data c w d :
  frames w !! data = Some d →
  (d ← deref data;
   s ← lift (getitem d c);
   if PrimFloat.ltb 0%float (series_max s)
   then d ← deref data; s ← lift (getitem d c); plot s true None
   else mret ()) w =
    match columns d !! c with
    | Some col =>
        (Ok (), {| frames := frames w;
                   canvas := canvas w ++ output_lines d [c];
                   stdout := stdout w |})
    | None => (Raise (KeyError c), w)
    end.
Proof.
  intros Hd. unfold output_lines. cbn [mbind list_bind].
  unfold mbind at 1 2, Py_bind, py_bind, deref, lift, getitem.
  rewrite Hd. destruct (columns d !! c) as [col|] eqn:Hc; [|done].
  rewrite series_max_positive.
  destruct (has_positive _).
  - unfold mbind, Py_bind, py_bind, plot, draw. rewrite Hd, Hc.
    cbn. by rewrite ?app_nil_r.
  - unfold mret, Py_ret, py_ret. cbn. by rewrite ?app_nil_r, world_eta.
Qed.

Lemma output_lines_cons d c names :
  output_lines d (c :: names) =
    (output_lines d [c] ++ output_lines d names)%list.
Proof. unfold output_lines. cbn [mbind list_bind]. by rewrite app_nil_r. Qed.

Lemma outputs_loop_ok data names w d :
  frames w !! data = Some d →
  Forall (λ c, is_Some (columns d !! c)) names →
  for_each names (λ c,
    d ← deref data;
    s ← lift (getitem d c);
    if PrimFloat.ltb 0%float (series_max s)
    then d ← deref data; s ← lift (getitem d c); plot s true None
    else mret ()) w =
    (Ok (), {| frames := frames w;
               canvas := canvas w ++ output_lines d names;
               stdout := stdout w |}).
Proof.
  intros Hd Hall. revert w Hd.
  induction Hall as [|c names [col Hc] _ IH]; intros w Hd.
  { cbn. by rewrite app_nil_r, world_eta. }
  cbn [for_each]. unfold mbind at 1, Py_bind at 1, py_bind at 1.
  rewrite (outputs_step data c w d Hd), Hc.
  set (w1 := {| frames := frames w |}).
  rewrite (IH w1 Hd). unfold w1. cbn [frames canvas stdout].
  by rewrite (output_lines_cons d c names), app_assoc.
Qed.

Lemma outputs_loop_missing data names w d c :
  frames w !! data = Some d →
  head (filter (λ c, columns d !! c = None) names) = Some c →
  (for_each names (λ c,
     d ← deref data;
     s ← lift (getitem d c);
     if PrimFloat.ltb 0%float (series_max s)
     then d ← deref data; s ← lift (getitem d c); plot s true None
     else mret ()) w).1 = Raise (KeyError c).
Proof.
  revert w. induction names as [|c0 names IH]; intros w Hd; [done|].
  rewrite filter_cons.
  cbn [for_each]. unfold mbind at 1, Py_bind at 1, py_bind at 1.
  rewrite (outputs_step data c0 w d Hd).
  destruct (columns d !! c0) as [col|] eqn:Hc.
  - rewrite decide_False by done. intros Hh. by apply IH.
  - rewrite decide_True by done. by intros [= ->].
Qed.

Lemma output_lines_length d names :
  (length (output_lines d names) ≤ length names)%nat.
Proof.
  unfold output_lines. induction names as [|c names IH]; [done|].
  cbn [mbind list_bind]. rewrite length_app. cbn [length].
  destruct (columns d !! c) as [col|]; [destruct (has_positive _)|]; cbn; lia.
Qed.

(** X15. [_plot_outputs(data, channel)] on a frame with the eight
    columns [OUT<channel>_Out0] to [OUT<channel>_Out7] draws, in this
    order, one line for each of them that holds a sample greater than
    zero and nothing for the others (a column of zeros, of negative
    numbers or of NaN is skipped); it changes neither frames nor output.
    When a column is missing it raises [KeyError] with the name of the
    first missing one.  It draws at most eight lines. *)
Theorem plot_outputs_positive (data : loc) (channel : Z) (w : world)
    (d : DataFrame) :
  frames w !! data = Some d →
  (Forall (λ c, is_Some (columns d !! c)) (output_names channel) →
   _plot_outputs data channel w =
     (Ok (), {| frames := frames w;
                canvas := canvas w ++ output_lines d (output_names channel);
                stdout := stdout w |})) ∧
  (∀ c, head (filter (λ c, columns d !! c = None) (output_names channel)) = Some c →
        (_plot_outputs data channel w).1 = Raise (KeyError c)) ∧
  (length (output_lines d (output_names channel)) ≤ 8)%nat.
Proof.
  intros Hd. split; [|split].
  - intros Hall. by apply (outputs_loop_ok data (output_names channel) w d).
  - intros c Hc. by apply (outputs_loop_missing data (output_names channel) w d).
  - apply (output_lines_length d (output_names channel)).
Qed.

(** ** octa_cox_data_to_ss *)

Lemma filter_missing_nil d keys :
  Forall (λ k, is_Some (columns d !! k)) keys →
  filter (λ k, columns d !! k = None) keys = [].
Proof.
  induction 1 as [|k keys [col Hk] _ IH]; [done|].
  rewrite filter_cons, decide_False, IH by congruence. done.
Qed.

Lemma select_ok d keys :
  frame_wf d → Forall (λ k, is_Some (columns d !! k)) keys →
  select d keys = Ok (columns_of d keys).
Proof.
  intros Hwf Hall. unfold select, columns_of.
  rewrite filter_missing_nil by done.
  apply mapM_ok. intros k Hk. rewrite Forall_forall in Hall.
  destruct (Hall k Hk) as [col Hc]. rewrite (getitem_Some d k col Hc), Hc.
  cbn [mbind outcome_bind obind default]. f_equal.
  apply snd_zip_same. by eapply Hwf.
Qed.

Lemma select_missing d keys k :
  head (filter (λ k, columns d !! k = None) keys) = Some k →
  select d keys = Raise (KeyError k).
Proof.
  unfold select. destruct (filter _ keys) as [|k' rest]; [done|].
  by intros [= ->].
Qed.

Lemma list_to_map_zip_lookup {A} (names : list string) (vals : list A) i n v :
  NoDup names → names !! i = Some n → vals !! i = Some v →
  (list_to_map (zip names vals) : gmap string A) !! n = Some v.
Proof.
  revert vals i. induction names as [|n0 names IH]; intros [|v0 vals] i Hnd Hn Hv;
    try done.
  apply NoDup_cons in Hnd as [Hn0 Hnd].
  change (list_to_map (zip (n0 :: names) (v0 :: vals)))
    with (<[n0 := v0]> (list_to_map (zip names vals) : gmap string A)).
  destruct i as [|i]; cbn in Hn, Hv.
  - injection Hn as <-. injection Hv as <-. apply lookup_insert_eq.
  - rewrite lookup_insert_ne.
    + by eapply IH.
    + intros ->. apply Hn0. by eapply list_elem_of_lookup_2.
Qed.

Lemma columns_of_lookup d keys i k :
  keys !! i = Some k →
  columns_of d keys !! i = Some (default [] (columns d !! k)).
Proof. intros Hk. unfold columns_of. by rewrite list_lookup_fmap, Hk. Qed.

(** The frame built from the columns [keys] under the names [names]
    holds each column under its new name. *)
Lemma frame_of_renames d names keys t i new old :
  NoDup names →
  Forall (λ k, is_Some (columns d !! k)) keys →
  names !! i = Some new → keys !! i = Some old →
  columns (frame_of names (columns_of d keys) t) !! new = columns d !! old.
Proof.
  intros Hnd Hall Hnew Hold. unfold frame_of. cbn [columns].
  rewrite (list_to_map_zip_lookup names _ i new (default [] (columns d !! old)))
    by (done || by apply columns_of_lookup).
  rewrite Forall_forall in Hall.
  destruct (Hall old) as [col ->]; [by eapply list_elem_of_lookup_2|done].
Qed.

Lemma frame_of_normalised d names keys t i new old :
  NoDup names →
  Forall (λ k, is_Some (columns d !! k)) keys →
  names !! i = Some new → keys !! i = Some old →
  columns (frame_of names ((λ col : list float, normalised <$> col) <$> columns_of d keys) t) !! new =
    (λ col : list float, normalised <$> col) <$> columns d !! old.
Proof.
  intros Hnd Hall Hnew Hold. unfold frame_of. cbn [columns].
  rewrite (list_to_map_zip_lookup names _ i new
             (normalised <$> default [] (columns d !! old))); [|done..|].
  - rewrite Forall_forall in Hall.
    destruct (Hall old) as [col ->]; [by eapply list_elem_of_lookup_2|done].
  - rewrite list_lookup_fmap, (columns_of_lookup d keys i old) by done. done.
Qed.

Lemma head_filter_app {A} (P : A → Prop) `{!∀ x, Decision (P x)} (l1 l2 : list A) :
  head (filter P (l1 ++ l2)%list) =
    match head (filter P l1) with
    | Some x => Some x
    | None => head (filter P l2)
    end.
Proof. rewrite filter_app. by destruct (filter P l1). Qed.

Lemma head_filter_missing_None d keys :
  head (filter (λ k, columns d !! k = None) keys) = None →
  Forall (λ k, is_Some (columns d !! k)) keys.
Proof.
  intros Hh. apply Forall_forall. intros k Hk.
  destruct (columns d !! k) as [col|] eqn:Hc; [by eexists|].
  assert (k ∈ filter (λ k, columns d !! k = None) keys) as Hin
    by by apply list_elem_of_filter.
  destruct (filter _ keys); [by apply elem_of_nil in Hin | done].
Qed.

Section OctaFacts.
Context `{Numeric}.

(** What [octa_cox_data_to_ss] builds on a frame that has rows and the
    columns. *)
Lemma octa_cox_data_to_ss_run data w d t :
  frames w !! data = Some d →
  time_sec d = Ok t →
  frame_wf d →
  Forall (λ k, is_Some (columns d !! k)) (octa_state_keys ++ octa_meas_keys ++ octa_out_keys) →
  let xh := frame_of octa_state_names (columns_of d octa_state_keys) t in
  let y := frame_of octa_meas_names (columns_of d octa_meas_keys) t in
  let raw := (λ col : list float, normalised <$> col) <$> columns_of d octa_out_keys in
  let u_raw := frame_of octa_out_names raw t in
  let u := frame_of ["thrust"; "roll"; "pitch"; "yaw"]
                    (array_dot C_mix_octo raw) t in
  ∃ lxh ly lraw lu,
    (lxh ≠ ly ∧ lxh ≠ lraw ∧ lxh ≠ lu ∧ ly ≠ lraw ∧ ly ≠ lu ∧ lraw ≠ lu) ∧
    Forall (λ l, frames w !! l = None) [lxh; ly; lraw; lu] ∧
    octa_cox_data_to_ss data w =
      (Ok (VTuple [VSeries (zip (index d) t); VFrame lxh; VFrame lu;
                   VFrame ly; VFrame lraw]),
       {| frames := <[lu := u]> (<[lraw := u_raw]> (<[ly := y]>
                       (<[lxh := xh]> (frames w))));
          canvas := canvas w; stdout := stdout w |}).
Proof.
  intros Hd Ht Hwf Hall. cbv zeta.
  apply Forall_app in Hall as [Hs Hall]. apply Forall_app in Hall as [Hm Ho].
  pose proof (select_ok d octa_state_keys Hwf Hs) as E1.
  pose proof (select_ok d octa_meas_keys Hwf Hm) as E2.
  pose proof (select_ok d octa_out_keys Hwf Ho) as E3.
  unfold octa_state_keys in E1 at 1. unfold octa_meas_keys in E2 at 1.
  unfold octa_out_keys in E3 at 1.
  unfold octa_cox_data_to_ss, mbind, Py_bind, py_bind, deref, lift.
  rewrite Hd, Ht, E1.
  set (xh := frame_of _ _ t).
  destruct (alloc_fresh xh w) as (lxh & Hlxh & ->).
  set (w1 := {| frames := <[lxh := xh]> (frames w) |}).
  rewrite E2.
  set (y := frame_of _ _ t).
  destruct (alloc_fresh y w1) as (ly & Hly & ->).
  set (w2 := {| frames := <[ly := y]> (frames w1) |}).
  rewrite E3.
  set (u_raw := frame_of _ _ t).
  destruct (alloc_fresh u_raw w2) as (lraw & Hlraw & ->).
  set (w3 := {| frames := <[lraw := u_raw]> (frames w2) |}).
  set (u := frame_of _ _ t).
  destruct (alloc_fresh u w3) as (lu & Hlu & ->).
  unfold w3, w2, w1 in *. cbn [frames canvas stdout] in *.
  apply lookup_insert_None in Hly as [Hly Hly1].
  apply lookup_insert_None in Hlraw as [Hlraw Hlraw2].
  apply lookup_insert_None in Hlraw as [Hlraw Hlraw1].
  apply lookup_insert_None in Hlu as [Hlu Hlu3].
  apply lookup_insert_None in Hlu as [Hlu Hlu2].
  apply lookup_insert_None in Hlu as [Hlu Hlu1].
  exists lxh, ly, lraw, lu. split; [|split; [|done]].
  - repeat split; congruence.
  - repeat constructor; done.
Qed.


End OctaFacts.

(** ** What a call draws and prints *)

#[local] Instance effect_preorder d p : PreOrder (effect d p).
Proof.
  split.
  - by intros w.
  - intros w1 w2 w3 (C1 & S1 & PC1 & PS1) (C2 & S2 & PC2 & PS2).
    split; [|split; [|split]].
    + intros Hd. by rewrite C2, C1.
    + intros Hp. by rewrite S2, S1.
    + by etrans.
    + by etrans.
Qed.

Section Keeps.
Variable R : relation world.
Context `{!PreOrder R}.

Lemma keeps_ret {A} (a : A) : keeps R (mret a).
Proof. intros w. reflexivity. Qed.

Lemma keeps_lift {A} (m : outcome A) : keeps R (lift m).
Proof. intros w. reflexivity. Qed.

Lemma keeps_raise {A} e : keeps R (raise (A := A) e).
Proof. intros w. reflexivity. Qed.

Lemma keeps_deref l : keeps R (deref l).
Proof. intros w. unfold deref. destruct (frames w !! l); reflexivity. Qed.

Lemma keeps_bind {A B} (m : Py A) (f : A → Py B) :
  keeps R m → (∀ a, keeps R (f a)) → keeps R (m ≫= f).
Proof.
  intros Hm Hf w. unfold mbind, Py_bind, py_bind.
  specialize (Hm w). destruct (m w) as [[a|e] w']; [|done].
  etrans; [exact Hm|]. apply Hf.
Qed.

Lemma keeps_try {A} (m : Py A) (h : exn → Py A) :
  keeps R m → (∀ e, keeps R (h e)) → keeps R (try_except m h).
Proof.
  intros Hm Hh w. unfold try_except.
  specialize (Hm w). destruct (m w) as [[a|e] w']; [done|].
  etrans; [exact Hm|]. apply Hh.
Qed.

Lemma keeps_try_when {A} catches (m : Py A) (h : exn → Py A) :
  keeps R m → (∀ e, keeps R (h e)) → keeps R (try_except_when catches m h).
Proof.
  intros Hm Hh w. unfold try_except_when.
  specialize (Hm w). destruct (m w) as [[a|e] w']; [done|].
  destruct (catches e); [|done]. etrans; [exact Hm|]. apply Hh.
Qed.

Lemma keeps_for_each {A} (xs : list A) (body : A → Py unit) :
  (∀ x, keeps R (body x)) → keeps R (for_each xs body).
Proof.
  intros Hb. induction xs as [|x xs IH]; [apply keeps_ret|].
  apply keeps_bind; [apply Hb | by intros _].
Qed.

Lemma keeps_if {A} (b : bool) (m1 m2 : Py A) :
  keeps R m1 → keeps R m2 → keeps R (if b then m1 else m2).
Proof. by destruct b. Qed.

End Keeps.

Lemma keeps_alloc d p df : keeps (effect d p) (alloc df).
Proof. intros w. by cbn. Qed.

Lemma keeps_assign d p l df : keeps (effect d p) (assign l df).
Proof. intros w. by cbn. Qed.

Lemma keeps_draw p a : keeps (effect true p) (draw a).
Proof.
  intros w. repeat split; try done. cbn. by apply prefix_app_r.
Qed.

Lemma keeps_print d x : keeps (effect d true) (print x).
Proof.
  intros w. repeat split; try done. cbn. by apply prefix_app_r.
Qed.

Lemma keeps_weaken (d p d' p' : bool) {A} (m : Py A) :
  (d = true → d' = true) → (p = true → p' = true) →
  keeps (effect d p) m → keeps (effect d' p') m.
Proof.
  intros Hd Hp Hm w. destruct (Hm w) as (C & S & PC & PS).
  repeat split; try done.
  - intros Hd'. apply C. destruct d; [|done]. by rewrite Hd in Hd'.
  - intros Hp'. apply S. destruct p; [|done]. by rewrite Hp in Hp'.
Qed.

Ltac keeps_step :=
  lazymatch goal with
  | |- keeps _ (mret _) => apply keeps_ret
  | |- keeps _ (raise _) => apply keeps_raise
  | |- keeps _ (lift _) => apply keeps_lift
  | |- keeps _ (deref _) => apply keeps_deref
  | |- keeps _ (alloc _) => apply keeps_alloc
  | |- keeps _ (assign _ _) => apply keeps_assign
  | |- keeps _ (draw _) => apply keeps_draw
  | |- keeps _ (print _) => apply keeps_print
  | |- keeps _ (_ ≫= _) => apply keeps_bind; [..|intros ?]
  | |- keeps _ (try_except _ _) => apply keeps_try; [..|intros ?]
  | |- keeps _ (try_except_when _ _ _) => apply keeps_try_when; [..|intros ?]
  | |- keeps _ (for_each _ _) => apply keeps_for_each; [..|intros ?]
  | |- keeps _ (if _ then _ else _) => apply keeps_if
  | |- keeps _ (procedure _) => unfold procedure
  | |- keeps _ (returning _ _) => unfold returning
  | |- keeps _ (attr _ _) => unfold attr
  | |- keeps _ (plot _ _ _) => unfold plot
  | |- keeps _ (plot_attr _ _ _) => unfold plot_attr
  | |- keeps _ (plot_deg _ _ _) => unfold plot_deg
  | |- keeps _ (plot_percent _ _) => unfold plot_percent
  | |- keeps _ (_plot_outputs _ _) => unfold _plot_outputs
  | |- keeps _ (background_flight_modes _ _) => unfold background_flight_modes
  | |- PreOrder _ => apply _
  end.

Ltac keeps_auto := repeat keeps_step.

Section CallOutput.
Context `{Numeric}.
Variable cnames : list (string * string).

Lemma statistics_effect df keys plot :
  keeps (effect plot false) (statistics df keys plot).
Proof.
  destruct keys as [keys|]; [|cbn [statistics]; keeps_auto].
  unfold statistics. generalize (∅ : gmap string num).
  induction keys as [|k keys IH]; intros data; cbn [stats_loop].
  - keeps_auto.
  - destruct plot; unfold stats_plot; keeps_auto; apply IH.
Qed.

Lemma find_lpe_gains_effect df printing :
  keeps (effect false printing) (find_lpe_gains df printing).
Proof.
  unfold find_lpe_gains. destruct printing; keeps_auto;
    apply (keeps_weaken false false); try done; apply statistics_effect.
Qed.

Lemma call_effect f data :
  keeps (effect (draws f) (prints f)) (call cnames f data).
Proof.
  destruct f; cbn [call draws prints];
    unfold octa_cox_data_to_ss, get_float_data, get_auto_data,
      set_time_series, process_data, get_float_data, set_time_series,
      process_lpe_health, health_try;
    unfold plot_control_loops;
    unfold plot_attitude_loops, plot_attitude_rate_loops,
      plot_attitude_control_loops, plot_velocity_loops,
      plot_position_loops, plot_rc_inputs,
      plot_acceleration_raw, plot_angular_speed_raw, plot_magnetic_raw,
      plot_gps_stats, plot_distance_sensor, plot_sonar_raw,
      plot_optical_flow_raw, plot_optical_flow_quality,
      plot_px4io_outputs, plot_px4fmu_outputs, plot_modes, plot_faults;
    keeps_auto;
    first [ apply statistics_effect | apply find_lpe_gains_effect ].
Qed.

(** X17. No function of the module removes or changes what is already
    drawn or printed: after any call the figure and the standard output
    extend the ones before the call.  The figure is unchanged by the data
    preparation functions, by [find_lpe_gains], by [process_lpe_health]
    and by [statistics] without plot; the standard output is changed only
    by [find_lpe_gains] with [printing], by [process_lpe_health] and by
    [plot_faults]. *)
Theorem call_output (f : func) (data : loc) (w : world) :
  (draws f = false → canvas (call cnames f data w).2 = canvas w) ∧
  (prints f = false → stdout (call cnames f data w).2 = stdout w) ∧
  canvas w `prefix_of` canvas (call cnames f data w).2 ∧
  stdout w `prefix_of` stdout (call cnames f data w).2.
Proof.
  destruct (call_effect f data w) as (Hcanvas & Hstdout & Hdrawn & Hprinted).
  repeat split; assumption.
Qed.

End CallOutput.

(** ** get_float_data *)

Lemma get_float_data_run data w d :
  frames w !! data = Some d →
  get_float_data data w =
    match float_data_of d with
    | Ok r => alloc r w
    | Raise e => (Raise e, w)
    end.
Proof. intros Hd. unfold get_float_data. by rewrite (run_deref_lift _ _ data w d Hd). Qed.

Lemma rows_timed d time :
  frame_wf d → columns d !! "TIME_StartTime" = Some time →
  rows (frame_where (F64.isfinite <$> time) d) = List.filter timed_row (rows d).
Proof.
  intros Hwf Ht.
  rewrite <- (proj2 (getattr_values d _ time Hwf Ht)).
  apply rows_select; [done|]. by apply getitem_Some.
Qed.


(** * The theorems at concrete logs *)

#[local] Existing Instance Reference.numeric.



(** C6 holds of [LPE_GPS_XY] and [LPE_GPS_VXY] but not of [LPE_ACC_XY]
    (see [find_lpe_gains_params]): on a log whose Y accelerometer has
    standard deviation 4 and whose X accelerometer has standard deviation
    1 and noise power 1.5, the maximum of the two standard deviations is
    4 and [find_lpe_gains] gives [LPE_ACC_XY = 1.5], the noise power of
    the X channel. *)
Theorem find_lpe_gains_acc_xy :
  (statistics 1%positive (Some lpe_keys) false acc_world).1
    ≫= (λ stats, dict_get stats "IMU1_AccX_stddev") = Ok (PyFloat 1) ∧
  (statistics 1%positive (Some lpe_keys) false acc_world).1
    ≫= (λ stats, dict_get stats "IMU1_AccY_stddev") = Ok (PyFloat 4) ∧
  (statistics 1%positive (Some lpe_keys) false acc_world).1
    ≫= (λ stats, dict_get stats "IMU1_AccX_noise_power") = Ok (PyFloat 1.5) ∧
  array_max2 (PyFloat 1) (PyFloat 4) = PyFloat 4 ∧
  (find_lpe_gains 1%positive false acc_world).1
    ≫= (λ params, dict_get params "LPE_ACC_XY") = Ok (PyFloat 1.5).
Proof. repeat split; vm_compute; reflexivity. Qed.


(** C8 at the accelerometer log, which has no column [GPS_X]. *)
Lemma statistics_error_zero_witness :
  ∃ data data',
    statistics 1%positive (Some ["IMU1_AccX"; "GPS_X"]) false acc_world =
      (Ok data, acc_world) ∧
    (∀ s, s ∈ stat_suffixes → data !! ("GPS_X" +:+ s) = Some (PyInt 0)) ∧
    statistics 1%positive (Some (filter (λ x, x ≠ "GPS_X") ["IMU1_AccX"; "GPS_X"]))
      false acc_world = (Ok data', acc_world) ∧
    (∀ name, name ∉ stat_names "GPS_X" → data !! name = data' !! name).
Proof.
  apply (statistics_error_zero 1%positive ["IMU1_AccX"; "GPS_X"] acc_world
           acc_frame "GPS_X" (KeyError "GPS_X")).
  - reflexivity.
  - apply list_elem_of_further, list_elem_of_here.
  - reflexivity.
Defined.

(** C7 at the accelerometer log under two references. *)
Lemma statistics_deterministic_witness :
  (statistics 1%positive (Some lpe_keys) false acc_world).1 =
    (statistics 2%positive (Some lpe_keys) false acc_world').1 ∧
  (find_lpe_gains 1%positive true acc_world).1 =
    (find_lpe_gains 2%positive true acc_world').1 ∧
  (statistics 1%positive (Some lpe_keys) false
     (statistics 1%positive (Some lpe_keys) false acc_world).2).1 =
    (statistics 1%positive (Some lpe_keys) false acc_world).1 ∧
  (find_lpe_gains 1%positive true (find_lpe_gains 1%positive true acc_world).2).1 =
    (find_lpe_gains 1%positive true acc_world).1.
Proof.
  apply (statistics_deterministic 1%positive 2%positive lpe_keys true
           acc_world acc_world').
  reflexivity.
Defined.


(** C3, as amended, at the log of two intervals. *)
Lemma background_flight_modes_spans_witness :
  ∃ spans,
    background_flight_modes palette 1%positive climb_world =
      (Ok (), {| frames := frames climb_world;
                 canvas := canvas climb_world ++ spans;
                 stdout := stdout climb_world |}) ∧
    Forall2 (λ m a, ∃ t_min t_max,
               head (times_of m climb_series) = Some t_min ∧
               last (times_of m climb_series) = Some t_max ∧
               span_of palette m t_min t_max = Ok a)
            (unique (s_values climb_series)) spans ∧
    (distinct_modes (runs climb_series) →
     Forall2 (λ r a, interval_span palette r = Ok a) (runs climb_series) spans).
Proof.
  apply (background_flight_modes_spans palette 1%positive climb_world climb_frame).
  - reflexivity.
  - reflexivity.
  - repeat constructor.
Defined.

(** ** Examples *)

Example new_sample_example :
  new_sample [(0, 1); (1, 1); (2, 3); (3, 3); (4, 2)]%float = [(2, 3); (4, 2)]%float.
Proof. reflexivity. Qed.

Example find_meas_period_example :
  find_meas_period [(0, 1); (2, 5); (4, 5); (6, 7); (8, 1)]%float = Ok 2%float.
Proof. reflexivity. Qed.

Example find_meas_period_constant :
  find_meas_period [(0, 5); (1, 5); (2, 5)]%float = Raise IndexError.
Proof. reflexivity. Qed.

Example climb_runs_distinct : distinct_modes (runs climb_series).
Proof. cbn. repeat constructor. Qed.

Example climb_spans :
  canvas (background_flight_modes palette 1%positive climb_world).2 =
    [AxVSpan 0 1 0.3 "w" "MANUAL"; AxVSpan 2 3 0.3 "green" "POSCTL"]%float.
Proof. vm_compute. reflexivity. Qed.

Example auto_rows_example :
  index <$> frames (get_auto_data 1%positive auto_world).2 !! 2%positive =
    Some [0; 1]%float.
Proof. vm_compute. reflexivity. Qed.

Example statistics_example :
  (statistics 1%positive (Some ["IMU1_AccY"]) false acc_world).1 =
    Ok (<["IMU1_AccY_noise_power" := PyFloat 24]>
       (<["IMU1_AccY_dt" := PyFloat 1.5]>
       (<["IMU1_AccY_mean" := PyFloat 4]>
       (<["IMU1_AccY_variance" := PyFloat 16]>
       (<["IMU1_AccY_stddev" := PyFloat 4]> ∅))))).
Proof. vm_compute. reflexivity. Qed.

Example process_lpe_health_example :
  stdout (process_lpe_health 1%positive health_world).2 =
    [PrintExn (AttributeError "EST0_fTOut")].
Proof. vm_compute. reflexivity. Qed.

Example octa_cox_data_to_ss_example :
  (call [] f_octa_cox_data_to_ss 1%positive octa_world).1 =
    Ok (VTuple [VSeries [(0, 0); (1, 0.001)]%float; VFrame 2%positive;
                VFrame 5%positive; VFrame 3%positive; VFrame 4%positive]) ∧
  (frames (call [] f_octa_cox_data_to_ss 1%positive octa_world).2 !! 5%positive)
    ≫= (λ u, columns u !! "thrust") = Some [0; 1]%float ∧
  (frames (call [] f_octa_cox_data_to_ss 1%positive octa_world).2 !! 5%positive)
    ≫= (λ u, columns u !! "roll") = Some [0; 0]%float.
Proof. repeat split; vm_compute; reflexivity. Qed.

(** ** Further examples *)

(** X1 at a series of five samples with three changes. *)
Lemma new_sample_twice_witness :
  let s := [(0, 1); (1, 2); (2, 2); (3, 3); (4, 1)]%float in
  new_sample (new_sample s) = tail (new_sample s) ∧
  find_meas_period (new_sample s) =
    match tail (new_sample s) with
    | [] => Raise IndexError
    | p :: rest =>
        Ok (PrimFloat.div (PrimFloat.sub (default p (last rest)).1 p.1)
                          (F64.of_Z (Z.of_nat (length (p :: rest)))))
    end.
Proof.
  apply (new_sample_twice [(0, 1); (1, 2); (2, 2); (3, 3); (4, 1)]%float).
  repeat constructor.
Defined.

(** X2 at the log whose [GPS_Y] changes once. *)
Lemma statistics_few_changes_witness :
  ∃ data,
    statistics 1%positive (Some ["GPS_X"; "GPS_Y"]) false gps_world =
      (Ok data, gps_world) ∧
    (∀ s, s ∈ stat_suffixes → data !! ("GPS_Y" +:+ s) = Some (PyInt 0)) ∧
    (∀ s, s ∈ stat_suffixes → ∃ x, data !! ("GPS_X" +:+ s) = Some (PyFloat x)).
Proof.
  destruct (statistics_few_changes 1%positive ["GPS_X"; "GPS_Y"] gps_world
              gps_frame "GPS_Y" (zip (index gps_frame) [5; 5; 6; 6]%float))
    as (data & E & _ & Hy & _).
  { reflexivity. }
  { apply list_elem_of_further, list_elem_of_here. }
  { reflexivity. }
  destruct (statistics_few_changes 1%positive ["GPS_X"; "GPS_Y"] gps_world
              gps_frame "GPS_X" (zip (index gps_frame) [1; 2; 2; 3]%float))
    as (data' & E' & _ & _ & Hx).
  { reflexivity. }
  { apply list_elem_of_here. }
  { reflexivity. }
  rewrite E in E'. injection E' as <-.
  exists data. split; [exact E|]. split.
  - apply Hy. vm_compute. lia.
  - apply Hx; [repeat constructor | vm_compute; lia].
Defined.

(** X3 at the log of three rows, whose first time stamp is finite. *)
Lemma set_time_series_index_witness :
  ∃ l d',
    (set_time_series 1%positive log_world).1 = Ok l ∧
    frames log_world !! l = None ∧
    frames (set_time_series 1%positive log_world).2 = <[l := d']> (frames log_world) ∧
    columns d' = columns log_frame ∧
    frame_wf d' ∧
    index d' = seconds_after 1000000 <$> [1000000; 3000000; 4000000]%float ∧
    head (index d') = Some 0%float.
Proof.
  assert (H : ∃ l d',
    (set_time_series 1%positive log_world).1 = Ok l ∧
    frames log_world !! l = None ∧
    frames (set_time_series 1%positive log_world).2 = <[l := d']> (frames log_world) ∧
    columns d' = columns log_frame ∧
    frame_wf d' ∧
    index d' = seconds_after 1000000 <$> [1000000; 3000000; 4000000]%float ∧
    (F64.isfinite 1000000 = true → head (index d') = Some 0%float) ∧
    (F64.is_nan 1000000 = true → Forall (λ t, F64.is_nan t = true) (index d'))).
  { apply (set_time_series_index 1%positive log_world log_frame).
    - reflexivity.
    - apply (bool_decide_unpack _). vm_compute. exact I. }
  destruct H as (l & d' & H1 & H2 & H3 & H4 & H5 & H6 & H7 & _).
  exists l, d'. repeat (split; [assumption|]). apply H7. reflexivity.
Defined.

(** X4 at the log whose second time stamp is missing: two rows are
    left, at the seconds 0 and 2. *)
Lemma process_data_index_witness :
  ∃ l d',
    (process_data 1%positive gap_world).1 = Ok l ∧
    frames gap_world !! l = None ∧
    frames (process_data 1%positive gap_world).2 !! l = Some d' ∧
    frame_wf d' ∧
    columns d' =
      take_where (F64.isfinite <$> [5000000; F64.nan; 7000000]%float)
        <$> columns gap_frame ∧
    index d' = seconds_after 5000000 <$> [5000000; 7000000]%float ∧
    head (index d') = Some 0%float ∧
    Forall (λ t, F64.is_nan t = false) (index d').
Proof.
  apply (process_data_index 1%positive gap_world gap_frame).
  - reflexivity.
  - apply (bool_decide_unpack _). vm_compute. exact I.
Defined.

(** X5 at the log without [GPSP_Lon]. *)
Lemma get_auto_data_missing_column_witness :
  get_auto_data 1%positive nolon_world = (Raise (KeyError "GPSP_Lon"), nolon_world).
Proof.
  apply (get_auto_data_missing_column 1%positive nolon_world nolon_frame).
  reflexivity.
Defined.

(** X6 at the mission log. *)
Lemma get_auto_data_again_witness :
  ∃ d' l',
    frames (get_auto_data 1%positive auto_world).2 !! 2%positive = Some d' ∧
    frame_wf d' ∧
    rows d' ≠ [] ∧
    Forall (λ r, auto_row r = true) (rows d') ∧
    (get_auto_data 2%positive (get_auto_data 1%positive auto_world).2).1 = Ok l' ∧
    frames (get_auto_data 2%positive (get_auto_data 1%positive auto_world).2).2 !! l'
      = Some d'.
Proof.
  apply (get_auto_data_again 1%positive auto_world auto_frame 2%positive).
  - reflexivity.
  - apply (bool_decide_unpack _). vm_compute. exact I.
  - vm_compute. reflexivity.
Defined.

(** X7 at the log with the health words 3 and 4. *)
Lemma process_lpe_health_flags_witness :
  health_names !! 1%nat = Some "gps" ∧
  (frames (process_lpe_health 1%positive health_world).2 !! 1%positive)
    ≫= (λ d', columns d' !! "fault_gps") = Some [1; 0]%float.
Proof.
  split; [reflexivity|].
  refine (process_lpe_health_flags 1%positive health_world health_frame false
            [3; 4]%float _ _ _ _ _ 1%nat "gps" _).
  - reflexivity.
  - apply (bool_decide_unpack _). vm_compute. exact I.
  - discriminate.
  - reflexivity.
  - repeat constructor.
  - reflexivity.
Defined.

(** X8 at the log whose timeout word holds a NaN. *)
Lemma process_lpe_health_all_or_nothing_witness :
  ∃ out1 out2,
    process_lpe_health 1%positive words_world =
      (Ok 1%positive,
       {| frames := <[1%positive := after_health words_frame]> (frames words_world);
          canvas := canvas words_world;
          stdout := stdout words_world ++ out1 ++ out2 |}) ∧
    out1 = [] ∧
    ((∃ e, out2 = [PrintExn e]) ∧
     ∀ name, name ∈ health_names →
       columns (after_health words_frame) !! ("timeout_" +:+ name) =
         columns words_frame !! ("timeout_" +:+ name)).
Proof.
  apply (process_lpe_health_all_or_nothing 1%positive words_world words_frame).
  - reflexivity.
  - apply (bool_decide_unpack _). vm_compute. exact I.
Defined.

(** X9 at the log with the health words 3 and 4. *)
Lemma process_lpe_health_twice_witness :
  frames (process_lpe_health 1%positive
            (process_lpe_health 1%positive health_world).2).2 =
    frames (process_lpe_health 1%positive health_world).2.
Proof.
  apply (process_lpe_health_twice 1%positive health_world health_frame).
  - reflexivity.
  - apply (bool_decide_unpack _). vm_compute. exact I.
Defined.

(** X10 at a log that did not go through [process_lpe_health]. *)
Lemma plot_faults_never_raises_witness :
  plot_faults 1%positive plain_world =
    (Ok (), {| frames := frames plain_world; canvas := canvas plain_world;
               stdout := stdout plain_world ++
                 [PrintExn (AttributeError "fault_sonar")] |}).
Proof.
  destruct (plot_faults_never_raises 1%positive plain_world log_frame)
    as (_ & _ & _ & H).
  - reflexivity.
  - apply H. reflexivity.
Defined.

(** X11 at the log with the health words 3 and 4. *)
Lemma plot_faults_after_health_witness :
  let w1 := (process_lpe_health 1%positive health_world).2 in
  plot_faults 1%positive w1 =
    (Ok (), {| frames := frames w1;
               canvas := canvas health_world ++
                 ((λ p : Z * option float,
                     Line (zip (index health_frame)
                             (health_flags [3; 4]%float 1 0 p.1)) false p.2)
                    <$> fault_plot_bits);
               stdout := stdout w1 |}).
Proof.
  apply (plot_faults_after_health 1%positive health_world health_frame
           [3; 4]%float).
  - reflexivity.
  - apply (bool_decide_unpack _). vm_compute. exact I.
  - discriminate.
  - reflexivity.
  - repeat constructor.
Defined.

(** X12 at a log whose last row is in mode 14. *)
Lemma background_flight_modes_succeeds_witness :
  (background_flight_modes palette14 1%positive beyond_world).1 = Ok () ↔
  Forall valid_mode [0; 2; 14]%float.
Proof.
  apply (background_flight_modes_succeeds palette14 1%positive beyond_world
           beyond_frame).
  - reflexivity.
  - vm_compute. lia.
Defined.

(** X13 at the accelerometer log. *)
Lemma statistics_plot_witness :
  ∃ drawn,
    statistics 1%positive (Some ["IMU1_AccX"]) true acc_world =
      ((statistics 1%positive (Some ["IMU1_AccX"]) false acc_world).1,
       {| frames := frames acc_world; canvas := canvas acc_world ++ drawn;
          stdout := stdout acc_world |}) ∧
    length drawn = 5%nat.
Proof.
  destruct (statistics_plot 1%positive ["IMU1_AccX"] acc_world acc_frame)
    as (H & _ & _).
  - reflexivity.
  - apply H.
    + discriminate.
    + apply (bool_decide_unpack _). vm_compute. exact I.
Defined.

(** X15 at the log with eight outputs. *)
Lemma plot_outputs_positive_witness :
  _plot_outputs 1%positive 0 outputs_world =
    (Ok (), {| frames := frames outputs_world;
               canvas := canvas outputs_world ++
                 output_lines outputs_frame (output_names 0);
               stdout := stdout outputs_world |}).
Proof.
  destruct (plot_outputs_positive 1%positive 0 outputs_world outputs_frame)
    as (H & _ & _).
  - reflexivity.
  - apply H. apply (bool_decide_unpack _). vm_compute. exact I.
Defined.

Example output_lines_example :
  output_lines outputs_frame (output_names 0) =
    [Line [(0, 1000); (1, 1500)]%float true None;
     Line [(0, 0); (1, 900)]%float true None].
Proof. vm_compute. reflexivity. Qed.


